(** * terraform-provider-sabnzbd: the API client and the resource mappers

    A shallow embedding of [internal/client] (transport, servers,
    categories, folders, configuration snapshot) and of the lifecycle methods
    of [internal/provider], with the properties of the reconciliation
    contract proved about them.

    Conventions.
    - Go [string] is a Rocq [string] (a sequence of bytes).
    - Go [int] is a [Z]; the build is taken to be a 64-bit one, so [int] and
      [int64] have the same range and the conversions between them are the
      identity.  Where a range matters it is stated ([int_range]).
    - [url.Values] and [map[string]interface{}] are [gmap]s keyed by strings;
      a nil map is the empty map and a nil slice the empty list.
    - A Go function returning [(T, error)] returns a [Result T]; a function
      returning only [error] returns an [option error].
    - The network is a state [W] threaded through every call ([M]). *)

From Stdlib Require Import ZArith String Ascii List DecimalString DecimalPos DecimalZ.
From stdpp Require Import base option list gmap strings sorting.

#[local] Open Scope Z_scope.
#[local] Set Warnings "-register-all".

(** ** Go values shared by both packages *)

(** [error] values.  [Errorf format args wrapped] is
    [fmt.Errorf(format, args..., wrapped)]: the format string as the source
    has it, its string operands in order and the error given to [%w]. *)
Inductive error : Type :=
  | transportError (msg : string)      (* an error of net/http or io *)
  | SyntaxError                        (* *json.SyntaxError *)
  | UnmarshalTypeError (Value : string)(* *json.UnmarshalTypeError, by its Value *)
  | APIError (Message : string)        (* &APIError{Message: ...} *)
  | Errorf (format : string) (args : list string) (wrapped : option error).

Inductive Result (A : Type) : Type :=
  | Ok (a : A)
  | Err (e : error).
Arguments Ok {A} a.
Arguments Err {A} e.

(** The zero value of a Go type. *)
Class Zero (A : Type) := zero : A.
#[export] Instance string_Zero : Zero string := "".
#[export] Instance int_Zero : Zero Z := 0.
#[export] Instance bool_Zero : Zero bool := false.
#[export] Instance slice_Zero {A} : Zero (list A) := [].
#[export] Instance map_Zero {A} : Zero (gmap string A) := (∅ : gmap string A).

(** The range of [int] (and of [int64]). *)
Definition int_range (n : Z) : Prop := - 2 ^ 63 <= n < 2 ^ 63.

#[export] Instance int_range_dec n : Decision (int_range n).
Proof. unfold int_range. apply _. Defined.

(** ** package strings *)

(** [strings.HasSuffix]: [len(s) >= len(suffix) && s[len(s)-len(suffix):] == suffix]. *)
Definition strings_HasSuffix (s suffix : string) : bool :=
  (String.length suffix <=? String.length s)%nat
  && String.eqb
       (substring (String.length s - String.length suffix)
                  (String.length suffix) s)
       suffix.

(** [strings.TrimSuffix]: [s] without the suffix when it has it, else [s]. *)
Definition strings_TrimSuffix (s suffix : string) : string :=
  if strings_HasSuffix s suffix
  then substring 0 (String.length s - String.length suffix) s
  else s.

(** ** package strconv *)

(** [strconv.Itoa]; [fmt.Sprintf("%d", n)] prints the same text. *)
Definition strconv_Itoa (n : Z) : string :=
  NilZero.string_of_int (Z.to_int n).

(** [strconv.ParseInt(s, 10, 64)]: an optional sign, then decimal digits, and
    the value within [int64]; [None] stands for the error. *)
Definition strconv_ParseInt (s : string) : option Z :=
  let parsed :=
    match s with
    | String "+"%char digits => Z.of_uint <$> NilZero.uint_of_string digits
    | _ => Z.of_int <$> NilZero.int_of_string s
    end in
  parsed ≫= λ n, if decide (int_range n) then Some n else None.

(** ** package net/url *)

(** [shouldEscape(c, encodeQueryComponent)]: letters, digits and
    [- _ . ~] stay, every other byte is escaped. *)
Definition shouldEscape (c : ascii) : bool :=
  let n := N_of_ascii c in
  negb (  ((97 <=? n)%N && (n <=? 122)%N)
       || ((65 <=? n)%N && (n <=? 90)%N)
       || ((48 <=? n)%N && (n <=? 57)%N)
       || Ascii.eqb c "-" || Ascii.eqb c "_" || Ascii.eqb c "." || Ascii.eqb c "~").

(** [upperhex[i]] for [i < 16]. *)
Definition upperhex (i : N) : ascii :=
  match String.get (N.to_nat i) "0123456789ABCDEF" with
  | Some d => d
  | None => "0"%char
  end.

(** [url.QueryEscape]: a space becomes [+], an escaped byte [%XX]. *)
Fixpoint url_QueryEscape (s : string) : string :=
  match s with
  | EmptyString => EmptyString
  | String c rest =>
      if Ascii.eqb c " " then String "+" (url_QueryEscape rest)
      else if shouldEscape c then
        String "%" (String (upperhex (N.shiftr (N_of_ascii c) 4))
                   (String (upperhex (N.land (N_of_ascii c) 15))
                           (url_QueryEscape rest)))
      else String c (url_QueryEscape rest)
  end.

(** [url.Values] is [map[string][]string]. *)
Abbreviation Values := (gmap string (list string)).

(** [Values.Set]: the key now holds the single value. *)
Definition Values_Set (key value : string) (v : Values) : Values :=
  <[key := [value]]> v.

(** [Values.Get]: the first value of the key, or the empty string. *)
Definition Values_Get (key : string) (v : Values) : string :=
  match v !! key with
  | Some (value :: _) => value
  | _ => ""
  end.

(** The order of [slices.Sort] on strings: byte-wise lexicographic. *)
Definition string_le (s1 s2 : string) : Prop := String.leb s1 s2 = true.

#[export] Instance string_le_dec s1 s2 : Decision (string_le s1 s2).
Proof. unfold string_le. apply _. Defined.

(** The keys of a [Values], sorted as [Encode] sorts them. *)
Definition sortedKeys (v : Values) : list string :=
  merge_sort string_le (map fst (map_to_list v)).

(** The [key=value] pairs of [Values.Encode], keys sorted, both sides
    escaped, the values of one key in their order. *)
Definition encodedPairs (v : Values) : list string :=
  flat_map
    (λ k, map (λ value, url_QueryEscape k +:+ "=" +:+ url_QueryEscape value)
              (default [] (v !! k)))
    (sortedKeys v).

(** [Values.Encode]: the pairs joined by [&]. *)
Definition Values_Encode (v : Values) : string :=
  String.concat "&" (encodedPairs v).

(** ** package encoding/json *)

(** A JSON text as the decoder's scanner reads it: the members of an object
    in document order, duplicates kept; a number by its literal; strings
    already unquoted. *)
Inductive json : Type :=
  | JNull
  | JBool (b : bool)
  | JNumber (literal : string)
  | JString (s : string)
  | JArray (elems : list json)
  | JObject (members : list (string * json)).

(** The name of a JSON value's kind in the [UnmarshalTypeError] of a value
    of the wrong kind. *)
Definition json_kind (j : json) : string :=
  match j with
  | JNull => "null"
  | JBool _ => "bool"
  | JNumber _ => "number"
  | JString _ => "string"
  | JArray _ => "array"
  | JObject _ => "object"
  end.

(** [d.saveError]: the earliest error is the one kept. *)
Definition saveError (saved new : option error) : option error :=
  match saved with
  | Some _ => saved
  | None => new
  end.

(** Decoding a JSON value into a Go value that already holds [cur]: the new
    contents and the saved error, if any.  A value of the wrong kind leaves
    the target as it is and saves an [UnmarshalTypeError]; decoding goes on. *)
Class Unmarshal (A : Type) := unmarshal : json → A → A * option error.

#[export] Instance string_Unmarshal : Unmarshal string := λ j cur,
  match j with
  | JNull => (cur, None)
  | JString s => (s, None)
  | _ => (cur, Some (UnmarshalTypeError (json_kind j)))
  end.

#[export] Instance int_Unmarshal : Unmarshal Z := λ j cur,
  match j with
  | JNull => (cur, None)
  | JNumber literal =>
      match strconv_ParseInt literal with
      | Some n => (n, None)
      | None => (cur, Some (UnmarshalTypeError ("number " +:+ literal)))
      end
  | _ => (cur, Some (UnmarshalTypeError (json_kind j)))
  end.

(** The elements of an array, each decoded into the element the slice holds
    at that index, or into a zero value past its length. *)
Fixpoint decodeElems {A} `{Zero A, Unmarshal A}
    (elems : list json) (cur : list A) : list A * option error :=
  match elems with
  | [] => ([], None)
  | j :: rest =>
      let '(a, e1) := unmarshal j (hd zero cur) in
      let '(l, e2) := decodeElems rest (tl cur) in
      (a :: l, saveError e1 e2)
  end.

#[export] Instance slice_Unmarshal {A} `{Zero A, Unmarshal A} : Unmarshal (list A) :=
  λ j cur,
  match j with
  | JNull => ([], None)
  | JArray elems => decodeElems elems cur
  | _ => (cur, Some (UnmarshalTypeError (json_kind j)))
  end.

(** The members of an object decoded into a [map[string]A]: each value into a
    fresh element, stored under its key, so that a later duplicate wins. *)
Fixpoint decodeEntries {A} `{Zero A, Unmarshal A}
    (members : list (string * json)) (cur : gmap string A)
    : gmap string A * option error :=
  match members with
  | [] => (cur, None)
  | (key, j) :: rest =>
      let '(a, e1) := unmarshal j zero in
      let '(m, e2) := decodeEntries rest (<[key := a]> cur) in
      (m, saveError e1 e2)
  end.

#[export] Instance map_Unmarshal {A} `{Zero A, Unmarshal A} : Unmarshal (gmap string A) :=
  λ j cur,
  match j with
  | JNull => (∅, None)
  | JObject members => decodeEntries members cur
  | _ => (cur, Some (UnmarshalTypeError (json_kind j)))
  end.

(** *** Struct fields *)

(** [foldName] as far as it decides a match with an ASCII field name: ASCII
    letters to upper case, and the two runes whose simple fold is an ASCII
    letter, U+017F (bytes C5 BF) to [S] and U+212A (bytes E2 84 AA) to [K].
    Any other byte above 127 is kept: no ASCII name has it. *)
Definition upperASCII (c : ascii) : ascii :=
  let n := N_of_ascii c in
  if ((97 <=? n)%N && (n <=? 122)%N)%bool then ascii_of_N (n - 32) else c.

Fixpoint foldName (s : string) : string :=
  match s with
  | EmptyString => EmptyString
  | String c rest =>
      let keep := String (upperASCII c) (foldName rest) in
      match N_of_ascii c, rest with
      | 197%N, String c1 rest1 =>
          if (N_of_ascii c1 =? 191)%N then String "S" (foldName rest1) else keep
      | 226%N, String c1 (String c2 rest2) =>
          if ((N_of_ascii c1 =? 132)%N && (N_of_ascii c2 =? 170)%N)%bool
          then String "K" (foldName rest2) else keep
      | _, _ => keep
      end
  end.

(** A field of a struct [S] for the decoder: its JSON name and the decoding
    of a value into it. *)
Definition field (S : Type) : Type := string * (json → S → S * option error).

Definition fieldOf {S A} `{Unmarshal A}
    (name : string) (get : S → A) (set : A → S → S) : field S :=
  (name, λ j s, let '(a, e) := unmarshal j (get s) in (set a s, e)).

(** The field a key names: the one of exactly that name, else the first whose
    name equals it under folding; a key naming no field is skipped. *)
Definition findField {S} (fields : list (field S)) (key : string) : option (field S) :=
  match find (λ f, String.eqb (fst f) key) fields with
  | Some f => Some f
  | None => find (λ f, String.eqb (foldName (fst f)) (foldName key)) fields
  end.

Fixpoint decodeMembers {S} (fields : list (field S))
    (members : list (string * json)) (cur : S) : S * option error :=
  match members with
  | [] => (cur, None)
  | (key, j) :: rest =>
      let '(cur1, e1) :=
        match findField fields key with
        | Some f => snd f j cur
        | None => (cur, None)
        end in
      let '(cur2, e2) := decodeMembers fields rest cur1 in
      (cur2, saveError e1 e2)
  end.

(** Decoding into a struct: [null] changes nothing, an object is decoded
    member by member in document order, anything else is a type error. *)
Definition decodeStruct {S} (fields : list (field S)) : json → S → S * option error :=
  λ j cur,
  match j with
  | JNull => (cur, None)
  | JObject members => decodeMembers fields members cur
  | _ => (cur, Some (UnmarshalTypeError (json_kind j)))
  end.

(** [json.Unmarshal(body, &v)] on a response body: [None] is a body that is
    not a JSON text, which is refused before [v] is touched. *)
Definition json_Unmarshal {A} `{Unmarshal A} (body : option json) (cur : A)
    : A * option error :=
  match body with
  | None => (cur, Some SyntaxError)
  | Some j => unmarshal j cur
  end.
(** ** package client: the data model *)

(** [Server]: a news server as [get_config] returns it. *)
Module Server.
Record t : Type := mk {
  Name : string;
  Host : string;
  Port : Z;
  Username : string;
  Password : string;
  Connections : Z;
  SSL : Z;
  SSLVerify : Z;
  SSLCiphers : string;
  Enable : Z;
  Optional : Z;
  Retention : Z;
  Timeout : Z;
  Priority : Z;
  Required : Z;
  Notes : string
}.

#[global] Instance t_Zero : Zero t :=
  mk zero zero zero zero zero zero zero zero zero zero zero zero zero zero
    zero zero.

Definition set_Name (v : string) (s : t) : t :=
  mk v s.(Host) s.(Port) s.(Username) s.(Password) s.(Connections) s.(SSL)
    s.(SSLVerify) s.(SSLCiphers) s.(Enable) s.(Optional) s.(Retention)
    s.(Timeout) s.(Priority) s.(Required) s.(Notes).
Definition set_Host (v : string) (s : t) : t :=
  mk s.(Name) v s.(Port) s.(Username) s.(Password) s.(Connections) s.(SSL)
    s.(SSLVerify) s.(SSLCiphers) s.(Enable) s.(Optional) s.(Retention)
    s.(Timeout) s.(Priority) s.(Required) s.(Notes).
Definition set_Port (v : Z) (s : t) : t :=
  mk s.(Name) s.(Host) v s.(Username) s.(Password) s.(Connections) s.(SSL)
    s.(SSLVerify) s.(SSLCiphers) s.(Enable) s.(Optional) s.(Retention)
    s.(Timeout) s.(Priority) s.(Required) s.(Notes).
Definition set_Username (v : string) (s : t) : t :=
  mk s.(Name) s.(Host) s.(Port) v s.(Password) s.(Connections) s.(SSL)
    s.(SSLVerify) s.(SSLCiphers) s.(Enable) s.(Optional) s.(Retention)
    s.(Timeout) s.(Priority) s.(Required) s.(Notes).
Definition set_Password (v : string) (s : t) : t :=
  mk s.(Name) s.(Host) s.(Port) s.(Username) v s.(Connections) s.(SSL)
    s.(SSLVerify) s.(SSLCiphers) s.(Enable) s.(Optional) s.(Retention)
    s.(Timeout) s.(Priority) s.(Required) s.(Notes).
Definition set_Connections (v : Z) (s : t) : t :=
  mk s.(Name) s.(Host) s.(Port) s.(Username) s.(Password) v s.(SSL)
    s.(SSLVerify) s.(SSLCiphers) s.(Enable) s.(Optional) s.(Retention)
    s.(Timeout) s.(Priority) s.(Required) s.(Notes).
Definition set_SSL (v : Z) (s : t) : t :=
  mk s.(Name) s.(Host) s.(Port) s.(Username) s.(Password) s.(Connections) v
    s.(SSLVerify) s.(SSLCiphers) s.(Enable) s.(Optional) s.(Retention)
    s.(Timeout) s.(Priority) s.(Required) s.(Notes).
Definition set_SSLVerify (v : Z) (s : t) : t :=
  mk s.(Name) s.(Host) s.(Port) s.(Username) s.(Password) s.(Connections)
    s.(SSL) v s.(SSLCiphers) s.(Enable) s.(Optional) s.(Retention) s.(Timeout)
    s.(Priority) s.(Required) s.(Notes).
Definition set_SSLCiphers (v : string) (s : t) : t :=
  mk s.(Name) s.(Host) s.(Port) s.(Username) s.(Password) s.(Connections)
    s.(SSL) s.(SSLVerify) v s.(Enable) s.(Optional) s.(Retention) s.(Timeout)
    s.(Priority) s.(Required) s.(Notes).
Definition set_Enable (v : Z) (s : t) : t :=
  mk s.(Name) s.(Host) s.(Port) s.(Username) s.(Password) s.(Connections)
    s.(SSL) s.(SSLVerify) s.(SSLCiphers) v s.(Optional) s.(Retention)
    s.(Timeout) s.(Priority) s.(Required) s.(Notes).
Definition set_Optional (v : Z) (s : t) : t :=
  mk s.(Name) s.(Host) s.(Port) s.(Username) s.(Password) s.(Connections)
    s.(SSL) s.(SSLVerify) s.(SSLCiphers) s.(Enable) v s.(Retention)
    s.(Timeout) s.(Priority) s.(Required) s.(Notes).
Definition set_Retention (v : Z) (s : t) : t :=
  mk s.(Name) s.(Host) s.(Port) s.(Username) s.(Password) s.(Connections)
    s.(SSL) s.(SSLVerify) s.(SSLCiphers) s.(Enable) s.(Optional) v s.(Timeout)
    s.(Priority) s.(Required) s.(Notes).
Definition set_Timeout (v : Z) (s : t) : t :=
  mk s.(Name) s.(Host) s.(Port) s.(Username) s.(Password) s.(Connections)
    s.(SSL) s.(SSLVerify) s.(SSLCiphers) s.(Enable) s.(Optional) s.(Retention)
    v s.(Priority) s.(Required) s.(Notes).
Definition set_Priority (v : Z) (s : t) : t :=
  mk s.(Name) s.(Host) s.(Port) s.(Username) s.(Password) s.(Connections)
    s.(SSL) s.(SSLVerify) s.(SSLCiphers) s.(Enable) s.(Optional) s.(Retention)
    s.(Timeout) v s.(Required) s.(Notes).
Definition set_Required (v : Z) (s : t) : t :=
  mk s.(Name) s.(Host) s.(Port) s.(Username) s.(Password) s.(Connections)
    s.(SSL) s.(SSLVerify) s.(SSLCiphers) s.(Enable) s.(Optional) s.(Retention)
    s.(Timeout) s.(Priority) v s.(Notes).
Definition set_Notes (v : string) (s : t) : t :=
  mk s.(Name) s.(Host) s.(Port) s.(Username) s.(Password) s.(Connections)
    s.(SSL) s.(SSLVerify) s.(SSLCiphers) s.(Enable) s.(Optional) s.(Retention)
    s.(Timeout) s.(Priority) s.(Required) v.

(** The fields by their [json] tags, in declaration order. *)
Definition fields : list (field t) :=
  [ fieldOf "name" Name set_Name
  ; fieldOf "host" Host set_Host
  ; fieldOf "port" Port set_Port
  ; fieldOf "username" Username set_Username
  ; fieldOf "password" Password set_Password
  ; fieldOf "connections" Connections set_Connections
  ; fieldOf "ssl" SSL set_SSL
  ; fieldOf "ssl_verify" SSLVerify set_SSLVerify
  ; fieldOf "ssl_ciphers" SSLCiphers set_SSLCiphers
  ; fieldOf "enable" Enable set_Enable
  ; fieldOf "optional" Optional set_Optional
  ; fieldOf "retention" Retention set_Retention
  ; fieldOf "timeout" Timeout set_Timeout
  ; fieldOf "priority" Priority set_Priority
  ; fieldOf "required" Required set_Required
  ; fieldOf "notes" Notes set_Notes
  ].

#[global] Instance t_Unmarshal : Unmarshal t := decodeStruct fields.
End Server.

(** [Category]: a download category as [get_config] returns it. *)
Module Category.
Record t : Type := mk {
  Name : string;
  Dir : string;
  Script : string;
  Priority : Z;
  PP : string;
  Order : Z
}.

#[global] Instance t_Zero : Zero t :=
  mk zero zero zero zero zero zero.

Definition set_Name (v : string) (s : t) : t :=
  mk v s.(Dir) s.(Script) s.(Priority) s.(PP) s.(Order).
Definition set_Dir (v : string) (s : t) : t :=
  mk s.(Name) v s.(Script) s.(Priority) s.(PP) s.(Order).
Definition set_Script (v : string) (s : t) : t :=
  mk s.(Name) s.(Dir) v s.(Priority) s.(PP) s.(Order).
Definition set_Priority (v : Z) (s : t) : t :=
  mk s.(Name) s.(Dir) s.(Script) v s.(PP) s.(Order).
Definition set_PP (v : string) (s : t) : t :=
  mk s.(Name) s.(Dir) s.(Script) s.(Priority) v s.(Order).
Definition set_Order (v : Z) (s : t) : t :=
  mk s.(Name) s.(Dir) s.(Script) s.(Priority) s.(PP) v.

(** The fields by their [json] tags, in declaration order. *)
Definition fields : list (field t) :=
  [ fieldOf "name" Name set_Name
  ; fieldOf "dir" Dir set_Dir
  ; fieldOf "script" Script set_Script
  ; fieldOf "priority" Priority set_Priority
  ; fieldOf "pp" PP set_PP
  ; fieldOf "order" Order set_Order
  ].

#[global] Instance t_Unmarshal : Unmarshal t := decodeStruct fields.
End Category.

(** [RSSFeed]: an RSS feed of the configuration. *)
Module RSSFeed.
Record t : Type := mk {
  Name : string;
  URI : list string;
  Cat : string;
  PP : string;
  Script : string;
  Enable : Z;
  Priority : Z
}.

#[global] Instance t_Zero : Zero t :=
  mk zero zero zero zero zero zero zero.

Definition set_Name (v : string) (s : t) : t :=
  mk v s.(URI) s.(Cat) s.(PP) s.(Script) s.(Enable) s.(Priority).
Definition set_URI (v : list string) (s : t) : t :=
  mk s.(Name) v s.(Cat) s.(PP) s.(Script) s.(Enable) s.(Priority).
Definition set_Cat (v : string) (s : t) : t :=
  mk s.(Name) s.(URI) v s.(PP) s.(Script) s.(Enable) s.(Priority).
Definition set_PP (v : string) (s : t) : t :=
  mk s.(Name) s.(URI) s.(Cat) v s.(Script) s.(Enable) s.(Priority).
Definition set_Script (v : string) (s : t) : t :=
  mk s.(Name) s.(URI) s.(Cat) s.(PP) v s.(Enable) s.(Priority).
Definition set_Enable (v : Z) (s : t) : t :=
  mk s.(Name) s.(URI) s.(Cat) s.(PP) s.(Script) v s.(Priority).
Definition set_Priority (v : Z) (s : t) : t :=
  mk s.(Name) s.(URI) s.(Cat) s.(PP) s.(Script) s.(Enable) v.

(** The fields by their [json] tags, in declaration order. *)
Definition fields : list (field t) :=
  [ fieldOf "name" Name set_Name
  ; fieldOf "uri" URI set_URI
  ; fieldOf "cat" Cat set_Cat
  ; fieldOf "pp" PP set_PP
  ; fieldOf "script" Script set_Script
  ; fieldOf "enable" Enable set_Enable
  ; fieldOf "priority" Priority set_Priority
  ].

#[global] Instance t_Unmarshal : Unmarshal t := decodeStruct fields.
End RSSFeed.

(** [Sorter]: a sorting rule of the configuration. *)
Module Sorter.
Record t : Type := mk {
  Name : string;
  Order : Z;
  SortString : string;
  SortCats : list string;
  SortType : list Z;
  IsActive : Z
}.

#[global] Instance t_Zero : Zero t :=
  mk zero zero zero zero zero zero.

Definition set_Name (v : string) (s : t) : t :=
  mk v s.(Order) s.(SortString) s.(SortCats) s.(SortType) s.(IsActive).
Definition set_Order (v : Z) (s : t) : t :=
  mk s.(Name) v s.(SortString) s.(SortCats) s.(SortType) s.(IsActive).
Definition set_SortString (v : string) (s : t) : t :=
  mk s.(Name) s.(Order) v s.(SortCats) s.(SortType) s.(IsActive).
Definition set_SortCats (v : list string) (s : t) : t :=
  mk s.(Name) s.(Order) s.(SortString) v s.(SortType) s.(IsActive).
Definition set_SortType (v : list Z) (s : t) : t :=
  mk s.(Name) s.(Order) s.(SortString) s.(SortCats) v s.(IsActive).
Definition set_IsActive (v : Z) (s : t) : t :=
  mk s.(Name) s.(Order) s.(SortString) s.(SortCats) s.(SortType) v.

(** The fields by their [json] tags, in declaration order. *)
Definition fields : list (field t) :=
  [ fieldOf "name" Name set_Name
  ; fieldOf "order" Order set_Order
  ; fieldOf "sort_string" SortString set_SortString
  ; fieldOf "sort_cats" SortCats set_SortCats
  ; fieldOf "sort_type" SortType set_SortType
  ; fieldOf "is_active" IsActive set_IsActive
  ].

#[global] Instance t_Unmarshal : Unmarshal t := decodeStruct fields.
End Sorter.

(** The anonymous [struct { Error string `json:"error"` }] of [doRequest]. *)
Module ErrorResp.
Record t : Type := mk {
  Error : string
}.

#[global] Instance t_Zero : Zero t :=
  mk zero.

Definition set_Error (v : string) (s : t) : t :=
  mk v.

(** The fields by their [json] tags, in declaration order. *)
Definition fields : list (field t) :=
  [ fieldOf "error" Error set_Error
  ].

#[global] Instance t_Unmarshal : Unmarshal t := decodeStruct fields.
End ErrorResp.

(** [ServerInput]: the input of [SetServer]. *)
Module ServerInput.
Record t : Type := mk {
  Name : string;
  Host : string;
  Port : Z;
  Username : string;
  Password : string;
  Connections : Z;
  SSL : bool;
  SSLVerify : Z;
  SSLCiphers : string;
  Enable : bool;
  Optional : bool;
  Retention : Z;
  Timeout : Z;
  Priority : Z;
  Required : bool;
  Notes : string
}.
End ServerInput.

(** [CategoryInput]: the input of [SetCategory]. *)
Module CategoryInput.
Record t : Type := mk {
  Name : string;
  Dir : string;
  Script : string;
  Priority : Z;
  PP : string;
  Order : Z
}.
End CategoryInput.

(** [FoldersInput]: the input of [SetFolders]. *)
Module FoldersInput.
Record t : Type := mk {
  DownloadDir : string;
  DownloadFree : string;
  CompleteDir : string;
  CompleteFree : string;
  AutoResume : bool;
  Permissions : string;
  WatchedDir : string;
  WatchedDirScanSpeed : Z;
  ScriptsDir : string;
  EmailTemplatesDir : string;
  PasswordFile : string;
  NzbBackupDir : string;
  AdminDir : string;
  BackupDir : string;
  LogDir : string
}.
End FoldersInput.

(** [Folders]: the folder settings [GetFolders] returns. *)
Module Folders.
Record t : Type := mk {
  DownloadDir : string;
  DownloadFree : string;
  CompleteDir : string;
  CompleteFree : string;
  AutoResume : Z;
  Permissions : string;
  WatchedDir : string;
  WatchedDirScanSpeed : Z;
  ScriptsDir : string;
  EmailTemplatesDir : string;
  PasswordFile : string;
  NzbBackupDir : string;
  AdminDir : string;
  BackupDir : string;
  LogDir : string
}.

#[global] Instance t_Zero : Zero t :=
  mk zero zero zero zero zero zero zero zero zero zero zero zero zero zero
    zero.

Definition set_DownloadDir (v : string) (s : t) : t :=
  mk v s.(DownloadFree) s.(CompleteDir) s.(CompleteFree) s.(AutoResume)
    s.(Permissions) s.(WatchedDir) s.(WatchedDirScanSpeed) s.(ScriptsDir)
    s.(EmailTemplatesDir) s.(PasswordFile) s.(NzbBackupDir) s.(AdminDir)
    s.(BackupDir) s.(LogDir).
Definition set_DownloadFree (v : string) (s : t) : t :=
  mk s.(DownloadDir) v s.(CompleteDir) s.(CompleteFree) s.(AutoResume)
    s.(Permissions) s.(WatchedDir) s.(WatchedDirScanSpeed) s.(ScriptsDir)
    s.(EmailTemplatesDir) s.(PasswordFile) s.(NzbBackupDir) s.(AdminDir)
    s.(BackupDir) s.(LogDir).
Definition set_CompleteDir (v : string) (s : t) : t :=
  mk s.(DownloadDir) s.(DownloadFree) v s.(CompleteFree) s.(AutoResume)
    s.(Permissions) s.(WatchedDir) s.(WatchedDirScanSpeed) s.(ScriptsDir)
    s.(EmailTemplatesDir) s.(PasswordFile) s.(NzbBackupDir) s.(AdminDir)
    s.(BackupDir) s.(LogDir).
Definition set_CompleteFree (v : string) (s : t) : t :=
  mk s.(DownloadDir) s.(DownloadFree) s.(CompleteDir) v s.(AutoResume)
    s.(Permissions) s.(WatchedDir) s.(WatchedDirScanSpeed) s.(ScriptsDir)
    s.(EmailTemplatesDir) s.(PasswordFile) s.(NzbBackupDir) s.(AdminDir)
    s.(BackupDir) s.(LogDir).
Definition set_AutoResume (v : Z) (s : t) : t :=
  mk s.(DownloadDir) s.(DownloadFree) s.(CompleteDir) s.(CompleteFree) v
    s.(Permissions) s.(WatchedDir) s.(WatchedDirScanSpeed) s.(ScriptsDir)
    s.(EmailTemplatesDir) s.(PasswordFile) s.(NzbBackupDir) s.(AdminDir)
    s.(BackupDir) s.(LogDir).
Definition set_Permissions (v : string) (s : t) : t :=
  mk s.(DownloadDir) s.(DownloadFree) s.(CompleteDir) s.(CompleteFree)
    s.(AutoResume) v s.(WatchedDir) s.(WatchedDirScanSpeed) s.(ScriptsDir)
    s.(EmailTemplatesDir) s.(PasswordFile) s.(NzbBackupDir) s.(AdminDir)
    s.(BackupDir) s.(LogDir).
Definition set_WatchedDir (v : string) (s : t) : t :=
  mk s.(DownloadDir) s.(DownloadFree) s.(CompleteDir) s.(CompleteFree)
    s.(AutoResume) s.(Permissions) v s.(WatchedDirScanSpeed) s.(ScriptsDir)
    s.(EmailTemplatesDir) s.(PasswordFile) s.(NzbBackupDir) s.(AdminDir)
    s.(BackupDir) s.(LogDir).
Definition set_WatchedDirScanSpeed (v : Z) (s : t) : t :=
  mk s.(DownloadDir) s.(DownloadFree) s.(CompleteDir) s.(CompleteFree)
    s.(AutoResume) s.(Permissions) s.(WatchedDir) v s.(ScriptsDir)
    s.(EmailTemplatesDir) s.(PasswordFile) s.(NzbBackupDir) s.(AdminDir)
    s.(BackupDir) s.(LogDir).
Definition set_ScriptsDir (v : string) (s : t) : t :=
  mk s.(DownloadDir) s.(DownloadFree) s.(CompleteDir) s.(CompleteFree)
    s.(AutoResume) s.(Permissions) s.(WatchedDir) s.(WatchedDirScanSpeed) v
    s.(EmailTemplatesDir) s.(PasswordFile) s.(NzbBackupDir) s.(AdminDir)
    s.(BackupDir) s.(LogDir).
Definition set_EmailTemplatesDir (v : string) (s : t) : t :=
  mk s.(DownloadDir) s.(DownloadFree) s.(CompleteDir) s.(CompleteFree)
    s.(AutoResume) s.(Permissions) s.(WatchedDir) s.(WatchedDirScanSpeed)
    s.(ScriptsDir) v s.(PasswordFile) s.(NzbBackupDir) s.(AdminDir)
    s.(BackupDir) s.(LogDir).
Definition set_PasswordFile (v : string) (s : t) : t :=
  mk s.(DownloadDir) s.(DownloadFree) s.(CompleteDir) s.(CompleteFree)
    s.(AutoResume) s.(Permissions) s.(WatchedDir) s.(WatchedDirScanSpeed)
    s.(ScriptsDir) s.(EmailTemplatesDir) v s.(NzbBackupDir) s.(AdminDir)
    s.(BackupDir) s.(LogDir).
Definition set_NzbBackupDir (v : string) (s : t) : t :=
  mk s.(DownloadDir) s.(DownloadFree) s.(CompleteDir) s.(CompleteFree)
    s.(AutoResume) s.(Permissions) s.(WatchedDir) s.(WatchedDirScanSpeed)
    s.(ScriptsDir) s.(EmailTemplatesDir) s.(PasswordFile) v s.(AdminDir)
    s.(BackupDir) s.(LogDir).
Definition set_AdminDir (v : string) (s : t) : t :=
  mk s.(DownloadDir) s.(DownloadFree) s.(CompleteDir) s.(CompleteFree)
    s.(AutoResume) s.(Permissions) s.(WatchedDir) s.(WatchedDirScanSpeed)
    s.(ScriptsDir) s.(EmailTemplatesDir) s.(PasswordFile) s.(NzbBackupDir) v
    s.(BackupDir) s.(LogDir).
Definition set_BackupDir (v : string) (s : t) : t :=
  mk s.(DownloadDir) s.(DownloadFree) s.(CompleteDir) s.(CompleteFree)
    s.(AutoResume) s.(Permissions) s.(WatchedDir) s.(WatchedDirScanSpeed)
    s.(ScriptsDir) s.(EmailTemplatesDir) s.(PasswordFile) s.(NzbBackupDir)
    s.(AdminDir) v s.(LogDir).
Definition set_LogDir (v : string) (s : t) : t :=
  mk s.(DownloadDir) s.(DownloadFree) s.(CompleteDir) s.(CompleteFree)
    s.(AutoResume) s.(Permissions) s.(WatchedDir) s.(WatchedDirScanSpeed)
    s.(ScriptsDir) s.(EmailTemplatesDir) s.(PasswordFile) s.(NzbBackupDir)
    s.(AdminDir) s.(BackupDir) v.
End Folders.

(** *** Untyped JSON: [interface{}] *)

(** [float64] and its two conversions are parameters of the development:
    binary floating point is not modelled.  [strconv_ParseFloat] is
    [strconv.ParseFloat(s, 64)] on a number literal, [None] being its range
    error, and [int_of_float64] is the conversion [int(v)]. *)
Class Float64 : Type := {
  float64 : Type;
  strconv_ParseFloat : string → option float64;
  int_of_float64 : float64 → Z
}.

(** The dynamic values [encoding/json] stores in an [interface{}]. *)
Inductive any `{Float64} : Type :=
  | AnyNil
  | AnyBool (b : bool)
  | AnyFloat64 (f : float64)
  | AnyString (s : string)
  | AnySlice (l : list any)
  | AnyMap (m : gmap string any).

#[export] Instance any_Zero `{Float64} : Zero any := AnyNil.

(** [d.valueInterface]: a number whose literal does not convert becomes nil
    and saves the error; in an object a later duplicate key wins. *)
Fixpoint valueInterface `{Float64} (j : json) : any * option error :=
  match j with
  | JNull => (AnyNil, None)
  | JBool b => (AnyBool b, None)
  | JNumber literal =>
      match strconv_ParseFloat literal with
      | Some f => (AnyFloat64 f, None)
      | None => (AnyNil, Some (UnmarshalTypeError ("number " +:+ literal)))
      end
  | JString s => (AnyString s, None)
  | JArray elems =>
      let fix arrayInterface (l : list json) : list any * option error :=
        match l with
        | [] => ([], None)
        | x :: rest =>
            let '(a, e1) := valueInterface x in
            let '(l', e2) := arrayInterface rest in
            (a :: l', saveError e1 e2)
        end in
      let '(l, e) := arrayInterface elems in (AnySlice l, e)
  | JObject members =>
      let fix objectInterface (l : list (string * json)) (m : gmap string any)
          : gmap string any * option error :=
        match l with
        | [] => (m, None)
        | (key, x) :: rest =>
            let '(a, e1) := valueInterface x in
            let '(m', e2) := objectInterface rest (<[key := a]> m) in
            (m', saveError e1 e2)
        end in
      let '(m, e) := objectInterface members ∅ in (AnyMap m, e)
  end.

#[export] Instance any_Unmarshal `{Float64} : Unmarshal any :=
  λ j _, valueInterface j.

(** [v, ok := x.(string)] on the result of a map lookup: a missing key gives
    the nil interface, on which the assertion fails like on any value of
    another dynamic type. *)
Definition assertString `{Float64} (x : option any) : option string :=
  match x with
  | Some (AnyString s) => Some s
  | _ => None
  end.

(** [v, ok := x.(float64)]. *)
Definition assertFloat64 `{Float64} (x : option any) : option float64 :=
  match x with
  | Some (AnyFloat64 f) => Some f
  | _ => None
  end.

(** [Config]: the sections of the configuration. *)
Module Config.
Record t `{Float64} : Type := mk {
  Misc : gmap string any;
  Servers : list Server.t;
  Categories : list Category.t;
  RSS : list RSSFeed.t;
  Sorters : list Sorter.t
}.
Arguments mk {_} _ _ _ _ _.

#[global] Instance t_Zero `{Float64} : Zero t := mk zero zero zero zero zero.

Definition set_Misc `{Float64} (v : gmap string any) (s : t) : t :=
  mk v s.(Servers) s.(Categories) s.(RSS) s.(Sorters).
Definition set_Servers `{Float64} (v : list Server.t) (s : t) : t :=
  mk s.(Misc) v s.(Categories) s.(RSS) s.(Sorters).
Definition set_Categories `{Float64} (v : list Category.t) (s : t) : t :=
  mk s.(Misc) s.(Servers) v s.(RSS) s.(Sorters).
Definition set_RSS `{Float64} (v : list RSSFeed.t) (s : t) : t :=
  mk s.(Misc) s.(Servers) s.(Categories) v s.(Sorters).
Definition set_Sorters `{Float64} (v : list Sorter.t) (s : t) : t :=
  mk s.(Misc) s.(Servers) s.(Categories) s.(RSS) v.

Definition fields `{Float64} : list (field t) :=
  [ fieldOf "misc" Misc set_Misc
  ; fieldOf "servers" Servers set_Servers
  ; fieldOf "categories" Categories set_Categories
  ; fieldOf "rss" RSS set_RSS
  ; fieldOf "sorters" Sorters set_Sorters
  ].

#[global] Instance t_Unmarshal `{Float64} : Unmarshal t := decodeStruct fields.
End Config.

(** [GetConfigResponse]: the full configuration response. *)
Module GetConfigResponse.
Record t `{Float64} : Type := mk {
  Config : Config.t
}.
Arguments mk {_} _.

#[global] Instance t_Zero `{Float64} : Zero t := mk zero.

Definition set_Config `{Float64} (v : Config.t) (s : t) : t := mk v.

Definition fields `{Float64} : list (field t) :=
  [ fieldOf "config" Config set_Config ].

#[global] Instance t_Unmarshal `{Float64} : Unmarshal t := decodeStruct fields.
End GetConfigResponse.

(** ** package client: the transport *)

(** [Client]: base URL and API key.  The [http.Client] it holds (timeout of
    30 seconds) is the network interface [Transport] below. *)
Module Client.
Record t : Type := mk {
  baseURL : string;
  apiKey : string
}.
End Client.

(** [NewClient] *)
Definition NewClient (baseURL apiKey : string) : Client.t :=
  Client.mk (strings_TrimSuffix baseURL "/") apiKey.

(** What [doRequest] gets from net/http for one GET: the failure of
    [http.NewRequestWithContext], of [httpClient.Do] or of [io.ReadAll], or
    the body read, [None] when the body is not a JSON text. *)
Inductive HttpOutcome : Type :=
  | NewRequestFailed (err : error)
  | DoFailed (err : error)
  | ReadAllFailed (err : error)
  | ResponseBody (body : option json).

(** The network, as a state [W] that answers one request at a time.  A
    request is given by its URL and by the query parameters the URL encodes. *)
Class Transport (W : Type) := httpGet : string → Values → W → HttpOutcome * W.

(** Computations over the network. *)
Definition M (W A : Type) : Type := W → A * W.

Definition ret {W A} (a : A) : M W A := λ w, (a, w).

Definition bind {W A B} (m : M W A) (k : A → M W B) : M W B :=
  λ w, let '(a, w') := m w in k a w'.

Notation "x <- m ;; k" := (bind m (λ x, k))
  (at level 20, m at level 99, k at level 200, only parsing).
Notation "' pat <- m ;; k" := (bind m (λ x, match x with pat => k end))
  (at level 20, pat pattern, m at level 99, k at level 200, only parsing).

(** [if s != ""] *)
Definition nonEmpty (s : string) : bool := negb (String.eqb s "").

(** [boolToInt] *)
Definition boolToInt (b : bool) : string :=
  if b then "1" else "0".

Section Client.
Context `{Float64} {W : Type} `{Transport W}.

(** [Client.doRequest].  [result] is the pointer argument: [None] for nil,
    [Some cur] for a pointer to a variable holding [cur].  Returned are the
    error and what [result] points to afterwards. *)
Definition doRequest {R} `{Unmarshal R}
    (c : Client.t) (params : Values) (result : option R)
    : M W (option error * option R) :=
  let params := Values_Set "apikey" c.(Client.apiKey) params in
  let params := Values_Set "output" "json" params in
  let reqURL := c.(Client.baseURL) +:+ "/api?" +:+ Values_Encode params in
  outcome <- httpGet reqURL params ;;
  ret match outcome with
      | NewRequestFailed err =>
          (Some (Errorf "creating request: %w" [] (Some err)), result)
      | DoFailed err =>
          (Some (Errorf "executing request: %w" [] (Some err)), result)
      | ReadAllFailed err =>
          (Some (Errorf "reading response body: %w" [] (Some err)), result)
      | ResponseBody body =>
          (* Check for API errors in response. *)
          let '(errorResp, err) := json_Unmarshal body (zero : ErrorResp.t) in
          match err, nonEmpty errorResp.(ErrorResp.Error) with
          | None, true =>
              (Some (APIError errorResp.(ErrorResp.Error)), result)
          | _, _ =>
              match result with
              | Some cur =>
                  let '(v, err) := json_Unmarshal body cur in
                  match err with
                  | Some err =>
                      (Some (Errorf "decoding response: %w" [] (Some err)), Some v)
                  | None => (None, Some v)
                  end
              | None => (None, None)
              end
          end
      end.

(** The variable [&resp] pointed to, after the call. *)
Definition pointee {R} `{Zero R} (after : option R) : R := default zero after.

(** [Client.GetConfig] *)
Definition GetConfig (c : Client.t) : M W (Result Config.t) :=
  let params := (∅ : Values) in
  let params := Values_Set "mode" "get_config" params in
  '(err, resp) <- doRequest c params (Some (zero : GetConfigResponse.t)) ;;
  ret match err with
      | Some err => Err (Errorf "getting config: %w" [] (Some err))
      | None => Ok (pointee resp).(GetConfigResponse.Config)
      end.

(** *** servers *)

(** The parameters [SetServer] builds. *)
Definition SetServer_params (input : ServerInput.t) : Values :=
  let params := (∅ : Values) in
  let params := Values_Set "mode" "set_config" params in
  let params := Values_Set "section" "servers" params in
  let params := Values_Set "name" input.(ServerInput.Name) params in
  let params := Values_Set "host" input.(ServerInput.Host) params in
  let params := Values_Set "port" (strconv_Itoa input.(ServerInput.Port)) params in
  let params := Values_Set "username" input.(ServerInput.Username) params in
  let params := Values_Set "password" input.(ServerInput.Password) params in
  let params := Values_Set "connections" (strconv_Itoa input.(ServerInput.Connections)) params in
  let params := Values_Set "ssl" (boolToInt input.(ServerInput.SSL)) params in
  let params := Values_Set "ssl_verify" (strconv_Itoa input.(ServerInput.SSLVerify)) params in
  let params := Values_Set "ssl_ciphers" input.(ServerInput.SSLCiphers) params in
  let params := Values_Set "enable" (boolToInt input.(ServerInput.Enable)) params in
  let params := Values_Set "optional" (boolToInt input.(ServerInput.Optional)) params in
  let params := Values_Set "retention" (strconv_Itoa input.(ServerInput.Retention)) params in
  let params := Values_Set "timeout" (strconv_Itoa input.(ServerInput.Timeout)) params in
  let params := Values_Set "priority" (strconv_Itoa input.(ServerInput.Priority)) params in
  let params := Values_Set "required" (boolToInt input.(ServerInput.Required)) params in
  let params := Values_Set "notes" input.(ServerInput.Notes) params in
  params.

(** [Client.SetServer] *)
Definition SetServer (c : Client.t) (input : ServerInput.t) : M W (option error) :=
  '(err, _) <- doRequest c (SetServer_params input) (Some (zero : gmap string any)) ;;
  ret match err with
      | Some err => Some (Errorf "setting server config: %w" [] (Some err))
      | None => None
      end.

(** [Client.GetServer]: the first server of the snapshot with that name. *)
Definition GetServer (c : Client.t) (name : string) : M W (Result Server.t) :=
  r <- GetConfig c ;;
  ret match r with
      | Err err => Err err
      | Ok config =>
          match find (λ server, String.eqb server.(Server.Name) name)
                     config.(Config.Servers) with
          | Some server => Ok server
          | None => Err (Errorf "server %q not found" [name] None)
          end
      end.

(** [Client.DeleteServer] *)
Definition DeleteServer (c : Client.t) (name : string) : M W (option error) :=
  let params := (∅ : Values) in
  let params := Values_Set "mode" "del_config" params in
  let params := Values_Set "section" "servers" params in
  let params := Values_Set "keyword" name params in
  '(err, _) <- doRequest c params (Some (zero : gmap string any)) ;;
  ret match err with
      | Some err => Some (Errorf "deleting server config: %w" [] (Some err))
      | None => None
      end.

(** *** categories *)

(** The parameters [SetCategory] builds. *)
Definition SetCategory_params (input : CategoryInput.t) : Values :=
  let params := (∅ : Values) in
  let params := Values_Set "mode" "set_config" params in
  let params := Values_Set "section" "categories" params in
  let params := Values_Set "name" input.(CategoryInput.Name) params in
  let params := Values_Set "dir" input.(CategoryInput.Dir) params in
  let params := Values_Set "script" input.(CategoryInput.Script) params in
  let params := Values_Set "priority" (strconv_Itoa input.(CategoryInput.Priority)) params in
  let params := Values_Set "pp" input.(CategoryInput.PP) params in
  let params := Values_Set "order" (strconv_Itoa input.(CategoryInput.Order)) params in
  params.

(** [Client.SetCategory] *)
Definition SetCategory (c : Client.t) (input : CategoryInput.t) : M W (option error) :=
  '(err, _) <- doRequest c (SetCategory_params input) (Some (zero : gmap string any)) ;;
  ret match err with
      | Some err => Some (Errorf "setting category config: %w" [] (Some err))
      | None => None
      end.

(** [Client.GetCategory]: the first category of the snapshot with that name. *)
Definition GetCategory (c : Client.t) (name : string) : M W (Result Category.t) :=
  r <- GetConfig c ;;
  ret match r with
      | Err err => Err err
      | Ok config =>
          match find (λ cat, String.eqb cat.(Category.Name) name)
                     config.(Config.Categories) with
          | Some cat => Ok cat
          | None => Err (Errorf "category %q not found" [name] None)
          end
      end.

(** [Client.DeleteCategory] *)
Definition DeleteCategory (c : Client.t) (name : string) : M W (option error) :=
  let params := (∅ : Values) in
  let params := Values_Set "mode" "del_config" params in
  let params := Values_Set "section" "categories" params in
  let params := Values_Set "keyword" name params in
  '(err, _) <- doRequest c params (Some (zero : gmap string any)) ;;
  ret match err with
      | Some err => Some (Errorf "deleting category config: %w" [] (Some err))
      | None => None
      end.

(** *** folders *)

(** [if value != "" { params.Set(key, value) }] *)
Definition setIfNonEmpty (key value : string) (params : Values) : Values :=
  if nonEmpty value then Values_Set key value params else params.

(** The parameters [SetFolders] builds. *)
Definition SetFolders_params (input : FoldersInput.t) : Values :=
  let params := (∅ : Values) in
  let params := Values_Set "mode" "set_config" params in
  let params := Values_Set "section" "misc" params in
  let params := setIfNonEmpty "download_dir" input.(FoldersInput.DownloadDir) params in
  let params := setIfNonEmpty "download_free" input.(FoldersInput.DownloadFree) params in
  let params := setIfNonEmpty "complete_dir" input.(FoldersInput.CompleteDir) params in
  let params := setIfNonEmpty "complete_free" input.(FoldersInput.CompleteFree) params in
  let params := Values_Set "auto_resume" (boolToInt input.(FoldersInput.AutoResume)) params in
  let params := setIfNonEmpty "permissions" input.(FoldersInput.Permissions) params in
  let params := setIfNonEmpty "dirscan_dir" input.(FoldersInput.WatchedDir) params in
  let params :=
    if 0 <=? input.(FoldersInput.WatchedDirScanSpeed)
    then Values_Set "dirscan_speed"
           (strconv_Itoa input.(FoldersInput.WatchedDirScanSpeed)) params
    else params in
  let params := setIfNonEmpty "script_dir" input.(FoldersInput.ScriptsDir) params in
  let params := setIfNonEmpty "email_dir" input.(FoldersInput.EmailTemplatesDir) params in
  let params := setIfNonEmpty "password_file" input.(FoldersInput.PasswordFile) params in
  let params := setIfNonEmpty "nzb_backup_dir" input.(FoldersInput.NzbBackupDir) params in
  let params := setIfNonEmpty "admin_dir" input.(FoldersInput.AdminDir) params in
  let params := setIfNonEmpty "backup_dir" input.(FoldersInput.BackupDir) params in
  let params := setIfNonEmpty "log_dir" input.(FoldersInput.LogDir) params in
  params.

(** [Client.SetFolders] *)
Definition SetFolders (c : Client.t) (input : FoldersInput.t) : M W (option error) :=
  '(err, _) <- doRequest c (SetFolders_params input) (Some (zero : gmap string any)) ;;
  ret match err with
      | Some err => Some (Errorf "setting folders config: %w" [] (Some err))
      | None => None
      end.

(** [if v, ok := misc[key].(string); ok { folders.F = v }] *)
Definition readString (misc : gmap string any) (key : string)
    (set : string → Folders.t → Folders.t) (folders : Folders.t) : Folders.t :=
  match assertString (misc !! key) with
  | Some v => set v folders
  | None => folders
  end.

(** [if v, ok := misc[key].(float64); ok { folders.F = int(v) }] *)
Definition readInt (misc : gmap string any) (key : string)
    (set : Z → Folders.t → Folders.t) (folders : Folders.t) : Folders.t :=
  match assertFloat64 (misc !! key) with
  | Some v => set (int_of_float64 v) folders
  | None => folders
  end.

(** The [Folders] that [GetFolders] reads off the [misc] map. *)
Definition foldersOfMisc (misc : gmap string any) : Folders.t :=
  let folders := (zero : Folders.t) in
  let folders := readString misc "download_dir" Folders.set_DownloadDir folders in
  let folders := readString misc "download_free" Folders.set_DownloadFree folders in
  let folders := readString misc "complete_dir" Folders.set_CompleteDir folders in
  let folders := readString misc "complete_free" Folders.set_CompleteFree folders in
  let folders := readInt misc "auto_resume" Folders.set_AutoResume folders in
  let folders := readString misc "permissions" Folders.set_Permissions folders in
  let folders := readString misc "dirscan_dir" Folders.set_WatchedDir folders in
  let folders := readInt misc "dirscan_speed" Folders.set_WatchedDirScanSpeed folders in
  let folders := readString misc "script_dir" Folders.set_ScriptsDir folders in
  let folders := readString misc "email_dir" Folders.set_EmailTemplatesDir folders in
  let folders := readString misc "password_file" Folders.set_PasswordFile folders in
  let folders := readString misc "nzb_backup_dir" Folders.set_NzbBackupDir folders in
  let folders := readString misc "admin_dir" Folders.set_AdminDir folders in
  let folders := readString misc "backup_dir" Folders.set_BackupDir folders in
  let folders := readString misc "log_dir" Folders.set_LogDir folders in
  folders.

(** [Client.GetFolders] *)
Definition GetFolders (c : Client.t) : M W (Result Folders.t) :=
  r <- GetConfig c ;;
  ret match r with
      | Err err => Err err
      | Ok config => Ok (foldersOfMisc config.(Config.Misc))
      end.

End Client.

(** ** package provider *)

(** An attribute value of the plugin framework ([types.String],
    [types.Int64], [types.Bool]): null, unknown, or known. *)
Inductive tfvalue (A : Type) : Type :=
  | tfNull
  | tfUnknown
  | tfKnown (v : A).
Arguments tfNull {A}.
Arguments tfUnknown {A}.
Arguments tfKnown {A} v.

(** [types.StringValue], [types.Int64Value], [types.BoolValue] *)
Definition types_StringValue (s : string) : tfvalue string := tfKnown s.
Definition types_Int64Value (n : Z) : tfvalue Z := tfKnown n.
Definition types_BoolValue (b : bool) : tfvalue bool := tfKnown b.

(** [ValueString], [ValueInt64], [ValueBool]: the known value, or the zero
    value for null and unknown. *)
Definition ValueString (v : tfvalue string) : string :=
  match v with tfKnown s => s | _ => "" end.
Definition ValueInt64 (v : tfvalue Z) : Z :=
  match v with tfKnown n => n | _ => 0 end.
Definition ValueBool (v : tfvalue bool) : bool :=
  match v with tfKnown b => b | _ => false end.

(** [resp.Diagnostics.AddError(summary, fmt.Sprintf(format, err))] *)
Inductive Diagnostic : Type :=
  | AddError (summary format : string) (err : error).

(** What a lifecycle method leaves in its response: the diagnostics added and
    the state it set, [None] when it returned without [resp.State.Set]. *)
Record Response (Model : Type) : Type := mkResponse {
  Diagnostics : list Diagnostic;
  State : option Model
}.
Arguments mkResponse {Model} _ _.
Arguments Diagnostics {Model} _.
Arguments State {Model} _.

(** The resources the provider implements, and their constructors. *)
Inductive Resource : Type :=
  | ServerResource
  | CategoryResource
  | FoldersResource.

#[export] Instance Resource_eq_dec : EqDecision Resource.
Proof. solve_decision. Defined.

(** [Metadata]: the type name of a resource. *)
Definition Metadata (providerTypeName : string) (r : Resource) : string :=
  match r with
  | ServerResource => providerTypeName +:+ "_server"
  | CategoryResource => providerTypeName +:+ "_category"
  | FoldersResource => providerTypeName +:+ "_folders"
  end.

Definition NewServerResource (_ : unit) : Resource := ServerResource.
Definition NewCategoryResource (_ : unit) : Resource := CategoryResource.
Definition NewFoldersResource (_ : unit) : Resource := FoldersResource.

(** [SabnzbdProvider.Resources] *)
Definition Resources : list (unit → Resource) :=
  [ NewServerResource
  ; NewCategoryResource
  ].

(** [ServerResourceModel]: the state of a [sabnzbd_server]. *)
Module ServerResourceModel.
Record t : Type := mk {
  Name : tfvalue string;
  Host : tfvalue string;
  Port : tfvalue Z;
  Username : tfvalue string;
  Password : tfvalue string;
  Connections : tfvalue Z;
  SSL : tfvalue bool;
  SSLVerify : tfvalue Z;
  SSLCiphers : tfvalue string;
  Enable : tfvalue bool;
  Optional : tfvalue bool;
  Retention : tfvalue Z;
  Timeout : tfvalue Z;
  Priority : tfvalue Z;
  Required : tfvalue bool;
  Notes : tfvalue string
}.

Definition set_Name (v : tfvalue string) (s : t) : t :=
  mk v s.(Host) s.(Port) s.(Username) s.(Password) s.(Connections) s.(SSL)
    s.(SSLVerify) s.(SSLCiphers) s.(Enable) s.(Optional) s.(Retention)
    s.(Timeout) s.(Priority) s.(Required) s.(Notes).
Definition set_Host (v : tfvalue string) (s : t) : t :=
  mk s.(Name) v s.(Port) s.(Username) s.(Password) s.(Connections) s.(SSL)
    s.(SSLVerify) s.(SSLCiphers) s.(Enable) s.(Optional) s.(Retention)
    s.(Timeout) s.(Priority) s.(Required) s.(Notes).
Definition set_Port (v : tfvalue Z) (s : t) : t :=
  mk s.(Name) s.(Host) v s.(Username) s.(Password) s.(Connections) s.(SSL)
    s.(SSLVerify) s.(SSLCiphers) s.(Enable) s.(Optional) s.(Retention)
    s.(Timeout) s.(Priority) s.(Required) s.(Notes).
Definition set_Username (v : tfvalue string) (s : t) : t :=
  mk s.(Name) s.(Host) s.(Port) v s.(Password) s.(Connections) s.(SSL)
    s.(SSLVerify) s.(SSLCiphers) s.(Enable) s.(Optional) s.(Retention)
    s.(Timeout) s.(Priority) s.(Required) s.(Notes).
Definition set_Password (v : tfvalue string) (s : t) : t :=
  mk s.(Name) s.(Host) s.(Port) s.(Username) v s.(Connections) s.(SSL)
    s.(SSLVerify) s.(SSLCiphers) s.(Enable) s.(Optional) s.(Retention)
    s.(Timeout) s.(Priority) s.(Required) s.(Notes).
Definition set_Connections (v : tfvalue Z) (s : t) : t :=
  mk s.(Name) s.(Host) s.(Port) s.(Username) s.(Password) v s.(SSL)
    s.(SSLVerify) s.(SSLCiphers) s.(Enable) s.(Optional) s.(Retention)
    s.(Timeout) s.(Priority) s.(Required) s.(Notes).
Definition set_SSL (v : tfvalue bool) (s : t) : t :=
  mk s.(Name) s.(Host) s.(Port) s.(Username) s.(Password) s.(Connections) v
    s.(SSLVerify) s.(SSLCiphers) s.(Enable) s.(Optional) s.(Retention)
    s.(Timeout) s.(Priority) s.(Required) s.(Notes).
Definition set_SSLVerify (v : tfvalue Z) (s : t) : t :=
  mk s.(Name) s.(Host) s.(Port) s.(Username) s.(Password) s.(Connections)
    s.(SSL) v s.(SSLCiphers) s.(Enable) s.(Optional) s.(Retention) s.(Timeout)
    s.(Priority) s.(Required) s.(Notes).
Definition set_SSLCiphers (v : tfvalue string) (s : t) : t :=
  mk s.(Name) s.(Host) s.(Port) s.(Username) s.(Password) s.(Connections)
    s.(SSL) s.(SSLVerify) v s.(Enable) s.(Optional) s.(Retention) s.(Timeout)
    s.(Priority) s.(Required) s.(Notes).
Definition set_Enable (v : tfvalue bool) (s : t) : t :=
  mk s.(Name) s.(Host) s.(Port) s.(Username) s.(Password) s.(Connections)
    s.(SSL) s.(SSLVerify) s.(SSLCiphers) v s.(Optional) s.(Retention)
    s.(Timeout) s.(Priority) s.(Required) s.(Notes).
Definition set_Optional (v : tfvalue bool) (s : t) : t :=
  mk s.(Name) s.(Host) s.(Port) s.(Username) s.(Password) s.(Connections)
    s.(SSL) s.(SSLVerify) s.(SSLCiphers) s.(Enable) v s.(Retention)
    s.(Timeout) s.(Priority) s.(Required) s.(Notes).
Definition set_Retention (v : tfvalue Z) (s : t) : t :=
  mk s.(Name) s.(Host) s.(Port) s.(Username) s.(Password) s.(Connections)
    s.(SSL) s.(SSLVerify) s.(SSLCiphers) s.(Enable) s.(Optional) v s.(Timeout)
    s.(Priority) s.(Required) s.(Notes).
Definition set_Timeout (v : tfvalue Z) (s : t) : t :=
  mk s.(Name) s.(Host) s.(Port) s.(Username) s.(Password) s.(Connections)
    s.(SSL) s.(SSLVerify) s.(SSLCiphers) s.(Enable) s.(Optional) s.(Retention)
    v s.(Priority) s.(Required) s.(Notes).
Definition set_Priority (v : tfvalue Z) (s : t) : t :=
  mk s.(Name) s.(Host) s.(Port) s.(Username) s.(Password) s.(Connections)
    s.(SSL) s.(SSLVerify) s.(SSLCiphers) s.(Enable) s.(Optional) s.(Retention)
    s.(Timeout) v s.(Required) s.(Notes).
Definition set_Required (v : tfvalue bool) (s : t) : t :=
  mk s.(Name) s.(Host) s.(Port) s.(Username) s.(Password) s.(Connections)
    s.(SSL) s.(SSLVerify) s.(SSLCiphers) s.(Enable) s.(Optional) s.(Retention)
    s.(Timeout) s.(Priority) v s.(Notes).
Definition set_Notes (v : tfvalue string) (s : t) : t :=
  mk s.(Name) s.(Host) s.(Port) s.(Username) s.(Password) s.(Connections)
    s.(SSL) s.(SSLVerify) s.(SSLCiphers) s.(Enable) s.(Optional) s.(Retention)
    s.(Timeout) s.(Priority) s.(Required) v.
End ServerResourceModel.

(** [FoldersResourceModel]: the state of the [sabnzbd_folders] singleton. *)
Module FoldersResourceModel.
Record t : Type := mk {
  ID : tfvalue string;
  DownloadDir : tfvalue string;
  DownloadFree : tfvalue string;
  CompleteDir : tfvalue string;
  CompleteFree : tfvalue string;
  AutoResume : tfvalue bool;
  Permissions : tfvalue string;
  WatchedDir : tfvalue string;
  WatchedDirScanSpeed : tfvalue Z;
  ScriptsDir : tfvalue string;
  EmailTemplatesDir : tfvalue string;
  PasswordFile : tfvalue string;
  NzbBackupDir : tfvalue string;
  AdminDir : tfvalue string;
  BackupDir : tfvalue string;
  LogDir : tfvalue string
}.

Definition set_ID (v : tfvalue string) (s : t) : t :=
  mk v s.(DownloadDir) s.(DownloadFree) s.(CompleteDir) s.(CompleteFree)
    s.(AutoResume) s.(Permissions) s.(WatchedDir) s.(WatchedDirScanSpeed)
    s.(ScriptsDir) s.(EmailTemplatesDir) s.(PasswordFile) s.(NzbBackupDir)
    s.(AdminDir) s.(BackupDir) s.(LogDir).
Definition set_DownloadDir (v : tfvalue string) (s : t) : t :=
  mk s.(ID) v s.(DownloadFree) s.(CompleteDir) s.(CompleteFree) s.(AutoResume)
    s.(Permissions) s.(WatchedDir) s.(WatchedDirScanSpeed) s.(ScriptsDir)
    s.(EmailTemplatesDir) s.(PasswordFile) s.(NzbBackupDir) s.(AdminDir)
    s.(BackupDir) s.(LogDir).
Definition set_DownloadFree (v : tfvalue string) (s : t) : t :=
  mk s.(ID) s.(DownloadDir) v s.(CompleteDir) s.(CompleteFree) s.(AutoResume)
    s.(Permissions) s.(WatchedDir) s.(WatchedDirScanSpeed) s.(ScriptsDir)
    s.(EmailTemplatesDir) s.(PasswordFile) s.(NzbBackupDir) s.(AdminDir)
    s.(BackupDir) s.(LogDir).
Definition set_CompleteDir (v : tfvalue string) (s : t) : t :=
  mk s.(ID) s.(DownloadDir) s.(DownloadFree) v s.(CompleteFree) s.(AutoResume)
    s.(Permissions) s.(WatchedDir) s.(WatchedDirScanSpeed) s.(ScriptsDir)
    s.(EmailTemplatesDir) s.(PasswordFile) s.(NzbBackupDir) s.(AdminDir)
    s.(BackupDir) s.(LogDir).
Definition set_CompleteFree (v : tfvalue string) (s : t) : t :=
  mk s.(ID) s.(DownloadDir) s.(DownloadFree) s.(CompleteDir) v s.(AutoResume)
    s.(Permissions) s.(WatchedDir) s.(WatchedDirScanSpeed) s.(ScriptsDir)
    s.(EmailTemplatesDir) s.(PasswordFile) s.(NzbBackupDir) s.(AdminDir)
    s.(BackupDir) s.(LogDir).
Definition set_AutoResume (v : tfvalue bool) (s : t) : t :=
  mk s.(ID) s.(DownloadDir) s.(DownloadFree) s.(CompleteDir) s.(CompleteFree)
    v s.(Permissions) s.(WatchedDir) s.(WatchedDirScanSpeed) s.(ScriptsDir)
    s.(EmailTemplatesDir) s.(PasswordFile) s.(NzbBackupDir) s.(AdminDir)
    s.(BackupDir) s.(LogDir).
Definition set_Permissions (v : tfvalue string) (s : t) : t :=
  mk s.(ID) s.(DownloadDir) s.(DownloadFree) s.(CompleteDir) s.(CompleteFree)
    s.(AutoResume) v s.(WatchedDir) s.(WatchedDirScanSpeed) s.(ScriptsDir)
    s.(EmailTemplatesDir) s.(PasswordFile) s.(NzbBackupDir) s.(AdminDir)
    s.(BackupDir) s.(LogDir).
Definition set_WatchedDir (v : tfvalue string) (s : t) : t :=
  mk s.(ID) s.(DownloadDir) s.(DownloadFree) s.(CompleteDir) s.(CompleteFree)
    s.(AutoResume) s.(Permissions) v s.(WatchedDirScanSpeed) s.(ScriptsDir)
    s.(EmailTemplatesDir) s.(PasswordFile) s.(NzbBackupDir) s.(AdminDir)
    s.(BackupDir) s.(LogDir).
Definition set_WatchedDirScanSpeed (v : tfvalue Z) (s : t) : t :=
  mk s.(ID) s.(DownloadDir) s.(DownloadFree) s.(CompleteDir) s.(CompleteFree)
    s.(AutoResume) s.(Permissions) s.(WatchedDir) v s.(ScriptsDir)
    s.(EmailTemplatesDir) s.(PasswordFile) s.(NzbBackupDir) s.(AdminDir)
    s.(BackupDir) s.(LogDir).
Definition set_ScriptsDir (v : tfvalue string) (s : t) : t :=
  mk s.(ID) s.(DownloadDir) s.(DownloadFree) s.(CompleteDir) s.(CompleteFree)
    s.(AutoResume) s.(Permissions) s.(WatchedDir) s.(WatchedDirScanSpeed) v
    s.(EmailTemplatesDir) s.(PasswordFile) s.(NzbBackupDir) s.(AdminDir)
    s.(BackupDir) s.(LogDir).
Definition set_EmailTemplatesDir (v : tfvalue string) (s : t) : t :=
  mk s.(ID) s.(DownloadDir) s.(DownloadFree) s.(CompleteDir) s.(CompleteFree)
    s.(AutoResume) s.(Permissions) s.(WatchedDir) s.(WatchedDirScanSpeed)
    s.(ScriptsDir) v s.(PasswordFile) s.(NzbBackupDir) s.(AdminDir)
    s.(BackupDir) s.(LogDir).
Definition set_PasswordFile (v : tfvalue string) (s : t) : t :=
  mk s.(ID) s.(DownloadDir) s.(DownloadFree) s.(CompleteDir) s.(CompleteFree)
    s.(AutoResume) s.(Permissions) s.(WatchedDir) s.(WatchedDirScanSpeed)
    s.(ScriptsDir) s.(EmailTemplatesDir) v s.(NzbBackupDir) s.(AdminDir)
    s.(BackupDir) s.(LogDir).
Definition set_NzbBackupDir (v : tfvalue string) (s : t) : t :=
  mk s.(ID) s.(DownloadDir) s.(DownloadFree) s.(CompleteDir) s.(CompleteFree)
    s.(AutoResume) s.(Permissions) s.(WatchedDir) s.(WatchedDirScanSpeed)
    s.(ScriptsDir) s.(EmailTemplatesDir) s.(PasswordFile) v s.(AdminDir)
    s.(BackupDir) s.(LogDir).
Definition set_AdminDir (v : tfvalue string) (s : t) : t :=
  mk s.(ID) s.(DownloadDir) s.(DownloadFree) s.(CompleteDir) s.(CompleteFree)
    s.(AutoResume) s.(Permissions) s.(WatchedDir) s.(WatchedDirScanSpeed)
    s.(ScriptsDir) s.(EmailTemplatesDir) s.(PasswordFile) s.(NzbBackupDir) v
    s.(BackupDir) s.(LogDir).
Definition set_BackupDir (v : tfvalue string) (s : t) : t :=
  mk s.(ID) s.(DownloadDir) s.(DownloadFree) s.(CompleteDir) s.(CompleteFree)
    s.(AutoResume) s.(Permissions) s.(WatchedDir) s.(WatchedDirScanSpeed)
    s.(ScriptsDir) s.(EmailTemplatesDir) s.(PasswordFile) s.(NzbBackupDir)
    s.(AdminDir) v s.(LogDir).
Definition set_LogDir (v : tfvalue string) (s : t) : t :=
  mk s.(ID) s.(DownloadDir) s.(DownloadFree) s.(CompleteDir) s.(CompleteFree)
    s.(AutoResume) s.(Permissions) s.(WatchedDir) s.(WatchedDirScanSpeed)
    s.(ScriptsDir) s.(EmailTemplatesDir) s.(PasswordFile) s.(NzbBackupDir)
    s.(AdminDir) s.(BackupDir) v.
End FoldersResourceModel.

Section Provider.
Context `{Float64} {W : Type} `{Transport W}.

(** The [client.ServerInput] that [Create] and [Update] build from the plan. *)
Definition ServerInput_of (data : ServerResourceModel.t) : ServerInput.t :=
  ServerInput.mk
    (ValueString data.(ServerResourceModel.Name))
    (ValueString data.(ServerResourceModel.Host))
    (ValueInt64 data.(ServerResourceModel.Port))
    (ValueString data.(ServerResourceModel.Username))
    (ValueString data.(ServerResourceModel.Password))
    (ValueInt64 data.(ServerResourceModel.Connections))
    (ValueBool data.(ServerResourceModel.SSL))
    (ValueInt64 data.(ServerResourceModel.SSLVerify))
    (ValueString data.(ServerResourceModel.SSLCiphers))
    (ValueBool data.(ServerResourceModel.Enable))
    (ValueBool data.(ServerResourceModel.Optional))
    (ValueInt64 data.(ServerResourceModel.Retention))
    (ValueInt64 data.(ServerResourceModel.Timeout))
    (ValueInt64 data.(ServerResourceModel.Priority))
    (ValueBool data.(ServerResourceModel.Required))
    (ValueString data.(ServerResourceModel.Notes)).

(** [ServerResource.Create], from the plan already read into [data]. *)
Definition ServerResource_Create (r : Client.t) (data : ServerResourceModel.t)
    : M W (Response ServerResourceModel.t) :=
  let input := ServerInput_of data in
  err <- SetServer r input ;;
  ret match err with
      | Some err =>
          mkResponse
            [AddError "Client Error" "Unable to create server, got error: %s" err]
            None
      | None => mkResponse [] (Some data)
      end.

(** [ServerResource.Read], from the prior state already read into [data]. *)
Definition ServerResource_Read (r : Client.t) (data : ServerResourceModel.t)
    : M W (Response ServerResourceModel.t) :=
  res <- GetServer r (ValueString data.(ServerResourceModel.Name)) ;;
  ret match res with
      | Err err =>
          mkResponse
            [AddError "Client Error" "Unable to read server, got error: %s" err]
            None
      | Ok server =>
          let data := ServerResourceModel.set_Host (types_StringValue server.(Server.Host)) data in
          let data := ServerResourceModel.set_Port (types_Int64Value server.(Server.Port)) data in
          let data := ServerResourceModel.set_Username (types_StringValue server.(Server.Username)) data in
          (* Note: Password is not returned by the API for security reasons. *)
          let data := ServerResourceModel.set_Connections (types_Int64Value server.(Server.Connections)) data in
          let data := ServerResourceModel.set_SSL (types_BoolValue (server.(Server.SSL) =? 1)) data in
          let data := ServerResourceModel.set_SSLVerify (types_Int64Value server.(Server.SSLVerify)) data in
          let data := ServerResourceModel.set_SSLCiphers (types_StringValue server.(Server.SSLCiphers)) data in
          let data := ServerResourceModel.set_Enable (types_BoolValue (server.(Server.Enable) =? 1)) data in
          let data := ServerResourceModel.set_Optional (types_BoolValue (server.(Server.Optional) =? 1)) data in
          let data := ServerResourceModel.set_Retention (types_Int64Value server.(Server.Retention)) data in
          let data := ServerResourceModel.set_Timeout (types_Int64Value server.(Server.Timeout)) data in
          let data := ServerResourceModel.set_Priority (types_Int64Value server.(Server.Priority)) data in
          let data := ServerResourceModel.set_Required (types_BoolValue (server.(Server.Required) =? 1)) data in
          let data := ServerResourceModel.set_Notes (types_StringValue server.(Server.Notes)) data in
          mkResponse [] (Some data)
      end.

(** The [client.FoldersInput] that [Create] and [Update] build from the plan. *)
Definition FoldersInput_of (data : FoldersResourceModel.t) : FoldersInput.t :=
  FoldersInput.mk
    (ValueString data.(FoldersResourceModel.DownloadDir))
    (ValueString data.(FoldersResourceModel.DownloadFree))
    (ValueString data.(FoldersResourceModel.CompleteDir))
    (ValueString data.(FoldersResourceModel.CompleteFree))
    (ValueBool data.(FoldersResourceModel.AutoResume))
    (ValueString data.(FoldersResourceModel.Permissions))
    (ValueString data.(FoldersResourceModel.WatchedDir))
    (ValueInt64 data.(FoldersResourceModel.WatchedDirScanSpeed))
    (ValueString data.(FoldersResourceModel.ScriptsDir))
    (ValueString data.(FoldersResourceModel.EmailTemplatesDir))
    (ValueString data.(FoldersResourceModel.PasswordFile))
    (ValueString data.(FoldersResourceModel.NzbBackupDir))
    (ValueString data.(FoldersResourceModel.AdminDir))
    (ValueString data.(FoldersResourceModel.BackupDir))
    (ValueString data.(FoldersResourceModel.LogDir)).

(** [FoldersResource.Create], from the plan already read into [data]. *)
Definition FoldersResource_Create (r : Client.t) (data : FoldersResourceModel.t)
    : M W (Response FoldersResourceModel.t) :=
  let input := FoldersInput_of data in
  err <- SetFolders r input ;;
  ret match err with
      | Some err =>
          mkResponse
            [AddError "Client Error"
               "Unable to create folders configuration, got error: %s" err]
            None
      | None =>
          let data := FoldersResourceModel.set_ID (types_StringValue "folders") data in
          mkResponse [] (Some data)
      end.

(** [FoldersResource.Read], from the prior state already read into [data]. *)
Definition FoldersResource_Read (r : Client.t) (data : FoldersResourceModel.t)
    : M W (Response FoldersResourceModel.t) :=
  res <- GetFolders r ;;
  ret match res with
      | Err err =>
          mkResponse
            [AddError "Client Error"
               "Unable to read folders configuration, got error: %s" err]
            None
      | Ok folders =>
          let data := FoldersResourceModel.set_ID (types_StringValue "folders") data in
          let data := FoldersResourceModel.set_DownloadDir (types_StringValue folders.(Folders.DownloadDir)) data in
          let data := FoldersResourceModel.set_DownloadFree (types_StringValue folders.(Folders.DownloadFree)) data in
          let data := FoldersResourceModel.set_CompleteDir (types_StringValue folders.(Folders.CompleteDir)) data in
          let data := FoldersResourceModel.set_CompleteFree (types_StringValue folders.(Folders.CompleteFree)) data in
          let data := FoldersResourceModel.set_AutoResume (types_BoolValue (folders.(Folders.AutoResume) =? 1)) data in
          let data := FoldersResourceModel.set_Permissions (types_StringValue folders.(Folders.Permissions)) data in
          let data := FoldersResourceModel.set_WatchedDir (types_StringValue folders.(Folders.WatchedDir)) data in
          let data := FoldersResourceModel.set_WatchedDirScanSpeed (types_Int64Value folders.(Folders.WatchedDirScanSpeed)) data in
          let data := FoldersResourceModel.set_ScriptsDir (types_StringValue folders.(Folders.ScriptsDir)) data in
          let data := FoldersResourceModel.set_EmailTemplatesDir (types_StringValue folders.(Folders.EmailTemplatesDir)) data in
          let data := FoldersResourceModel.set_PasswordFile (types_StringValue folders.(Folders.PasswordFile)) data in
          let data := FoldersResourceModel.set_NzbBackupDir (types_StringValue folders.(Folders.NzbBackupDir)) data in
          let data := FoldersResourceModel.set_AdminDir (types_StringValue folders.(Folders.AdminDir)) data in
          let data := FoldersResourceModel.set_BackupDir (types_StringValue folders.(Folders.BackupDir)) data in
          let data := FoldersResourceModel.set_LogDir (types_StringValue folders.(Folders.LogDir)) data in
          mkResponse [] (Some data)
      end.

(** [FoldersResource.Update], from the plan already read into [data]. *)
Definition FoldersResource_Update (r : Client.t) (data : FoldersResourceModel.t)
    : M W (Response FoldersResourceModel.t) :=
  let input := FoldersInput_of data in
  err <- SetFolders r input ;;
  ret match err with
      | Some err =>
          mkResponse
            [AddError "Client Error"
               "Unable to update folders configuration, got error: %s" err]
            None
      | None =>
          let data := FoldersResourceModel.set_ID (types_StringValue "folders") data in
          mkResponse [] (Some data)
      end.

End Provider.

(** ** Environments *)

(** A reading of the [Float64] parameters on the integers of magnitude at
    most [2^53], which binary64 holds exactly and converts back exactly; no
    other literal converts.  It serves the concrete examples below, whose
    bodies carry no other number. *)
#[export] Instance integralFloat64 : Float64 := {|
  float64 := Z;
  strconv_ParseFloat literal :=
    strconv_ParseInt literal ≫= λ n,
      if decide (- 2 ^ 53 <= n <= 2 ^ 53) then Some n else None;
  int_of_float64 f := f
|}.

(** A scripted network: every request gets the same outcome, and the
    requests are recorded in the order they arrive. *)
Record Scripted : Type := mkScripted {
  reply : HttpOutcome;
  requests : list (string * Values)
}.

#[export] Instance Scripted_Transport : Transport Scripted :=
  λ reqURL query w,
    (w.(reply), mkScripted w.(reply) (w.(requests) ++ [(reqURL, query)])).

(** A remote that stores exactly the field values sent to it for a
    category, under the name sent, and returns them on [get_config]; only
    the categories section is kept.  An entry holds the six values as they
    were sent, that is, as text. *)
Module Stored.
Record t : Type := mk {
  name : string;
  dir : string;
  script : string;
  priority : string;
  pp : string;
  order : string
}.
End Stored.

Record Remote : Type := mkRemote {
  categories : list Stored.t
}.

(** Writing an entry: in the place of the entry of that name, or at the end. *)
Fixpoint upsert (entry : Stored.t) (l : list Stored.t) : list Stored.t :=
  match l with
  | [] => [entry]
  | e :: rest =>
      if String.eqb e.(Stored.name) entry.(Stored.name)
      then entry :: rest
      else e :: upsert entry rest
  end.

(** An entry as [get_config] shows it: the two numbers by the text sent. *)
Definition renderCategory (e : Stored.t) : json :=
  JObject
    [ ("name", JString e.(Stored.name))
    ; ("dir", JString e.(Stored.dir))
    ; ("script", JString e.(Stored.script))
    ; ("priority", JNumber e.(Stored.priority))
    ; ("pp", JString e.(Stored.pp))
    ; ("order", JNumber e.(Stored.order))
    ].

Definition renderConfig (st : Remote) : json :=
  JObject
    [ ("config",
       JObject [ ("categories", JArray (map renderCategory st.(categories))) ]) ].

Definition statusOK : json := JObject [ ("status", JBool true) ].

Definition notImplemented : json :=
  JObject [ ("status", JBool false); ("error", JString "not implemented") ].

#[export] Instance Remote_Transport : Transport Remote :=
  λ _ query st,
    let mode := Values_Get "mode" query in
    let section := Values_Get "section" query in
    if String.eqb mode "get_config" then
      (ResponseBody (Some (renderConfig st)), st)
    else if (String.eqb mode "set_config" && String.eqb section "categories")%bool then
      let entry :=
        Stored.mk (Values_Get "name" query) (Values_Get "dir" query)
                  (Values_Get "script" query) (Values_Get "priority" query)
                  (Values_Get "pp" query) (Values_Get "order" query) in
      (ResponseBody (Some statusOK), mkRemote (upsert entry st.(categories)))
    else if (String.eqb mode "del_config" && String.eqb section "categories")%bool then
      let keep e := negb (String.eqb e.(Stored.name) (Values_Get "keyword" query)) in
      (ResponseBody (Some statusOK), mkRemote (List.filter keep st.(categories)))
    else
      (ResponseBody (Some notImplemented), st).

(** The entries of a remote all of whose numbers were sent as decimal
    integers within [int]. *)
Definition storedOK (e : Stored.t) : Prop :=
  is_Some (strconv_ParseInt e.(Stored.priority))
  ∧ is_Some (strconv_ParseInt e.(Stored.order)).

#[export] Instance storedOK_dec e : Decision (storedOK e).
Proof. unfold storedOK. apply _. Defined.

(** ** Concrete values for the examples *)

Definition exampleClient : Client.t := NewClient "http://localhost:8080/" "k3y".

Definition moviesInput : CategoryInput.t :=
  CategoryInput.mk "movies" "Movies" "None" 0 "3" 1.

Definition tvStored : Stored.t := Stored.mk "tv" "TV Shows" "None" "1" "3" "0".

Definition exampleFoldersInput : FoldersInput.t :=
  FoldersInput.mk "/data/incomplete" "" "/data/complete" "20G" true "" ""
                  (-1) "/config/scripts" "" "" "" "admin" "backup" "logs".

(** A body with a non-empty [error] string and a second member [Error] that
    is not a string. *)
Definition shadowedBody : json :=
  JObject [ ("error", JString "boom"); ("Error", JBool false) ].

(** A body whose only member named [error] up to letter case and not [null]
    is a non-empty string. *)
Definition errorBody : json :=
  JObject ([ ("status", JBool false) ]
           ++ ("error", JString "boom") :: [ ("Error", JNull) ]).

(** A configuration snapshot with one server and one category, and a [misc]
    section in which [dirscan_speed] is a string and [log_dir] is [null]. *)
Definition snapshotBody : json :=
  JObject
    [ ("config",
       JObject
         [ ("misc",
            JObject
              [ ("download_dir", JString "/data/incomplete")
              ; ("auto_resume", JNumber "1")
              ; ("dirscan_speed", JString "fast")
              ; ("log_dir", JNull)
              ])
         ; ("servers",
            JArray
              [ JObject
                  [ ("name", JString "news1")
                  ; ("host", JString "n.example.com")
                  ; ("port", JNumber "563")
                  ; ("ssl", JNumber "1")
                  ; ("priority", JNumber "0")
                  ; ("password", JString "")
                  ] ])
         ; ("categories", JArray [ renderCategory tvStored ])
         ]) ].

Definition snapshotWorld : Scripted :=
  mkScripted (ResponseBody (Some snapshotBody)) [].

Definition okWorld : Scripted :=
  mkScripted (ResponseBody (Some statusOK)) [].

Definition news1Server : Server.t :=
  Server.mk "news1" "n.example.com" 563 "" "" 0 1 0 "" 0 0 0 0 0 0 "".

Definition snapshotConfig : Config.t :=
  Config.mk
    (<["log_dir" := AnyNil]>
       (<["dirscan_speed" := AnyString "fast"]>
          (<["auto_resume" := AnyFloat64 (1 : Z)]>
             (<["download_dir" := AnyString "/data/incomplete"]> ∅))))
    [ news1Server ]
    [ Category.mk "tv" "TV Shows" "None" 1 "3" 0 ]
    [] [].

(** The prior state of [news1], with the password the configuration gave. *)
Definition news1State : ServerResourceModel.t :=
  ServerResourceModel.mk
    (tfKnown "news1") (tfKnown "old.example.com") (tfKnown 119) (tfKnown "u")
    (tfKnown "s3cret") (tfKnown 8) (tfKnown false) (tfKnown 2) (tfKnown "")
    (tfKnown true) (tfKnown false) (tfKnown 0) (tfKnown 60) (tfKnown 0)
    (tfKnown false) (tfKnown "").

(** A plan for the folders singleton, its id not yet known. *)
Definition foldersPlan : FoldersResourceModel.t :=
  FoldersResourceModel.mk
    tfUnknown (tfKnown "/data/incomplete") (tfKnown "10G") (tfKnown "")
    (tfKnown "") (tfKnown true) (tfKnown "755") (tfKnown "") (tfKnown 5)
    (tfKnown "") (tfKnown "") (tfKnown "") (tfKnown "") (tfKnown "admin")
    (tfKnown "backup") (tfKnown "logs").

(** ** Vocabulary of the statements *)

(** Two names are the same up to letter case, as the decoder matches a key
    with a field. *)
Definition equalFold (s t : string) : Prop := foldName s = foldName t.

#[export] Instance equalFold_dec s t : Decision (equalFold s t).
Proof. unfold equalFold. apply _. Defined.

(** The request [doRequest] makes for [params]: the URL and the parameters
    it encodes. *)
Definition requestOf (c : Client.t) (params : Values) : string * Values :=
  let query := Values_Set "output" "json" (Values_Set "apikey" c.(Client.apiKey) params) in
  (c.(Client.baseURL) +:+ "/api?" +:+ Values_Encode query, query).

(** The body is a JSON object with a top-level member [error] holding the
    non-empty string [msg]. *)
Definition hasErrorField (body : option json) (msg : string) : Prop :=
  ∃ members,
    body = Some (JObject members)
    ∧ In ("error", JString msg) members
    ∧ msg ≠ "".

(** The string fields of [FoldersInput] with the parameter each is sent as. *)
Definition foldersStringParams : list (string * (FoldersInput.t → string)) :=
  [ ("download_dir", FoldersInput.DownloadDir)
  ; ("download_free", FoldersInput.DownloadFree)
  ; ("complete_dir", FoldersInput.CompleteDir)
  ; ("complete_free", FoldersInput.CompleteFree)
  ; ("permissions", FoldersInput.Permissions)
  ; ("dirscan_dir", FoldersInput.WatchedDir)
  ; ("script_dir", FoldersInput.ScriptsDir)
  ; ("email_dir", FoldersInput.EmailTemplatesDir)
  ; ("password_file", FoldersInput.PasswordFile)
  ; ("nzb_backup_dir", FoldersInput.NzbBackupDir)
  ; ("admin_dir", FoldersInput.AdminDir)
  ; ("backup_dir", FoldersInput.BackupDir)
  ; ("log_dir", FoldersInput.LogDir)
  ].

(** The string fields of [Folders] with the [misc] key each is read from. *)
Definition foldersStringKeys : list (string * (Folders.t → string)) :=
  [ ("download_dir", Folders.DownloadDir)
  ; ("download_free", Folders.DownloadFree)
  ; ("complete_dir", Folders.CompleteDir)
  ; ("complete_free", Folders.CompleteFree)
  ; ("permissions", Folders.Permissions)
  ; ("dirscan_dir", Folders.WatchedDir)
  ; ("script_dir", Folders.ScriptsDir)
  ; ("email_dir", Folders.EmailTemplatesDir)
  ; ("password_file", Folders.PasswordFile)
  ; ("nzb_backup_dir", Folders.NzbBackupDir)
  ; ("admin_dir", Folders.AdminDir)
  ; ("backup_dir", Folders.BackupDir)
  ; ("log_dir", Folders.LogDir)
  ].

(** The numeric fields of [Folders] with the [misc] key each is read from. *)
Definition foldersNumberKeys : list (string * (Folders.t → Z)) :=
  [ ("auto_resume", Folders.AutoResume)
  ; ("dirscan_speed", Folders.WatchedDirScanSpeed)
  ].

(** The category a client reads off a stored entry. *)
Definition categoryOf (e : Stored.t) : Category.t :=
  Category.mk e.(Stored.name) e.(Stored.dir) e.(Stored.script)
              (default 0 (strconv_ParseInt e.(Stored.priority)))
              e.(Stored.pp)
              (default 0 (strconv_ParseInt e.(Stored.order))).

(** The entry the remote keeps for an input of [SetCategory]. *)
Definition storedOf (input : CategoryInput.t) : Stored.t :=
  Stored.mk input.(CategoryInput.Name) input.(CategoryInput.Dir)
            input.(CategoryInput.Script)
            (strconv_Itoa input.(CategoryInput.Priority))
            input.(CategoryInput.PP)
            (strconv_Itoa input.(CategoryInput.Order)).

(** The [Category] with the fields of a [CategoryInput]. *)
Definition Category_of_input (input : CategoryInput.t) : Category.t :=
  Category.mk input.(CategoryInput.Name) input.(CategoryInput.Dir)
              input.(CategoryInput.Script) input.(CategoryInput.Priority)
              input.(CategoryInput.PP) input.(CategoryInput.Order).

(** * The rest of the client and of the provider *)

(** ** package encoding/json: booleans *)

#[export] Instance bool_Unmarshal : Unmarshal bool := λ j cur,
  match j with
  | JNull => (cur, None)
  | JBool b => (b, None)
  | _ => (cur, Some (UnmarshalTypeError (json_kind j)))
  end.

(** ** package errors *)

(** [errors.As(err, &apiErr)] with [apiErr] a [*APIError]: the message of the
    first [APIError] on the chain that [%w] builds, if there is one. *)
Fixpoint asAPIError (err : error) : option string :=
  match err with
  | APIError Message => Some Message
  | Errorf _ _ (Some wrapped) => asAPIError wrapped
  | _ => None
  end.

(** ** package client: status, version, scripts, category names *)

(** [ServerStatus]: the status of a news server. *)
Module ServerStatus.
Record t : Type := mk {
  ServerName : string;
  ServerActive : bool;
  ServerError : string;
  ServerPriority : Z;
  ServerActiveConn : Z;
  ServerTotalConn : Z
}.

#[global] Instance t_Zero : Zero t :=
  mk zero zero zero zero zero zero.

Definition set_ServerName (v : string) (s : t) : t :=
  mk v s.(ServerActive) s.(ServerError) s.(ServerPriority)
    s.(ServerActiveConn) s.(ServerTotalConn).
Definition set_ServerActive (v : bool) (s : t) : t :=
  mk s.(ServerName) v s.(ServerError) s.(ServerPriority) s.(ServerActiveConn)
    s.(ServerTotalConn).
Definition set_ServerError (v : string) (s : t) : t :=
  mk s.(ServerName) s.(ServerActive) v s.(ServerPriority) s.(ServerActiveConn)
    s.(ServerTotalConn).
Definition set_ServerPriority (v : Z) (s : t) : t :=
  mk s.(ServerName) s.(ServerActive) s.(ServerError) v s.(ServerActiveConn)
    s.(ServerTotalConn).
Definition set_ServerActiveConn (v : Z) (s : t) : t :=
  mk s.(ServerName) s.(ServerActive) s.(ServerError) s.(ServerPriority) v
    s.(ServerTotalConn).
Definition set_ServerTotalConn (v : Z) (s : t) : t :=
  mk s.(ServerName) s.(ServerActive) s.(ServerError) s.(ServerPriority)
    s.(ServerActiveConn) v.

(** The fields by their [json] tags, in declaration order. *)
Definition fields : list (field t) :=
  [ fieldOf "servername" ServerName set_ServerName
  ; fieldOf "serveractive" ServerActive set_ServerActive
  ; fieldOf "servererror" ServerError set_ServerError
  ; fieldOf "serverpriority" ServerPriority set_ServerPriority
  ; fieldOf "serveractiveconn" ServerActiveConn set_ServerActiveConn
  ; fieldOf "servertotalconn" ServerTotalConn set_ServerTotalConn
  ].

#[global] Instance t_Unmarshal : Unmarshal t := decodeStruct fields.
End ServerStatus.

(** [Status]: SABnzbd status information. *)
Module Status.
Record t : Type := mk {
  Version : string;
  Paused : bool;
  Speedlimit : string;
  SpeedlimitAbs : string;
  HaveWarnings : string;
  Diskspace1 : string;
  Diskspace2 : string;
  Servers : list ServerStatus.t
}.

#[global] Instance t_Zero : Zero t :=
  mk zero zero zero zero zero zero zero zero.

Definition set_Version (v : string) (s : t) : t :=
  mk v s.(Paused) s.(Speedlimit) s.(SpeedlimitAbs) s.(HaveWarnings)
    s.(Diskspace1) s.(Diskspace2) s.(Servers).
Definition set_Paused (v : bool) (s : t) : t :=
  mk s.(Version) v s.(Speedlimit) s.(SpeedlimitAbs) s.(HaveWarnings)
    s.(Diskspace1) s.(Diskspace2) s.(Servers).
Definition set_Speedlimit (v : string) (s : t) : t :=
  mk s.(Version) s.(Paused) v s.(SpeedlimitAbs) s.(HaveWarnings)
    s.(Diskspace1) s.(Diskspace2) s.(Servers).
Definition set_SpeedlimitAbs (v : string) (s : t) : t :=
  mk s.(Version) s.(Paused) s.(Speedlimit) v s.(HaveWarnings) s.(Diskspace1)
    s.(Diskspace2) s.(Servers).
Definition set_HaveWarnings (v : string) (s : t) : t :=
  mk s.(Version) s.(Paused) s.(Speedlimit) s.(SpeedlimitAbs) v s.(Diskspace1)
    s.(Diskspace2) s.(Servers).
Definition set_Diskspace1 (v : string) (s : t) : t :=
  mk s.(Version) s.(Paused) s.(Speedlimit) s.(SpeedlimitAbs) s.(HaveWarnings)
    v s.(Diskspace2) s.(Servers).
Definition set_Diskspace2 (v : string) (s : t) : t :=
  mk s.(Version) s.(Paused) s.(Speedlimit) s.(SpeedlimitAbs) s.(HaveWarnings)
    s.(Diskspace1) v s.(Servers).
Definition set_Servers (v : list ServerStatus.t) (s : t) : t :=
  mk s.(Version) s.(Paused) s.(Speedlimit) s.(SpeedlimitAbs) s.(HaveWarnings)
    s.(Diskspace1) s.(Diskspace2) v.

(** The fields by their [json] tags, in declaration order. *)
Definition fields : list (field t) :=
  [ fieldOf "version" Version set_Version
  ; fieldOf "paused" Paused set_Paused
  ; fieldOf "speedlimit" Speedlimit set_Speedlimit
  ; fieldOf "speedlimit_abs" SpeedlimitAbs set_SpeedlimitAbs
  ; fieldOf "have_warnings" HaveWarnings set_HaveWarnings
  ; fieldOf "diskspace1" Diskspace1 set_Diskspace1
  ; fieldOf "diskspace2" Diskspace2 set_Diskspace2
  ; fieldOf "servers" Servers set_Servers
  ].

#[global] Instance t_Unmarshal : Unmarshal t := decodeStruct fields.
End Status.

(** [FullStatus]: the full status response. *)
Module FullStatus.
Record t : Type := mk {
  Status : Status.t
}.

#[global] Instance t_Zero : Zero t :=
  mk zero.

Definition set_Status (v : Status.t) (s : t) : t :=
  mk v.

(** The fields by their [json] tags, in declaration order. *)
Definition fields : list (field t) :=
  [ fieldOf "status" Status set_Status
  ].

#[global] Instance t_Unmarshal : Unmarshal t := decodeStruct fields.
End FullStatus.

(** The anonymous [struct { Version string `json:"version"` }] of [GetVersion]. *)
Module VersionResp.
Record t : Type := mk {
  Version : string
}.

#[global] Instance t_Zero : Zero t :=
  mk zero.

Definition set_Version (v : string) (s : t) : t :=
  mk v.

(** The fields by their [json] tags, in declaration order. *)
Definition fields : list (field t) :=
  [ fieldOf "version" Version set_Version
  ].

#[global] Instance t_Unmarshal : Unmarshal t := decodeStruct fields.
End VersionResp.

(** The anonymous [struct { Categories []string `json:"categories"` }] of
    [GetCategories]. *)
Module CategoriesResp.
Record t : Type := mk {
  Categories : list string
}.

#[global] Instance t_Zero : Zero t :=
  mk zero.

Definition set_Categories (v : list string) (s : t) : t :=
  mk v.

(** The fields by their [json] tags, in declaration order. *)
Definition fields : list (field t) :=
  [ fieldOf "categories" Categories set_Categories
  ].

#[global] Instance t_Unmarshal : Unmarshal t := decodeStruct fields.
End CategoriesResp.

(** The anonymous [struct { Scripts []string `json:"scripts"` }] of [GetScripts]. *)
Module ScriptsResp.
Record t : Type := mk {
  Scripts : list string
}.

#[global] Instance t_Zero : Zero t :=
  mk zero.

Definition set_Scripts (v : list string) (s : t) : t :=
  mk v.

(** The fields by their [json] tags, in declaration order. *)
Definition fields : list (field t) :=
  [ fieldOf "scripts" Scripts set_Scripts
  ].

#[global] Instance t_Unmarshal : Unmarshal t := decodeStruct fields.
End ScriptsResp.


Section ClientReads.
Context `{Float64} {W : Type} `{Transport W}.

(** [Client.GetConfigSection] *)
Definition GetConfigSection (c : Client.t) (section : string)
    : M W (Result (gmap string any)) :=
  let params := (∅ : Values) in
  let params := Values_Set "mode" "get_config" params in
  let params := Values_Set "section" section params in
  '(err, resp) <- doRequest c params (Some (zero : gmap string any)) ;;
  ret match err with
      | Some err =>
          Err (Errorf "getting config section %s: %w" [section] (Some err))
      | None => Ok (pointee resp)
      end.

(** [Client.GetConfigSectionByKeyword] *)
Definition GetConfigSectionByKeyword (c : Client.t) (section keyword : string)
    : M W (Result (gmap string any)) :=
  let params := (∅ : Values) in
  let params := Values_Set "mode" "get_config" params in
  let params := Values_Set "section" section params in
  let params := Values_Set "keyword" keyword params in
  '(err, resp) <- doRequest c params (Some (zero : gmap string any)) ;;
  ret match err with
      | Some err =>
          Err (Errorf "getting config section %s keyword %s: %w"
                 [section; keyword] (Some err))
      | None => Ok (pointee resp)
      end.

(** [Client.GetStatus] *)
Definition GetStatus (c : Client.t) : M W (Result Status.t) :=
  let params := (∅ : Values) in
  let params := Values_Set "mode" "status" params in
  '(err, resp) <- doRequest c params (Some (zero : FullStatus.t)) ;;
  ret match err with
      | Some err => Err (Errorf "getting status: %w" [] (Some err))
      | None => Ok (pointee resp).(FullStatus.Status)
      end.

(** [Client.GetVersion] *)
Definition GetVersion (c : Client.t) : M W (Result string) :=
  let params := (∅ : Values) in
  let params := Values_Set "mode" "version" params in
  '(err, resp) <- doRequest c params (Some (zero : VersionResp.t)) ;;
  ret match err with
      | Some err => Err (Errorf "getting version: %w" [] (Some err))
      | None => Ok (pointee resp).(VersionResp.Version)
      end.

(** [Client.GetScripts] *)
Definition GetScripts (c : Client.t) : M W (Result (list string)) :=
  let params := (∅ : Values) in
  let params := Values_Set "mode" "get_scripts" params in
  '(err, resp) <- doRequest c params (Some (zero : ScriptsResp.t)) ;;
  ret match err with
      | Some err => Err (Errorf "getting scripts: %w" [] (Some err))
      | None => Ok (pointee resp).(ScriptsResp.Scripts)
      end.

(** [Client.GetCategories] *)
Definition GetCategories (c : Client.t) : M W (Result (list string)) :=
  let params := (∅ : Values) in
  let params := Values_Set "mode" "get_cats" params in
  '(err, resp) <- doRequest c params (Some (zero : CategoriesResp.t)) ;;
  ret match err with
      | Some err => Err (Errorf "getting categories: %w" [] (Some err))
      | None => Ok (pointee resp).(CategoriesResp.Categories)
      end.

End ClientReads.

(** ** package provider: the provider block, the data source, the other
    lifecycle methods *)

(** [CategoryResourceModel]: the state of a [sabnzbd_category]. *)
Module CategoryResourceModel.
Record t : Type := mk {
  Name : tfvalue string;
  Dir : tfvalue string;
  Script : tfvalue string;
  Priority : tfvalue Z;
  PP : tfvalue string;
  Order : tfvalue Z
}.

Definition set_Name (v : tfvalue string) (s : t) : t :=
  mk v s.(Dir) s.(Script) s.(Priority) s.(PP) s.(Order).
Definition set_Dir (v : tfvalue string) (s : t) : t :=
  mk s.(Name) v s.(Script) s.(Priority) s.(PP) s.(Order).
Definition set_Script (v : tfvalue string) (s : t) : t :=
  mk s.(Name) s.(Dir) v s.(Priority) s.(PP) s.(Order).
Definition set_Priority (v : tfvalue Z) (s : t) : t :=
  mk s.(Name) s.(Dir) s.(Script) v s.(PP) s.(Order).
Definition set_PP (v : tfvalue string) (s : t) : t :=
  mk s.(Name) s.(Dir) s.(Script) s.(Priority) v s.(Order).
Definition set_Order (v : tfvalue Z) (s : t) : t :=
  mk s.(Name) s.(Dir) s.(Script) s.(Priority) s.(PP) v.
End CategoryResourceModel.

(** [ConfigDataSourceModel]: the state of the [sabnzbd_config] data source. *)
Module ConfigDataSourceModel.
Record t : Type := mk {
  ID : tfvalue string;
  Version : tfvalue string;
  Categories : tfvalue (list (tfvalue string));
  Scripts : tfvalue (list (tfvalue string))
}.

Definition set_ID (v : tfvalue string) (s : t) : t :=
  mk v s.(Version) s.(Categories) s.(Scripts).
Definition set_Version (v : tfvalue string) (s : t) : t :=
  mk s.(ID) v s.(Categories) s.(Scripts).
Definition set_Categories (v : tfvalue (list (tfvalue string))) (s : t) : t :=
  mk s.(ID) s.(Version) v s.(Scripts).
Definition set_Scripts (v : tfvalue (list (tfvalue string))) (s : t) : t :=
  mk s.(ID) s.(Version) s.(Categories) v.
End ConfigDataSourceModel.

(** [SabnzbdProviderModel]: the provider block. *)
Module SabnzbdProviderModel.
Record t : Type := mk {
  URL : tfvalue string;
  APIKey : tfvalue string
}.
End SabnzbdProviderModel.


(** [IsNull] *)
Definition IsNull {A} (v : tfvalue A) : bool :=
  match v with tfNull => true | _ => false end.

(** [types.ListValueFrom(ctx, types.StringType, values)]: the known list of
    the values; for string elements it adds no diagnostic. *)
Definition types_ListValueFrom (values : list (tfvalue string))
    : tfvalue (list (tfvalue string)) :=
  tfKnown values.

(** The two environment variables as [os.Getenv] returns them, the empty
    string for one that is not set. *)
Record Environ : Type := mkEnviron {
  SABNZBD_URL : string;
  SABNZBD_API_KEY : string
}.

(** [resp.Diagnostics.AddAttributeError(path.Root(attribute), summary, detail)] *)
Inductive AttributeDiagnostic : Type :=
  | AddAttributeError (attribute summary detail : string).

(** What [Configure] leaves in its response. *)
Record ConfigureResponse : Type := mkConfigureResponse {
  ConfigureDiagnostics : list AttributeDiagnostic;
  DataSourceData : option Client.t;
  ResourceData : option Client.t
}.

(** [SabnzbdProvider.Metadata]: the type name. *)
Definition providerTypeName : string := "sabnzbd".

(** [SabnzbdProvider.Configure], from the provider block already read into
    [data]. *)
Definition Configure (env : Environ) (data : SabnzbdProviderModel.t)
    : ConfigureResponse :=
  (* Default to environment variables if not set in configuration. *)
  let url := env.(SABNZBD_URL) in
  let apiKey := env.(SABNZBD_API_KEY) in
  let url :=
    if negb (IsNull data.(SabnzbdProviderModel.URL))
    then ValueString data.(SabnzbdProviderModel.URL) else url in
  let apiKey :=
    if negb (IsNull data.(SabnzbdProviderModel.APIKey))
    then ValueString data.(SabnzbdProviderModel.APIKey) else apiKey in
  (* Validate required configuration. *)
  let diagnostics := [] in
  let diagnostics :=
    if String.eqb url ""
    then diagnostics ++
         [AddAttributeError "url" "Missing SABnzbd URL"
            ("The provider cannot create the SABnzbd API client as there is a missing or empty value for the SABnzbd URL. "
             +:+ "Set the url value in the configuration or use the SABNZBD_URL environment variable.")]
    else diagnostics in
  let diagnostics :=
    if String.eqb apiKey ""
    then diagnostics ++
         [AddAttributeError "api_key" "Missing SABnzbd API Key"
            ("The provider cannot create the SABnzbd API client as there is a missing or empty value for the SABnzbd API key. "
             +:+ "Set the api_key value in the configuration or use the SABNZBD_API_KEY environment variable.")]
    else diagnostics in
  match diagnostics with
  | _ :: _ => mkConfigureResponse diagnostics None None
  | [] =>
      (* Create the SABnzbd client. *)
      let sabnzbdClient := NewClient url apiKey in
      mkConfigureResponse [] (Some sabnzbdClient) (Some sabnzbdClient)
  end.

(** The data sources the provider implements, and their constructors. *)
Inductive DataSource : Type :=
  | ConfigDataSource.

Definition DataSource_Metadata (providerTypeName : string) (d : DataSource) : string :=
  match d with
  | ConfigDataSource => providerTypeName +:+ "_config"
  end.

Definition NewConfigDataSource (_ : unit) : DataSource := ConfigDataSource.

(** [SabnzbdProvider.DataSources] *)
Definition DataSources : list (unit → DataSource) :=
  [ NewConfigDataSource ].

Section Lifecycle.
Context `{Float64} {W : Type} `{Transport W}.

(** [ServerResource.Update], from the plan already read into [data]. *)
Definition ServerResource_Update (r : Client.t) (data : ServerResourceModel.t)
    : M W (Response ServerResourceModel.t) :=
  let input := ServerInput_of data in
  err <- SetServer r input ;;
  ret match err with
      | Some err =>
          mkResponse
            [AddError "Client Error" "Unable to update server, got error: %s" err]
            None
      | None => mkResponse [] (Some data)
      end.

(** [ServerResource.Delete], from the prior state already read into [data]. *)
Definition ServerResource_Delete (r : Client.t) (data : ServerResourceModel.t)
    : M W (Response ServerResourceModel.t) :=
  err <- DeleteServer r (ValueString data.(ServerResourceModel.Name)) ;;
  ret match err with
      | Some err =>
          mkResponse
            [AddError "Client Error" "Unable to delete server, got error: %s" err]
            None
      | None => mkResponse [] None
      end.

(** The [client.CategoryInput] that [Create] and [Update] build from the plan. *)
Definition CategoryInput_of (data : CategoryResourceModel.t) : CategoryInput.t :=
  CategoryInput.mk
    (ValueString data.(CategoryResourceModel.Name))
    (ValueString data.(CategoryResourceModel.Dir))
    (ValueString data.(CategoryResourceModel.Script))
    (ValueInt64 data.(CategoryResourceModel.Priority))
    (ValueString data.(CategoryResourceModel.PP))
    (ValueInt64 data.(CategoryResourceModel.Order)).

(** [CategoryResource.Create], from the plan already read into [data]. *)
Definition CategoryResource_Create (r : Client.t) (data : CategoryResourceModel.t)
    : M W (Response CategoryResourceModel.t) :=
  let input := CategoryInput_of data in
  err <- SetCategory r input ;;
  ret match err with
      | Some err =>
          mkResponse
            [AddError "Client Error" "Unable to create category, got error: %s" err]
            None
      | None => mkResponse [] (Some data)
      end.

(** [CategoryResource.Read], from the prior state already read into [data]. *)
Definition CategoryResource_Read (r : Client.t) (data : CategoryResourceModel.t)
    : M W (Response CategoryResourceModel.t) :=
  res <- GetCategory r (ValueString data.(CategoryResourceModel.Name)) ;;
  ret match res with
      | Err err =>
          mkResponse
            [AddError "Client Error" "Unable to read category, got error: %s" err]
            None
      | Ok category =>
          let data := CategoryResourceModel.set_Dir (types_StringValue category.(Category.Dir)) data in
          let data := CategoryResourceModel.set_Script (types_StringValue category.(Category.Script)) data in
          let data := CategoryResourceModel.set_Priority (types_Int64Value category.(Category.Priority)) data in
          let data := CategoryResourceModel.set_PP (types_StringValue category.(Category.PP)) data in
          let data := CategoryResourceModel.set_Order (types_Int64Value category.(Category.Order)) data in
          mkResponse [] (Some data)
      end.

(** [CategoryResource.Update], from the plan already read into [data]. *)
Definition CategoryResource_Update (r : Client.t) (data : CategoryResourceModel.t)
    : M W (Response CategoryResourceModel.t) :=
  let input := CategoryInput_of data in
  err <- SetCategory r input ;;
  ret match err with
      | Some err =>
          mkResponse
            [AddError "Client Error" "Unable to update category, got error: %s" err]
            None
      | None => mkResponse [] (Some data)
      end.

(** [CategoryResource.Delete], from the prior state already read into [data]. *)
Definition CategoryResource_Delete (r : Client.t) (data : CategoryResourceModel.t)
    : M W (Response CategoryResourceModel.t) :=
  err <- DeleteCategory r (ValueString data.(CategoryResourceModel.Name)) ;;
  ret match err with
      | Some err =>
          mkResponse
            [AddError "Client Error" "Unable to delete category, got error: %s" err]
            None
      | None => mkResponse [] None
      end.

(** [FoldersResource.Delete]: folders configuration cannot be deleted, the
    resource is only removed from the state. *)
Definition FoldersResource_Delete (r : Client.t) (data : FoldersResourceModel.t)
    : M W (Response FoldersResourceModel.t) :=
  ret (mkResponse [] None).

(** [ConfigDataSource.Read], from the configuration already read into [data]. *)
Definition ConfigDataSource_Read (d : Client.t) (data : ConfigDataSourceModel.t)
    : M W (Response ConfigDataSourceModel.t) :=
  (* Get version. *)
  r <- GetVersion d ;;
  match r with
  | Err err =>
      ret (mkResponse
             [AddError "Client Error" "Unable to read version, got error: %s" err]
             None)
  | Ok version =>
      let data := ConfigDataSourceModel.set_Version (types_StringValue version) data in
      (* Get categories. *)
      r <- GetCategories d ;;
      match r with
      | Err err =>
          ret (mkResponse
                 [AddError "Client Error"
                    "Unable to read categories, got error: %s" err]
                 None)
      | Ok categories =>
          let categoryValues := map types_StringValue categories in
          let categoriesList := types_ListValueFrom categoryValues in
          let data := ConfigDataSourceModel.set_Categories categoriesList data in
          (* Get scripts. *)
          r <- GetScripts d ;;
          match r with
          | Err err =>
              ret (mkResponse
                     [AddError "Client Error"
                        "Unable to read scripts, got error: %s" err]
                     None)
          | Ok scripts =>
              let scriptValues := map types_StringValue scripts in
              let scriptsList := types_ListValueFrom scriptValues in
              let data := ConfigDataSourceModel.set_Scripts scriptsList data in
              let data := ConfigDataSourceModel.set_ID (types_StringValue "sabnzbd-config") data in
              ret (mkResponse [] (Some data))
          end
      end
  end.

End Lifecycle.

(** ** A network that replays a script *)

(** The outcomes still to be given, one to each request in turn, and the
    requests received; a request past the end of the script fails. *)
Record Replay : Type := mkReplay {
  pending : list HttpOutcome;
  received : list (string * Values)
}.

#[export] Instance Replay_Transport : Transport Replay :=
  λ reqURL query w,
    match w.(pending) with
    | [] =>
        (DoFailed (transportError "connection refused"),
         mkReplay [] (w.(received) ++ [(reqURL, query)]))
    | outcome :: rest =>
        (outcome, mkReplay rest (w.(received) ++ [(reqURL, query)]))
    end.

(** The [mode] of each request received. *)
Definition modes (requests : list (string * Values)) : list string :=
  map (λ request, Values_Get "mode" request.2) requests.

(** The error of a [(T, error)] result, if any. *)
Definition resultError {A} (r : Result A) : option error :=
  match r with
  | Ok _ => None
  | Err err => Some err
  end.

(** The bytes [url.QueryEscape] lets through or writes: letters, digits and
    [- _ . ~ + %]. *)
Definition querySafe (c : ascii) : Prop :=
  shouldEscape c = false ∨ c = "+"%char ∨ c = "%"%char.

(** A provider block or environment value as [Configure] resolves it: the
    value of the block unless it is null, then the environment's. *)
Definition resolved (attribute : tfvalue string) (environment : string) : string :=
  match attribute with
  | tfNull => environment
  | tfUnknown => ""
  | tfKnown s => s
  end.

(** A plan all of whose attributes are known, the two numbers within [int]. *)
Definition knownCategoryPlan (data : CategoryResourceModel.t) : Prop :=
  ∃ name dir script priority pp order,
    data = CategoryResourceModel.mk (tfKnown name) (tfKnown dir) (tfKnown script)
             (tfKnown priority) (tfKnown pp) (tfKnown order)
    ∧ int_range priority ∧ int_range order.

(** A body of the narrow reads. *)
Definition infoBody : json :=
  JObject
    [ ("version", JString "4.3.2")
    ; ("categories", JArray [ JString "*"; JString "tv" ])
    ; ("scripts", JArray [ JString "None" ])
    ].

Definition tvPlan : CategoryResourceModel.t :=
  CategoryResourceModel.mk (tfKnown "tv") (tfKnown "TV Shows") (tfKnown "None")
                           (tfKnown 1) (tfKnown "3") (tfKnown 0).

(** The call makes one request, [request], and takes one answer of the
    script, whatever the answer is. *)
Definition oneRequest {A} (call : M Replay A) (request : string * Values) : Prop :=
  ∀ w, snd (call w) = mkReplay (tl w.(pending)) (w.(received) ++ [request]).

(** A script that answers [ok] once. *)
Definition okReplay : Replay :=
  mkReplay [ResponseBody (Some statusOK)] [].

(** A JSON value that is [null], a boolean or a string. *)
Definition flatValue (j : json) : Prop :=
  match j with
  | JNull | JBool _ | JString _ => True
  | _ => False
  end.

(** The attribute a diagnostic of [Configure] is attached to. *)
Definition diagnosticAttribute (d : AttributeDiagnostic) : string :=
  match d with AddAttributeError attribute _ _ => attribute end.

(** The three requests of the data source, by mode. *)
Definition dataSourceModes : list string := ["version"; "get_cats"; "get_scripts"].

(** The script once the first [n] requests of the data source were made and
    answered: [n] answers taken, the [n] requests received, in their order. *)
Definition afterRequests (d : Client.t) (n : nat) (w : Replay) : Replay :=
  mkReplay (drop n w.(pending))
           (w.(received)
            ++ map (λ mode, requestOf d (Values_Set "mode" mode ∅))
                   (take n dataSourceModes)).

(** No member of the object has one of the names as its key, up to letter
    case. *)
Definition unrelated (names : list string) (members : list (string * json)) : Prop :=
  ∀ key j name, In (key, j) members → In name names → ¬ equalFold name key.

(** A remote that stores exactly the field values sent to it for a server,
    under the name sent, and returns them on [get_config]; only the servers
    section is kept.  An entry holds the sixteen values as they were sent,
    that is, as text; the numbers and the flags are shown as JSON numbers. *)
Module StoredServer.
Record t : Type := mk {
  name : string;
  host : string;
  port : string;
  username : string;
  password : string;
  connections : string;
  ssl : string;
  ssl_verify : string;
  ssl_ciphers : string;
  enable : string;
  optional : string;
  retention : string;
  timeout : string;
  priority : string;
  required : string;
  notes : string
}.
End StoredServer.

Record ServerRemote : Type := mkServerRemote {
  servers : list StoredServer.t
}.

Fixpoint upsertServer (entry : StoredServer.t) (l : list StoredServer.t)
    : list StoredServer.t :=
  match l with
  | [] => [entry]
  | e :: rest =>
      if String.eqb e.(StoredServer.name) entry.(StoredServer.name)
      then entry :: rest
      else e :: upsertServer entry rest
  end.

Definition renderServer (e : StoredServer.t) : json :=
  JObject
    [ ("name", JString e.(StoredServer.name))
    ; ("host", JString e.(StoredServer.host))
    ; ("port", JNumber e.(StoredServer.port))
    ; ("username", JString e.(StoredServer.username))
    ; ("password", JString e.(StoredServer.password))
    ; ("connections", JNumber e.(StoredServer.connections))
    ; ("ssl", JNumber e.(StoredServer.ssl))
    ; ("ssl_verify", JNumber e.(StoredServer.ssl_verify))
    ; ("ssl_ciphers", JString e.(StoredServer.ssl_ciphers))
    ; ("enable", JNumber e.(StoredServer.enable))
    ; ("optional", JNumber e.(StoredServer.optional))
    ; ("retention", JNumber e.(StoredServer.retention))
    ; ("timeout", JNumber e.(StoredServer.timeout))
    ; ("priority", JNumber e.(StoredServer.priority))
    ; ("required", JNumber e.(StoredServer.required))
    ; ("notes", JString e.(StoredServer.notes))
    ].

Definition renderServers (st : ServerRemote) : json :=
  JObject
    [ ("config",
       JObject [ ("servers", JArray (map renderServer st.(servers))) ]) ].

#[export] Instance ServerRemote_Transport : Transport ServerRemote :=
  λ _ query st,
    let mode := Values_Get "mode" query in
    let section := Values_Get "section" query in
    if String.eqb mode "get_config" then
      (ResponseBody (Some (renderServers st)), st)
    else if (String.eqb mode "set_config" && String.eqb section "servers")%bool then
      let entry :=
        StoredServer.mk
          (Values_Get "name" query)
          (Values_Get "host" query)
          (Values_Get "port" query)
          (Values_Get "username" query)
          (Values_Get "password" query)
          (Values_Get "connections" query)
          (Values_Get "ssl" query)
          (Values_Get "ssl_verify" query)
          (Values_Get "ssl_ciphers" query)
          (Values_Get "enable" query)
          (Values_Get "optional" query)
          (Values_Get "retention" query)
          (Values_Get "timeout" query)
          (Values_Get "priority" query)
          (Values_Get "required" query)
          (Values_Get "notes" query) in
      (ResponseBody (Some statusOK), mkServerRemote (upsertServer entry st.(servers)))
    else if (String.eqb mode "del_config" && String.eqb section "servers")%bool then
      let keep e := negb (String.eqb e.(StoredServer.name) (Values_Get "keyword" query)) in
      (ResponseBody (Some statusOK), mkServerRemote (List.filter keep st.(servers)))
    else
      (ResponseBody (Some notImplemented), st).

(** The texts of an entry that [get_config] shows as numbers. *)
Definition storedNumbers (e : StoredServer.t) : list string :=
  [ e.(StoredServer.port); e.(StoredServer.connections); e.(StoredServer.ssl); e.(StoredServer.ssl_verify); e.(StoredServer.enable); e.(StoredServer.optional); e.(StoredServer.retention); e.(StoredServer.timeout); e.(StoredServer.priority); e.(StoredServer.required) ].

(** The entries all of whose numbers were sent as decimal integers within
    [int]. *)
Definition storedServerOK (e : StoredServer.t) : Prop :=
  Forall (λ text, is_Some (strconv_ParseInt text)) (storedNumbers e).

(** The [Server] the decoder makes of an entry. *)
Definition serverOf (e : StoredServer.t) : Server.t :=
  Server.mk
    e.(StoredServer.name)
    e.(StoredServer.host)
    (default 0 (strconv_ParseInt e.(StoredServer.port)))
    e.(StoredServer.username)
    e.(StoredServer.password)
    (default 0 (strconv_ParseInt e.(StoredServer.connections)))
    (default 0 (strconv_ParseInt e.(StoredServer.ssl)))
    (default 0 (strconv_ParseInt e.(StoredServer.ssl_verify)))
    e.(StoredServer.ssl_ciphers)
    (default 0 (strconv_ParseInt e.(StoredServer.enable)))
    (default 0 (strconv_ParseInt e.(StoredServer.optional)))
    (default 0 (strconv_ParseInt e.(StoredServer.retention)))
    (default 0 (strconv_ParseInt e.(StoredServer.timeout)))
    (default 0 (strconv_ParseInt e.(StoredServer.priority)))
    (default 0 (strconv_ParseInt e.(StoredServer.required)))
    e.(StoredServer.notes).

(** The entry the remote keeps for an input of [SetServer]. *)
Definition storedServerOf (input : ServerInput.t) : StoredServer.t :=
  StoredServer.mk
    input.(ServerInput.Name)
    input.(ServerInput.Host)
    (strconv_Itoa input.(ServerInput.Port))
    input.(ServerInput.Username)
    input.(ServerInput.Password)
    (strconv_Itoa input.(ServerInput.Connections))
    (boolToInt input.(ServerInput.SSL))
    (strconv_Itoa input.(ServerInput.SSLVerify))
    input.(ServerInput.SSLCiphers)
    (boolToInt input.(ServerInput.Enable))
    (boolToInt input.(ServerInput.Optional))
    (strconv_Itoa input.(ServerInput.Retention))
    (strconv_Itoa input.(ServerInput.Timeout))
    (strconv_Itoa input.(ServerInput.Priority))
    (boolToInt input.(ServerInput.Required))
    input.(ServerInput.Notes).

(** A plan all of whose attributes are known, the numbers within [int]. *)
Definition knownServerPlan (data : ServerResourceModel.t) : Prop :=
  ∃ name host port username password connections ssl ssl_verify ssl_ciphers enable optional retention timeout priority required notes,
    data = ServerResourceModel.mk
             (tfKnown name)
             (tfKnown host)
             (tfKnown port)
             (tfKnown username)
             (tfKnown password)
             (tfKnown connections)
             (tfKnown ssl)
             (tfKnown ssl_verify)
             (tfKnown ssl_ciphers)
             (tfKnown enable)
             (tfKnown optional)
             (tfKnown retention)
             (tfKnown timeout)
             (tfKnown priority)
             (tfKnown required)
             (tfKnown notes)
    ∧ Forall int_range [ port; connections; ssl_verify; retention; timeout; priority ].

(** * Properties *)

(** ** Registered resources *)

(** C1.  The list [Resources] returns holds the constructors of the server and
    of the category resource and nothing else: no constructor in it builds the
    folders resource, although [NewFoldersResource] exists and builds it. *)
Theorem Resources_omits_folders :
  Resources = [NewServerResource; NewCategoryResource]
  ∧ (∃ new, In new Resources ∧ new () = ServerResource)
  ∧ (∃ new, In new Resources ∧ new () = CategoryResource)
  ∧ ¬ (∃ new, In new Resources ∧ new () = FoldersResource)
  ∧ NewFoldersResource () = FoldersResource.
Proof.
  split; [reflexivity|].
  split; [exists NewServerResource; simpl; auto|].
  split; [exists NewCategoryResource; simpl; auto|].
  split; [|reflexivity].
  intros (new & Hin & Hnew). simpl in Hin.
  destruct Hin as [<-|[<-|[]]]; discriminate Hnew.
Qed.

(** ** Transport: the error check *)

Lemma saveError_None_r e : saveError e None = e.
Proof. by destruct e. Qed.

Lemma decodeMembers_app {S} (fields : list (field S)) l1 l2 cur :
  decodeMembers fields (l1 ++ l2) cur =
  let '(cur1, e1) := decodeMembers fields l1 cur in
  let '(cur2, e2) := decodeMembers fields l2 cur1 in
  (cur2, saveError e1 e2).
Proof.
  revert cur. induction l1 as [|[key j] l1 IH]; intros cur; simpl.
  - by destruct (decodeMembers fields l2 cur) as [cur2 [e2|]].
  - destruct (match findField fields key with
              | Some f => f.2 j cur
              | None => (cur, None)
              end) as [cur1 e1].
    rewrite IH.
    destruct (decodeMembers fields l1 cur1) as [cur1' e1'].
    destruct (decodeMembers fields l2 cur1') as [cur2 e2].
    by destruct e1, e1', e2.
Qed.

Lemma find_singleton {A} (p : A → bool) (x : A) :
  find p [x] = if p x then Some x else None.
Proof. reflexivity. Qed.

(** Which keys the decoder takes for the field [error]. *)
Lemma findField_error key :
  findField ErrorResp.fields key =
  if bool_decide (equalFold key "error")
  then Some (fieldOf "error" ErrorResp.Error ErrorResp.set_Error)
  else None.
Proof.
  unfold findField, ErrorResp.fields, equalFold.
  rewrite !find_singleton. unfold fieldOf at 1 3. cbn [fst].
  change (foldName "error") with "ERROR".
  destruct (String.eqb_spec "error" key) as [<-|Hne].
  - reflexivity.
  - destruct (String.eqb_spec "ERROR" (foldName key)) as [Heq|Hneq].
    + by rewrite bool_decide_eq_true_2.
    + by rewrite bool_decide_eq_false_2.
Qed.

(** Members that do not name [error], or name it with [null], leave the
    struct as it is. *)
Lemma decodeMembers_error_skip members cur :
  Forall (λ m, equalFold m.1 "error" → m.2 = JNull) members →
  decodeMembers ErrorResp.fields members cur = (cur, None).
Proof.
  intros Hall. revert cur.
  induction Hall as [|[key j] members Hm _ IH]; intros [e]; simpl; [done|].
  rewrite findField_error. case_bool_decide as Hk.
  - simpl in Hm. rewrite (Hm Hk). cbn -[decodeMembers ErrorResp.fields]. by rewrite IH.
  - by rewrite IH.
Qed.

(** Members that name [error] only with strings or [null] decode without an
    error. *)
Lemma decodeMembers_error_strings members cur :
  Forall (λ m, equalFold m.1 "error" → m.2 = JNull ∨ ∃ s, m.2 = JString s)
         members →
  ∃ cur', decodeMembers ErrorResp.fields members cur = (cur', None).
Proof.
  intros Hall. revert cur.
  induction Hall as [|[key j] members Hm _ IH]; intros [e]; simpl; [by eexists|].
  rewrite findField_error. case_bool_decide as Hk.
  - simpl in Hm. destruct (Hm Hk) as [->|[s ->]]; cbn -[decodeMembers ErrorResp.fields].
    + edestruct IH as [cur' ->]. by eexists.
    + edestruct IH as [cur' ->]. by eexists.
  - edestruct IH as [cur' ->]. by eexists.
Qed.

Lemma nonEmpty_true s : s ≠ "" → nonEmpty s = true.
Proof.
  intros Hs. unfold nonEmpty. by destruct (String.eqb_spec s "").
Qed.

(** C2, as the code has it.  When the body is a JSON object whose members
    named [error] up to letter case are strings or [null], the last of them
    that is not [null] being the non-empty string [msg], [doRequest] returns
    the API error with message [msg] and leaves what [result] points to as it
    was, whatever the body would decode to in the caller's type. *)
Theorem doRequest_error_precedence
    {W} `{Transport W} {R} `{Unmarshal R}
    (c : Client.t) (params : Values) (result : option R)
    (before after : list (string * json)) (key msg : string)
    (w w' : W) :
  httpGet (requestOf c params).1 (requestOf c params).2 w =
    (ResponseBody (Some (JObject (before ++ (key, JString msg) :: after))), w') →
  equalFold key "error" →
  msg ≠ "" →
  Forall (λ m, equalFold m.1 "error" → m.2 = JNull ∨ ∃ s, m.2 = JString s) before →
  Forall (λ m, equalFold m.1 "error" → m.2 = JNull) after →
  doRequest c params result w = ((Some (APIError msg), result), w').
Proof.
  intros Hreply Hkey Hmsg Hbefore Hafter.
  unfold doRequest, bind, ret. simpl in Hreply. rewrite Hreply.
  unfold json_Unmarshal, unmarshal, ErrorResp.t_Unmarshal.
  simpl decodeStruct. rewrite decodeMembers_app.
  destruct (decodeMembers_error_strings before zero Hbefore) as [cur1 ->].
  simpl decodeMembers. rewrite findField_error, bool_decide_eq_true_2 by done.
  cbn -[decodeMembers ErrorResp.fields nonEmpty].
  rewrite (decodeMembers_error_skip after _ Hafter).
  cbn -[nonEmpty]. by rewrite nonEmpty_true.
Qed.

(** C2, the claim as stated fails: the body [shadowedBody] has the non-empty
    [error] string ["boom"], yet [doRequest] returns no error and decodes the
    body into the caller's map, because the member [Error] also names the
    field and is not a string; [SetCategory], for one, then reports success. *)
Lemma doRequest_error_field_shadowed :
  hasErrorField (Some shadowedBody) "boom"
  ∧ fst (doRequest exampleClient ∅ (Some (∅ : gmap string any))
           (mkScripted (ResponseBody (Some shadowedBody)) []))
    = (None,
       Some (<["Error" := AnyBool false]> (<["error" := AnyString "boom"]> ∅)))
  ∧ fst (SetCategory exampleClient moviesInput
           (mkScripted (ResponseBody (Some shadowedBody)) []))
    = None.
Proof.
  split; [|split].
  - exists [("error", JString "boom"); ("Error", JBool false)].
    repeat split; [by left | discriminate].
  - reflexivity.
  - reflexivity.
Qed.

(** The error check at work on [errorBody], whose member [Error] is [null]. *)
Lemma doRequest_error_precedence_witness :
  ∃ w',
    doRequest exampleClient ∅ (Some (∅ : gmap string any))
      (mkScripted (ResponseBody (Some errorBody)) [])
    = ((Some (APIError "boom"), Some ∅), w').
Proof.
  eexists.
  apply (doRequest_error_precedence exampleClient ∅ (Some ∅)
           [("status", JBool false)] [("Error", JNull)] "error" "boom").
  - reflexivity.
  - reflexivity.
  - discriminate.
  - constructor; [|constructor].
    intros Hfold. vm_compute in Hfold. discriminate.
  - constructor; [|constructor].
    intros _. reflexivity.
Defined.

(** ** Categories: write, then read *)

(** [strconv.Itoa] never prints a plus sign. *)
Lemma Itoa_no_plus n rest : strconv_Itoa n ≠ String "+" rest.
Proof.
  unfold strconv_Itoa.
  destruct (Z.to_int n) as [d|d]; simpl; [|discriminate].
  destruct d; simpl; discriminate.
Qed.

(** [ParseInt] reads back what [Itoa] prints, within the range of [int]. *)
Lemma ParseInt_Itoa n : int_range n → strconv_ParseInt (strconv_Itoa n) = Some n.
Proof.
  intros Hn. unfold strconv_ParseInt.
  assert (Hparsed :
    match strconv_Itoa n with
    | String "+"%char digits => Z.of_uint <$> NilZero.uint_of_string digits
    | _ => Z.of_int <$> NilZero.int_of_string (strconv_Itoa n)
    end = Some n).
  { pose proof (Itoa_no_plus n) as Hplus.
    assert (Hint : Z.of_int <$> NilZero.int_of_string (strconv_Itoa n) = Some n).
    { unfold strconv_Itoa. rewrite NilZero.isi.
      - simpl. by rewrite DecimalZ.of_to.
      - destruct n; simpl; [discriminate| |discriminate].
        intros [=Hnil]. by apply DecimalPos.Unsigned.to_uint_nonnil in Hnil.
      - destruct n; simpl; [discriminate|discriminate|].
        intros [=Hnil]. by apply DecimalPos.Unsigned.to_uint_nonnil in Hnil. }
    destruct (strconv_Itoa n) as [|c rest]; [done|].
    destruct c as [[] [] [] [] [] [] [] []]; try done.
    by destruct (Hplus rest). }
  rewrite Hparsed. simpl. by rewrite decide_True.
Qed.

Lemma storedOK_storedOf input :
  int_range input.(CategoryInput.Priority) →
  int_range input.(CategoryInput.Order) →
  storedOK (storedOf input).
Proof.
  intros Hp Ho. split; simpl; rewrite ParseInt_Itoa; eauto.
Qed.

Lemma categoryOf_storedOf input :
  int_range input.(CategoryInput.Priority) →
  int_range input.(CategoryInput.Order) →
  categoryOf (storedOf input) = Category_of_input input.
Proof.
  intros Hp Ho. unfold categoryOf, storedOf, Category_of_input. simpl.
  by rewrite !ParseInt_Itoa.
Qed.

(** Writing keeps the entries well formed, and the first entry of the
    written name is then the one written. *)
Lemma upsert_storedOK entry l :
  storedOK entry → Forall storedOK l → Forall storedOK (upsert entry l).
Proof.
  intros He. induction 1 as [|e l Hok Hl IH]; simpl.
  - constructor; [done | constructor].
  - destruct (String.eqb _ _); by constructor.
Qed.

Lemma find_upsert entry l :
  find (λ cat, String.eqb cat.(Category.Name) entry.(Stored.name))
       (map categoryOf (upsert entry l))
  = Some (categoryOf entry).
Proof.
  induction l as [|e l IH]; simpl.
  - by rewrite String.eqb_refl.
  - destruct (String.eqb_spec e.(Stored.name) entry.(Stored.name)) as [Heq|Hne]; simpl.
    + by rewrite String.eqb_refl.
    + destruct (String.eqb_spec e.(Stored.name) entry.(Stored.name)); [done|].
      apply IH.
Qed.

(** What the decoder makes of the remote's rendering. *)
Lemma unmarshal_renderCategory e cur :
  storedOK e → unmarshal (renderCategory e) cur = (categoryOf e, None).
Proof.
  destruct e as [n d s p pp o]. intros [[vp Hp] [vo Ho]]. simpl in Hp, Ho.
  unfold categoryOf, renderCategory. simpl Stored.name. simpl Stored.dir.
  simpl Stored.script. simpl Stored.priority. simpl Stored.pp. simpl Stored.order.
  rewrite Hp, Ho. simpl default.
  unfold unmarshal, Category.t_Unmarshal, decodeStruct.
  cbn -[strconv_ParseInt]. rewrite Hp. cbn -[strconv_ParseInt]. by rewrite Ho.
Qed.

Lemma decodeElems_renderCategory l cur :
  Forall storedOK l →
  decodeElems (map renderCategory l) cur = (map categoryOf l, None).
Proof.
  intros Hall. revert cur.
  induction Hall as [|e l He _ IH]; intros cur; simpl; [done|].
  by rewrite unmarshal_renderCategory, IH.
Qed.

Lemma unmarshal_renderConfig `{Float64} st :
  Forall storedOK st.(categories) →
  unmarshal (renderConfig st) (zero : GetConfigResponse.t)
  = (GetConfigResponse.mk
       (Config.mk ∅ [] (map categoryOf st.(categories)) [] []), None).
Proof.
  intros Hall. unfold renderConfig.
  unfold unmarshal, GetConfigResponse.t_Unmarshal, decodeStruct.
  cbn -[decodeElems]. by rewrite decodeElems_renderCategory.
Qed.

(** Rewriting the lookups of a map built by insertions under literal keys,
    and of a parameter map built with [Values.Set]. *)
Ltac map_lookup :=
  repeat (rewrite lookup_insert_eq
          || rewrite lookup_insert_ne by (intros ?; discriminate)
          || rewrite lookup_empty).

Ltac values_lookup := unfold Values_Get, Values_Set; map_lookup.

Lemma GetConfig_Remote `{Float64} c st :
  Forall storedOK st.(categories) →
  GetConfig c st
  = (Ok (Config.mk ∅ [] (map categoryOf st.(categories)) [] []), st).
Proof.
  intros Hall.
  unfold GetConfig, doRequest, bind, ret, httpGet, Remote_Transport.
  values_lookup. cbn [String.eqb Ascii.eqb Bool.eqb].
  unfold json_Unmarshal at 1.
  change (unmarshal (renderConfig st) (zero : ErrorResp.t)) with (zero : ErrorResp.t, @None error).
  cbn [nonEmpty]. unfold json_Unmarshal. by rewrite unmarshal_renderConfig.
Qed.

Lemma Forall_List_filter {A} (P : A → Prop) (f : A → bool) l :
  Forall P l → Forall P (List.filter f l).
Proof.
  induction 1 as [|x l Hx Hl IH]; simpl; [constructor|].
  destruct (f x); [by constructor | done].
Qed.

(** The well-formedness of the entries is an invariant of the requests. *)
Lemma httpGet_Remote_storedOK url (query : Values) st :
  Forall storedOK st.(categories) →
  is_Some (strconv_ParseInt (Values_Get "priority" query)) →
  is_Some (strconv_ParseInt (Values_Get "order" query)) →
  Forall storedOK (snd (httpGet url query st)).(categories).
Proof.
  intros Hst Hp Ho. unfold httpGet, Remote_Transport.
  repeat case_match; simpl; try done.
  - by apply upsert_storedOK.
  - by apply Forall_List_filter.
Qed.

Lemma SetCategory_Remote `{Float64} c input st :
  SetCategory c input st
  = (None, mkRemote (upsert (storedOf input) st.(categories))).
Proof.
  unfold SetCategory, SetCategory_params, doRequest, bind, ret, httpGet,
    Remote_Transport.
  values_lookup. reflexivity.
Qed.

(** C3.  Against the remote that stores what it is sent, [SetCategory]
    succeeds and [GetCategory] on the name written then returns a [Category]
    whose name, dir, script, priority, pp and order are the input's, the two
    numbers being within the range of [int]. *)
Theorem Category_round_trip `{Float64}
    (c : Client.t) (input : CategoryInput.t) (st : Remote) :
  Forall storedOK st.(categories) →
  int_range input.(CategoryInput.Priority) →
  int_range input.(CategoryInput.Order) →
  ∃ st',
    SetCategory c input st = (None, st')
    ∧ GetCategory c input.(CategoryInput.Name) st'
      = (Ok (Category.mk input.(CategoryInput.Name) input.(CategoryInput.Dir)
               input.(CategoryInput.Script) input.(CategoryInput.Priority)
               input.(CategoryInput.PP) input.(CategoryInput.Order)), st').
Proof.
  intros Hst Hp Ho. eexists. split; [apply SetCategory_Remote|].
  unfold GetCategory, bind, ret.
  rewrite GetConfig_Remote
    by (apply upsert_storedOK; [by apply storedOK_storedOf | done]).
  cbn [Config.Categories categories].
  change input.(CategoryInput.Name) with (storedOf input).(Stored.name) at 1.
  rewrite find_upsert, categoryOf_storedOf by done. reflexivity.
Qed.

(** The round trip of the category [movies] on a remote that already holds
    [tv]. *)
Lemma Category_round_trip_witness :
  ∃ st',
    SetCategory exampleClient moviesInput (mkRemote [tvStored]) = (None, st')
    ∧ GetCategory exampleClient "movies" st'
      = (Ok (Category.mk "movies" "Movies" "None" 0 "3" 1), st').
Proof.
  apply (Category_round_trip exampleClient moviesInput (mkRemote [tvStored])).
  - constructor; [|constructor]. split; vm_compute; eauto.
  - unfold int_range. simpl. lia.
  - unfold int_range. simpl. lia.
Defined.

(** ** Reading a name the snapshot does not have *)

Lemma find_absent {A} (p : A → bool) (l : list A) :
  (∀ x, In x l → p x = false) → find p l = None.
Proof.
  induction l as [|x l IH]; intros Hall; simpl; [done|].
  rewrite (Hall x) by (by left). apply IH. intros y Hy. apply Hall. by right.
Qed.

(** C5.  On a snapshot fetched without error, [GetServer] on a name no server
    of the snapshot has returns the error [server "name" not found] and no
    server, and [GetCategory] on a name no category has returns the error
    [category "name" not found] and no category. *)
Theorem Get_absent_name_not_found `{Float64} {W} `{Transport W}
    (c : Client.t) (name : string) (config : Config.t) (w w' : W) :
  GetConfig c w = (Ok config, w') →
  ((∀ server, In server config.(Config.Servers) → server.(Server.Name) ≠ name) →
   GetServer c name w = (Err (Errorf "server %q not found" [name] None), w'))
  ∧ ((∀ cat, In cat config.(Config.Categories) → cat.(Category.Name) ≠ name) →
     GetCategory c name w = (Err (Errorf "category %q not found" [name] None), w')).
Proof.
  intros Hconfig. split; intros Habsent.
  - unfold GetServer, bind, ret. rewrite Hconfig.
    rewrite find_absent; [done|].
    intros server Hin. apply String.eqb_neq. by apply Habsent.
  - unfold GetCategory, bind, ret. rewrite Hconfig.
    rewrite find_absent; [done|].
    intros cat Hin. apply String.eqb_neq. by apply Habsent.
Qed.

Lemma GetConfig_snapshotWorld :
  GetConfig exampleClient snapshotWorld
  = (Ok snapshotConfig, snd (GetConfig exampleClient snapshotWorld)).
Proof. reflexivity. Qed.

(** The snapshot has the server [news1] and the category [tv] only. *)
Lemma Get_absent_name_not_found_witness :
  GetServer exampleClient "news2" snapshotWorld
  = (Err (Errorf "server %q not found" ["news2"] None),
     snd (GetConfig exampleClient snapshotWorld))
  ∧ GetCategory exampleClient "movies" snapshotWorld
    = (Err (Errorf "category %q not found" ["movies"] None),
       snd (GetConfig exampleClient snapshotWorld)).
Proof.
  destruct (Get_absent_name_not_found exampleClient "news2" snapshotConfig
              snapshotWorld (snd (GetConfig exampleClient snapshotWorld))
              GetConfig_snapshotWorld) as [Hserver _].
  destruct (Get_absent_name_not_found exampleClient "movies" snapshotConfig
              snapshotWorld (snd (GetConfig exampleClient snapshotWorld))
              GetConfig_snapshotWorld) as [_ Hcategory].
  split.
  - apply Hserver. intros server [<-|[]]. discriminate.
  - apply Hcategory. intros cat [<-|[]]. discriminate.
Defined.

(** ** The server resource: what [Read] replaces *)

(** C4.  When [Read] ends without a diagnostic, the state it sets has the
    password and the name of the prior state, and every other attribute is
    the value of the server [GetServer] returned, the four flags being
    whether the returned number is 1; the password the remote returned is
    not used. *)
Theorem ServerResource_Read_keeps_password `{Float64} {W} `{Transport W}
    (r : Client.t) (data : ServerResourceModel.t) (w w' : W)
    (resp : Response ServerResourceModel.t) :
  ServerResource_Read r data w = (resp, w') →
  resp.(Diagnostics) = [] →
  ∃ server new,
    GetServer r (ValueString data.(ServerResourceModel.Name)) w = (Ok server, w')
    ∧ resp.(State) = Some new
    ∧ new.(ServerResourceModel.Password) = data.(ServerResourceModel.Password)
    ∧ new.(ServerResourceModel.Name) = data.(ServerResourceModel.Name)
    ∧ new.(ServerResourceModel.Host) = tfKnown server.(Server.Host)
    ∧ new.(ServerResourceModel.Port) = tfKnown server.(Server.Port)
    ∧ new.(ServerResourceModel.Username) = tfKnown server.(Server.Username)
    ∧ new.(ServerResourceModel.Connections) = tfKnown server.(Server.Connections)
    ∧ new.(ServerResourceModel.SSL) = tfKnown (server.(Server.SSL) =? 1)
    ∧ new.(ServerResourceModel.SSLVerify) = tfKnown server.(Server.SSLVerify)
    ∧ new.(ServerResourceModel.SSLCiphers) = tfKnown server.(Server.SSLCiphers)
    ∧ new.(ServerResourceModel.Enable) = tfKnown (server.(Server.Enable) =? 1)
    ∧ new.(ServerResourceModel.Optional) = tfKnown (server.(Server.Optional) =? 1)
    ∧ new.(ServerResourceModel.Retention) = tfKnown server.(Server.Retention)
    ∧ new.(ServerResourceModel.Timeout) = tfKnown server.(Server.Timeout)
    ∧ new.(ServerResourceModel.Priority) = tfKnown server.(Server.Priority)
    ∧ new.(ServerResourceModel.Required) = tfKnown (server.(Server.Required) =? 1)
    ∧ new.(ServerResourceModel.Notes) = tfKnown server.(Server.Notes).
Proof.
  unfold ServerResource_Read, bind, ret.
  destruct (GetServer r _ w) as [[server|err] w1]; intros [= <- <-] Hdiag.
  - exists server. eexists. split; [reflexivity|]. split; [reflexivity|].
    repeat split.
  - discriminate Hdiag.
Qed.

(** [Read] of [news1]: host and ssl come from the snapshot, the password stays. *)
Lemma ServerResource_Read_keeps_password_witness :
  ∃ new,
    (fst (ServerResource_Read exampleClient news1State snapshotWorld)).(State)
    = Some new
    ∧ new.(ServerResourceModel.Password) = tfKnown "s3cret"
    ∧ new.(ServerResourceModel.Host) = tfKnown "n.example.com"
    ∧ new.(ServerResourceModel.SSL) = tfKnown true.
Proof.
  assert (Hdiag :
    (fst (ServerResource_Read exampleClient news1State snapshotWorld)).(Diagnostics)
    = []) by reflexivity.
  destruct (ServerResource_Read_keeps_password exampleClient news1State
              snapshotWorld
              (snd (ServerResource_Read exampleClient news1State snapshotWorld))
              (fst (ServerResource_Read exampleClient news1State snapshotWorld))
              (surjective_pairing _) Hdiag)
    as (server & new & Hget & Hstate & Hpassword & _ & Hhost & _ & _ & _ & Hssl & _).
  exists new. split; [exact Hstate|]. split; [exact Hpassword|].
  apply (f_equal fst) in Hget. vm_compute in Hget. injection Hget as <-.
  split; [exact Hhost | exact Hssl].
Defined.

(** ** The folders resource *)

(** A state is set exactly when no diagnostic is added. *)
Lemma FoldersResource_state_iff_no_diagnostic `{Float64} {W} `{Transport W}
    (op : Client.t → FoldersResourceModel.t → M W (Response FoldersResourceModel.t))
    (r : Client.t) (data : FoldersResourceModel.t) (w : W) :
  In op [FoldersResource_Create; FoldersResource_Read; FoldersResource_Update] →
  is_Some (fst (op r data w)).(State) ↔ (fst (op r data w)).(Diagnostics) = [].
Proof.
  intros [<-|[<-|[<-|[]]]].
  - unfold FoldersResource_Create, bind, ret.
    destruct (SetFolders r _ w) as [[err|] w1]; simpl.
    + split; [by intros [? ?] | discriminate].
    + split; [done | by eexists].
  - unfold FoldersResource_Read, bind, ret.
    destruct (GetFolders r w) as [[folders|err] w1]; simpl.
    + split; [done | by eexists].
    + split; [by intros [? ?] | discriminate].
  - unfold FoldersResource_Update, bind, ret.
    destruct (SetFolders r _ w) as [[err|] w1]; simpl.
    + split; [by intros [? ?] | discriminate].
    + split; [done | by eexists].
Qed.

(** C8.  Whichever of [Create], [Read] and [Update] runs, and whatever the
    plan or prior state holds, when it succeeds, that is, adds no diagnostic,
    it sets a state, and the state it sets has the id ["folders"]. *)
Theorem FoldersResource_id_is_constant `{Float64} {W} `{Transport W}
    (op : Client.t → FoldersResourceModel.t → M W (Response FoldersResourceModel.t))
    (r : Client.t) (data : FoldersResourceModel.t) (w : W) :
  In op [FoldersResource_Create; FoldersResource_Read; FoldersResource_Update] →
  (fst (op r data w)).(Diagnostics) = [] →
  ∃ new,
    (fst (op r data w)).(State) = Some new
    ∧ new.(FoldersResourceModel.ID) = types_StringValue "folders".
Proof.
  intros [<-|[<-|[<-|[]]]].
  - unfold FoldersResource_Create, bind, ret.
    destruct (SetFolders r _ w) as [[err|] w1]; simpl; [discriminate|].
    intros _. by eexists.
  - unfold FoldersResource_Read, bind, ret.
    destruct (GetFolders r w) as [[folders|err] w1]; simpl; [|discriminate].
    intros _. by eexists.
  - unfold FoldersResource_Update, bind, ret.
    destruct (SetFolders r _ w) as [[err|] w1]; simpl; [discriminate|].
    intros _. by eexists.
Qed.

(** [Create], [Read] and [Update] of the folders singleton from a plan
    without id. *)
Lemma FoldersResource_id_is_constant_witness :
  (∃ new, (fst (FoldersResource_Create exampleClient foldersPlan okWorld)).(State)
          = Some new
          ∧ new.(FoldersResourceModel.ID) = tfKnown "folders")
  ∧ (∃ new, (fst (FoldersResource_Read exampleClient foldersPlan snapshotWorld)).(State)
            = Some new
            ∧ new.(FoldersResourceModel.ID) = tfKnown "folders")
  ∧ (∃ new, (fst (FoldersResource_Update exampleClient foldersPlan okWorld)).(State)
            = Some new
            ∧ new.(FoldersResourceModel.ID) = tfKnown "folders").
Proof.
  split; [|split].
  - apply (FoldersResource_id_is_constant FoldersResource_Create exampleClient
             foldersPlan okWorld).
    + left. reflexivity.
    + reflexivity.
  - apply (FoldersResource_id_is_constant FoldersResource_Read exampleClient
             foldersPlan snapshotWorld).
    + right. left. reflexivity.
    + reflexivity.
  - apply (FoldersResource_id_is_constant FoldersResource_Update exampleClient
             foldersPlan okWorld).
    + right. right. left. reflexivity.
    + reflexivity.
Defined.

(** ** Reading the folders off the [misc] map *)

Lemma readString_other `{Float64} {A} (proj : Folders.t → A) misc key set folders :
  (∀ v f, proj (set v f) = proj f) →
  proj (readString misc key set folders) = proj folders.
Proof. intros Hset. unfold readString. by destruct (assertString _). Qed.

Lemma readInt_other `{Float64} {A} (proj : Folders.t → A) misc key set folders :
  (∀ v f, proj (set v f) = proj f) →
  proj (readInt misc key set folders) = proj folders.
Proof. intros Hset. unfold readInt. by destruct (assertFloat64 _). Qed.

Lemma readString_same `{Float64} (proj : Folders.t → string) misc key set folders :
  (∀ v f, proj (set v f) = v) →
  proj (readString misc key set folders)
  = default (proj folders) (assertString (misc !! key)).
Proof. intros Hset. unfold readString. by destruct (assertString _). Qed.

Lemma readInt_same `{Float64} (proj : Folders.t → Z) misc key set folders :
  (∀ v f, proj (set v f) = v) →
  proj (readInt misc key set folders)
  = default (proj folders) (int_of_float64 <$> assertFloat64 (misc !! key)).
Proof. intros Hset. unfold readInt. by destruct (assertFloat64 _). Qed.

(** Peeling the reads of [foldersOfMisc] off one projection. *)
Ltac folders_field :=
  unfold foldersOfMisc;
  match goal with
  | |- ?proj _ = _ =>
      repeat first
        [ rewrite (readString_other proj) by (intros; reflexivity)
        | rewrite (readInt_other proj) by (intros; reflexivity)
        | rewrite (readString_same proj) by (intros; reflexivity)
        | rewrite (readInt_same proj) by (intros; reflexivity) ]
  end.

Lemma foldersOfMisc_string `{Float64} misc key (field : Folders.t → string) :
  In (key, field) foldersStringKeys →
  field (foldersOfMisc misc) = default "" (assertString (misc !! key)).
Proof.
  unfold foldersStringKeys. simpl In.
  intros Hin.
  repeat (destruct Hin as [[= <- <-]|Hin]; [by folders_field|]).
  destruct Hin.
Qed.

Lemma foldersOfMisc_number `{Float64} misc key (field : Folders.t → Z) :
  In (key, field) foldersNumberKeys →
  field (foldersOfMisc misc)
  = default 0 (int_of_float64 <$> assertFloat64 (misc !! key)).
Proof.
  unfold foldersNumberKeys. simpl In.
  intros Hin.
  repeat (destruct Hin as [[= <- <-]|Hin]; [by folders_field|]).
  destruct Hin.
Qed.

(** C9.  On a snapshot fetched without error [GetFolders] returns without
    error.  A string field whose key is absent from [misc], or holds anything
    but a string, is empty; a numeric field whose key is absent, or holds
    anything but a number, is 0; a key of the expected type gives the field
    its value. *)
Theorem GetFolders_lenient `{Float64} {W} `{Transport W}
    (c : Client.t) (config : Config.t) (w w' : W) :
  GetConfig c w = (Ok config, w') →
  ∃ folders,
    GetFolders c w = (Ok folders, w')
    ∧ (∀ key field, In (key, field) foldersStringKeys →
         ((∀ s, config.(Config.Misc) !! key ≠ Some (AnyString s)) →
          field folders = "")
         ∧ (∀ s, config.(Config.Misc) !! key = Some (AnyString s) →
            field folders = s))
    ∧ (∀ key field, In (key, field) foldersNumberKeys →
         ((∀ f, config.(Config.Misc) !! key ≠ Some (AnyFloat64 f)) →
          field folders = 0)
         ∧ (∀ f, config.(Config.Misc) !! key = Some (AnyFloat64 f) →
            field folders = int_of_float64 f)).
Proof.
  intros Hconfig. exists (foldersOfMisc config.(Config.Misc)).
  split; [|split].
  - unfold GetFolders, bind, ret. by rewrite Hconfig.
  - intros key field Hin. rewrite (foldersOfMisc_string _ key field Hin).
    split.
    + intros Hnot. destruct (config.(Config.Misc) !! key) as [[]|]; try done.
      by destruct (Hnot s).
    + by intros s ->.
  - intros key field Hin. rewrite (foldersOfMisc_number _ key field Hin).
    split.
    + intros Hnot. destruct (config.(Config.Misc) !! key) as [[]|]; try done.
      by destruct (Hnot f).
    + by intros f ->.
Qed.

(** The snapshot's [misc] has [download_dir] and [auto_resume] of the expected
    types, [dirscan_speed] as a string, [log_dir] as [null] and no
    [complete_dir]. *)
Lemma GetFolders_lenient_witness :
  ∃ folders,
    fst (GetFolders exampleClient snapshotWorld) = Ok folders
    ∧ folders.(Folders.DownloadDir) = "/data/incomplete"
    ∧ folders.(Folders.CompleteDir) = ""
    ∧ folders.(Folders.LogDir) = ""
    ∧ folders.(Folders.WatchedDirScanSpeed) = 0
    ∧ folders.(Folders.AutoResume) = 1.
Proof.
  destruct (GetFolders_lenient exampleClient snapshotConfig snapshotWorld
              (snd (GetConfig exampleClient snapshotWorld))
              GetConfig_snapshotWorld)
    as (folders & Hget & Hstrings & Hnumbers).
  exists folders. split; [by rewrite Hget|].
  assert (Hmisc : ∀ key,
    snapshotConfig.(Config.Misc) !! key
    = <["log_dir" := AnyNil]>
        (<["dirscan_speed" := AnyString "fast"]>
           (<["auto_resume" := AnyFloat64 (1 : Z)]>
              (<["download_dir" := AnyString "/data/incomplete"]> ∅))) !! key)
    by reflexivity.
  split; [|split; [|split; [|split]]].
  - apply (Hstrings "download_dir" Folders.DownloadDir); [simpl; tauto|].
    rewrite Hmisc. map_lookup. reflexivity.
  - destruct (Hstrings "complete_dir" Folders.CompleteDir) as [Habsent _];
      [simpl; tauto|].
    apply Habsent. intros s. rewrite Hmisc. map_lookup. discriminate.
  - destruct (Hstrings "log_dir" Folders.LogDir) as [Habsent _];
      [simpl; tauto|].
    apply Habsent. intros s. rewrite Hmisc. map_lookup. discriminate.
  - destruct (Hnumbers "dirscan_speed" Folders.WatchedDirScanSpeed) as [Habsent _];
      [simpl; tauto|].
    apply Habsent. intros f. rewrite Hmisc. map_lookup. discriminate.
  - apply (Hnumbers "auto_resume" Folders.AutoResume); [simpl; tauto|].
    rewrite Hmisc. map_lookup. reflexivity.
Defined.

(** ** The parameters of the writes *)

Lemma lookup_setIfNonEmpty_ne key k v (m : Values) :
  key ≠ k → setIfNonEmpty k v m !! key = m !! key.
Proof.
  intros Hne. unfold setIfNonEmpty, Values_Set.
  destruct (nonEmpty v); [by rewrite lookup_insert_ne|done].
Qed.

Lemma lookup_setIfNonEmpty_eq k v (m : Values) :
  setIfNonEmpty k v m !! k = if nonEmpty v then Some [v] else m !! k.
Proof.
  unfold setIfNonEmpty, Values_Set.
  destruct (nonEmpty v); [by rewrite lookup_insert_eq|done].
Qed.

Lemma lookup_if_Set_ne (b : bool) key k v (m : Values) :
  key ≠ k → (if b then Values_Set k v m else m) !! key = m !! key.
Proof.
  intros Hne. unfold Values_Set. destruct b; [by rewrite lookup_insert_ne|done].
Qed.

Lemma lookup_if_Set_eq (b : bool) k v (m : Values) :
  (if b then Values_Set k v m else m) !! k = if b then Some [v] else m !! k.
Proof. unfold Values_Set. destruct b; [by rewrite lookup_insert_eq|done]. Qed.

Lemma lookup_Set_ne key k v (m : Values) :
  key ≠ k → Values_Set k v m !! key = m !! key.
Proof. intros Hne. unfold Values_Set. by rewrite lookup_insert_ne. Qed.

Lemma lookup_Set_eq k v (m : Values) : Values_Set k v m !! k = Some [v].
Proof. unfold Values_Set. by rewrite lookup_insert_eq. Qed.

(** Following one literal key through the parameters of a write. *)
Ltac params_lookup :=
  repeat first
    [ rewrite lookup_Set_eq
    | rewrite lookup_setIfNonEmpty_eq
    | rewrite lookup_if_Set_eq
    | rewrite lookup_Set_ne by discriminate
    | rewrite lookup_setIfNonEmpty_ne by discriminate
    | rewrite lookup_if_Set_ne by discriminate
    | rewrite lookup_empty ].

Lemma SetFolders_params_string input key (field : FoldersInput.t → string) :
  In (key, field) foldersStringParams →
  SetFolders_params input !! key
  = if nonEmpty (field input) then Some [field input] else None.
Proof.
  unfold foldersStringParams. simpl In. intros Hin.
  repeat (destruct Hin as [[= <- <-]|Hin];
          [unfold SetFolders_params; by params_lookup|]).
  destruct Hin.
Qed.

Lemma foldersStringParams_not_auth key field :
  In (key, field) foldersStringParams → key ≠ "output" ∧ key ≠ "apikey".
Proof.
  unfold foldersStringParams. simpl In. intros Hin.
  repeat (destruct Hin as [[= <- <-]|Hin]; [split; discriminate|]).
  destruct Hin.
Qed.

Lemma nonEmpty_false s : s = "" → nonEmpty s = false.
Proof. by intros ->. Qed.

(** What a request of [doRequest] adds to the record of a scripted network. *)
Lemma doRequest_Scripted {R} `{Unmarshal R} c params (result : option R) (w : Scripted) :
  (snd (doRequest c params result w)).(requests)
  = w.(requests) ++ [requestOf c params].
Proof. reflexivity. Qed.

(** C6.  The request [SetFolders] makes carries a string field under its key
    exactly when the field is not empty, [dirscan_speed] exactly when
    [WatchedDirScanSpeed] is not negative, and [auto_resume] always, as ["1"]
    or ["0"]. *)
Theorem SetFolders_omits_empty `{Float64}
    (c : Client.t) (input : FoldersInput.t) (w : Scripted) :
  ∃ reqURL query,
    (snd (SetFolders c input w)).(requests) = w.(requests) ++ [(reqURL, query)]
    ∧ (∀ key field, In (key, field) foldersStringParams →
         (field input ≠ "" → query !! key = Some [field input])
         ∧ (field input = "" → query !! key = None))
    ∧ (0 <= input.(FoldersInput.WatchedDirScanSpeed) →
       query !! "dirscan_speed"
       = Some [strconv_Itoa input.(FoldersInput.WatchedDirScanSpeed)])
    ∧ (input.(FoldersInput.WatchedDirScanSpeed) < 0 →
       query !! "dirscan_speed" = None)
    ∧ query !! "auto_resume"
      = Some [if input.(FoldersInput.AutoResume) then "1" else "0"].
Proof.
  eexists _, _. split; [|split; [|split; [|split]]].
  - unfold SetFolders, bind, ret.
    pose proof (doRequest_Scripted c (SetFolders_params input)
                  (Some (zero : gmap string any)) w) as Hsent.
    destruct (doRequest c (SetFolders_params input) (Some zero) w)
      as [[err resp] w1].
    simpl in *. exact Hsent.
  - intros key field Hin.
    destruct (foldersStringParams_not_auth key field Hin) as [Ho Ha].
    rewrite !lookup_Set_ne by done.
    rewrite (SetFolders_params_string input key field Hin).
    split; intros Hfield.
    + by rewrite nonEmpty_true.
    + by rewrite nonEmpty_false.
  - intros Hspeed. unfold SetFolders_params. params_lookup.
    by rewrite (proj2 (Z.leb_le _ _) Hspeed).
  - intros Hspeed. unfold SetFolders_params. params_lookup.
    by rewrite (proj2 (Z.leb_gt _ _) Hspeed).
  - unfold SetFolders_params. params_lookup. by destruct input.(FoldersInput.AutoResume).
Qed.

(** An input with an empty [DownloadFree] and a negative scan speed. *)
Lemma SetFolders_omits_empty_witness :
  ∃ reqURL query,
    (snd (SetFolders exampleClient exampleFoldersInput okWorld)).(requests)
    = [(reqURL, query)]
    ∧ query !! "download_dir" = Some ["/data/incomplete"]
    ∧ query !! "download_free" = None
    ∧ query !! "dirscan_speed" = None
    ∧ query !! "auto_resume" = Some ["1"].
Proof.
  destruct (SetFolders_omits_empty exampleClient exampleFoldersInput okWorld)
    as (reqURL & query & Hsent & Hstrings & _ & Hspeed & Hauto).
  exists reqURL, query. split; [exact Hsent|].
  split; [|split; [|split]].
  - destruct (Hstrings "download_dir" FoldersInput.DownloadDir) as [Hset _];
      [simpl; tauto|].
    apply Hset. discriminate.
  - destruct (Hstrings "download_free" FoldersInput.DownloadFree) as [_ Hunset];
      [simpl; tauto|].
    apply Hunset. reflexivity.
  - apply Hspeed. reflexivity.
  - exact Hauto.
Defined.

(** C7.  The request [SetServer] makes carries [mode=set_config],
    [section=servers], the name, and every other field of the input under
    its key whatever its value, a number in decimal and a flag as ["1"] when
    true and ["0"] when false. *)
Theorem SetServer_sends_every_field `{Float64}
    (c : Client.t) (input : ServerInput.t) (w : Scripted) :
  ∃ reqURL query,
    (snd (SetServer c input w)).(requests) = w.(requests) ++ [(reqURL, query)]
    ∧ query !! "mode" = Some ["set_config"]
    ∧ query !! "section" = Some ["servers"]
    ∧ query !! "name" = Some [input.(ServerInput.Name)]
    ∧ query !! "host" = Some [input.(ServerInput.Host)]
    ∧ query !! "port" = Some [strconv_Itoa input.(ServerInput.Port)]
    ∧ query !! "username" = Some [input.(ServerInput.Username)]
    ∧ query !! "password" = Some [input.(ServerInput.Password)]
    ∧ query !! "connections" = Some [strconv_Itoa input.(ServerInput.Connections)]
    ∧ query !! "ssl" = Some [if input.(ServerInput.SSL) then "1" else "0"]
    ∧ query !! "ssl_verify" = Some [strconv_Itoa input.(ServerInput.SSLVerify)]
    ∧ query !! "ssl_ciphers" = Some [input.(ServerInput.SSLCiphers)]
    ∧ query !! "enable" = Some [if input.(ServerInput.Enable) then "1" else "0"]
    ∧ query !! "optional" = Some [if input.(ServerInput.Optional) then "1" else "0"]
    ∧ query !! "retention" = Some [strconv_Itoa input.(ServerInput.Retention)]
    ∧ query !! "timeout" = Some [strconv_Itoa input.(ServerInput.Timeout)]
    ∧ query !! "priority" = Some [strconv_Itoa input.(ServerInput.Priority)]
    ∧ query !! "required" = Some [if input.(ServerInput.Required) then "1" else "0"]
    ∧ query !! "notes" = Some [input.(ServerInput.Notes)].
Proof.
  eexists _, _. split.
  - unfold SetServer, bind, ret.
    pose proof (doRequest_Scripted c (SetServer_params input)
                  (Some (zero : gmap string any)) w) as Hsent.
    destruct (doRequest c (SetServer_params input) (Some zero) w)
      as [[err resp] w1].
    simpl in *. exact Hsent.
  - unfold SetServer_params, boolToInt.
    repeat split; by params_lookup.
Qed.

(** ** The request URL *)

Lemma length_append_slash u : String.length (u +:+ "/") = S (String.length u).
Proof. induction u as [|c u IH]; simpl; [done|]. by rewrite IH. Qed.

Lemma substring_append_last u : substring (String.length u) 1 (u +:+ "/") = "/".
Proof. induction u as [|c u IH]; simpl; done. Qed.

Lemma substring_append_init u : substring 0 (String.length u) (u +:+ "/") = u.
Proof. induction u as [|c u IH]; simpl; [done|]. by rewrite IH. Qed.

(** One trailing slash is removed. *)
Lemma TrimSuffix_slash u : strings_TrimSuffix (u +:+ "/") "/" = u.
Proof.
  unfold strings_TrimSuffix, strings_HasSuffix.
  rewrite length_append_slash.
  change (String.length "/") with 1%nat.
  replace (S (String.length u) - 1)%nat with (String.length u) by lia.
  rewrite substring_append_last, substring_append_init. reflexivity.
Qed.

Lemma HasSuffix_slash_inv u :
  strings_HasSuffix u "/" = true → ∃ v, u = v +:+ "/".
Proof.
  unfold strings_HasSuffix. change (String.length "/") with 1%nat.
  induction u as [|c u IH]; [done|].
  destruct u as [|c' u'].
  - simpl. destruct (Ascii.eqb_spec c "/") as [->|Hne]; [|done].
    intros _. by exists "".
  - intros Hsuffix.
    destruct IH as [v ->].
    { simpl in *. by rewrite Nat.sub_0_r in *. }
    by exists (String c v).
Qed.

(** A base URL that does not end in a slash is kept. *)
Lemma TrimSuffix_no_slash u : (∀ v, u ≠ v +:+ "/") → strings_TrimSuffix u "/" = u.
Proof.
  intros Hno. unfold strings_TrimSuffix.
  destruct (strings_HasSuffix u "/") eqn:Hsuffix; [|done].
  destruct (HasSuffix_slash_inv u Hsuffix) as [v ->]. by destruct (Hno v).
Qed.

Lemma HasSuffix_append_slash v : strings_HasSuffix (v +:+ "/") "/" = true.
Proof.
  unfold strings_HasSuffix. rewrite length_append_slash.
  change (String.length "/") with 1%nat.
  replace (S (String.length v) - 1)%nat with (String.length v) by lia.
  by rewrite substring_append_last.
Qed.

(** Not ending in a slash, as [strings.HasSuffix] decides it. *)
Lemma no_trailing_slash u :
  strings_HasSuffix u "/" = false → ∀ v, u ≠ v +:+ "/".
Proof.
  intros Hsuffix v ->. by rewrite HasSuffix_append_slash in Hsuffix.
Qed.

(** Every value of every key is among the encoded pairs. *)
Lemma encodedPairs_In (query : Values) key values value :
  query !! key = Some values →
  In value values →
  In (url_QueryEscape key +:+ "=" +:+ url_QueryEscape value) (encodedPairs query).
Proof.
  intros Hkey Hvalue. unfold encodedPairs. apply in_flat_map.
  exists key. split.
  - unfold sortedKeys.
    eapply Permutation_in.
    + symmetry. apply merge_sort_Permutation.
    + apply (in_map fst _ (key, values)).
      apply list_elem_of_In. by apply elem_of_map_to_list.
  - rewrite Hkey. simpl. by apply (in_map (λ v, _ +:+ "=" +:+ url_QueryEscape v)).
Qed.

(** C10, as the code has it.  For a base URL given as [u/], and for a base
    URL [u] that does not end in a slash, the request of [doRequest] goes to [u ++ "/api?"] followed
    by the encoded parameters; these are the caller's with [apikey] set to the
    client's key and [output] set to [json], and both appear among the
    encoded pairs.  So when [u] does not end in a slash, the clients made from
    [u/] and from [u] behave alike on every network. *)
Theorem doRequest_URL {R} `{Unmarshal R}
    (u apiKey : string) (params : Values) (result : option R) (w : Scripted) :
  let query := Values_Set "output" "json" (Values_Set "apikey" apiKey params) in
  let sent baseURL :=
    (snd (doRequest (NewClient baseURL apiKey) params result w)).(requests) in
  sent (u +:+ "/")
    = w.(requests) ++ [(u +:+ "/api?" +:+ Values_Encode query, query)]
  ∧ ((∀ v, u ≠ v +:+ "/") →
     sent u = w.(requests) ++ [(u +:+ "/api?" +:+ Values_Encode query, query)])
  ∧ query !! "apikey" = Some [apiKey]
  ∧ query !! "output" = Some ["json"]
  ∧ Values_Encode query = String.concat "&" (encodedPairs query)
  ∧ In ("apikey=" +:+ url_QueryEscape apiKey) (encodedPairs query)
  ∧ In "output=json" (encodedPairs query)
  ∧ ((∀ v, u ≠ v +:+ "/") →
     ∀ W' (T' : Transport W') (w' : W'),
       doRequest (NewClient (u +:+ "/") apiKey) params result w'
       = doRequest (NewClient u apiKey) params result w').
Proof.
  intros query sent.
  assert (Hapikey : query !! "apikey" = Some [apiKey])
    by (unfold query; by params_lookup).
  assert (Houtput : query !! "output" = Some ["json"])
    by (unfold query; by params_lookup).
  split; [|split; [|split; [|split; [|split; [|split; [|split]]]]]]; try done.
  - unfold sent. rewrite doRequest_Scripted. unfold requestOf, NewClient.
    cbn [Client.baseURL Client.apiKey]. by rewrite TrimSuffix_slash.
  - intros Hno. unfold sent. rewrite doRequest_Scripted. unfold requestOf, NewClient.
    cbn [Client.baseURL Client.apiKey]. by rewrite TrimSuffix_no_slash.
  - apply (encodedPairs_In query "apikey" [apiKey] apiKey Hapikey). by left.
  - apply (encodedPairs_In query "output" ["json"] "json" Houtput). by left.
  - intros Hno W' T' w'. unfold NewClient.
    by rewrite TrimSuffix_slash, TrimSuffix_no_slash.
Qed.

(** The same requests with and without the trailing slash. *)
Lemma doRequest_URL_witness :
  (snd (doRequest (NewClient "http://localhost:8080/" "k3y")
          (Values_Set "mode" "version" ∅) (Some (∅ : gmap string any)) okWorld)).(requests)
  = (snd (doRequest (NewClient "http://localhost:8080" "k3y")
            (Values_Set "mode" "version" ∅) (Some (∅ : gmap string any)) okWorld)).(requests).
Proof.
  destruct (doRequest_URL "http://localhost:8080" "k3y"
              (Values_Set "mode" "version" ∅) (Some (∅ : gmap string any)) okWorld)
    as (Hslash & Hplain & _).
  rewrite Hplain.
  - exact Hslash.
  - apply no_trailing_slash. reflexivity.
Defined.

(** C10, the claim as stated fails: the base URL [http://h//] is given with a
    trailing slash and [http://h/] is the same URL without it, yet the two
    clients request different URLs, since [NewClient] removes one slash
    only. *)
Lemma doRequest_URL_double_slash :
  map fst (snd (doRequest (NewClient "http://h//" "k3y")
                  (Values_Set "mode" "version" ∅) (Some (∅ : gmap string any))
                  okWorld)).(requests)
  = ["http://h//api?apikey=k3y&mode=version&output=json"]
  ∧ map fst (snd (doRequest (NewClient "http://h/" "k3y")
                    (Values_Set "mode" "version" ∅) (Some (∅ : gmap string any))
                    okWorld)).(requests)
    = ["http://h/api?apikey=k3y&mode=version&output=json"]
  ∧ map fst (snd (doRequest (NewClient "http://h//" "k3y")
                    (Values_Set "mode" "version" ∅) (Some (∅ : gmap string any))
                    okWorld)).(requests)
    ≠ map fst (snd (doRequest (NewClient "http://h/" "k3y")
                      (Values_Set "mode" "version" ∅) (Some (∅ : gmap string any))
                      okWorld)).(requests).
Proof.
  assert (Hdouble :
    map fst (snd (doRequest (NewClient "http://h//" "k3y")
                    (Values_Set "mode" "version" ∅) (Some (∅ : gmap string any))
                    okWorld)).(requests)
    = ["http://h//api?apikey=k3y&mode=version&output=json"]) by reflexivity.
  assert (Hsingle :
    map fst (snd (doRequest (NewClient "http://h/" "k3y")
                    (Values_Set "mode" "version" ∅) (Some (∅ : gmap string any))
                    okWorld)).(requests)
    = ["http://h/api?apikey=k3y&mode=version&output=json"]) by reflexivity.
  split; [exact Hdouble|]. split; [exact Hsingle|].
  rewrite Hdouble, Hsingle. discriminate.
Qed.

(** Only one slash is removed: from [http://h//] the base URL is [http://h/],
    which is not the base URL made from [http://h/]. *)
Example double_slash_differs :
  (NewClient "http://h//" "k3y").(Client.baseURL) = "http://h/"
  ∧ (NewClient "http://h/" "k3y").(Client.baseURL) = "http://h".
Proof. split; reflexivity. Qed.

(** The URL of a [version] request. *)
Example request_URL_example :
  fst (requestOf exampleClient (Values_Set "mode" "version" ∅))
  = "http://localhost:8080/api?apikey=k3y&mode=version&output=json".
Proof. reflexivity. Qed.

Example QueryEscape_example : url_QueryEscape "a b&c/d~e=f" = "a+b%26c%2Fd~e%3Df".
Proof. reflexivity. Qed.

(** * Further properties of the client and of the provider *)

(** ** The transport *)

(** X1.  An API error is what [doRequest] returns only when a body was read
    that decodes into the error shape without a decoding error; its message is
    the decoded [error] field, it is never empty, and what [result] points to
    is untouched. *)
Theorem doRequest_APIError_sound {W} `{Transport W} {R} `{Unmarshal R}
    (c : Client.t) (params : Values) (result after : option R)
    (msg : string) (w w' : W) :
  doRequest c params result w = ((Some (APIError msg), after), w') →
  msg ≠ ""
  ∧ after = result
  ∧ ∃ body,
      httpGet (requestOf c params).1 (requestOf c params).2 w
        = (ResponseBody body, w')
      ∧ json_Unmarshal body (zero : ErrorResp.t) = (ErrorResp.mk msg, None).
Proof.
  unfold doRequest, bind, ret, requestOf. cbn [fst snd].
  destruct (httpGet _ _ w) as [outcome w1].
  destruct outcome as [err|err|err|body]; try (intros [=]; fail).
  destruct (json_Unmarshal body (zero : ErrorResp.t)) as [[e] [err|]] eqn:Hdecode.
  - destruct result as [cur|]; [|intros [=]].
    destruct (json_Unmarshal body cur) as [v [err'|]]; intros [=].
  - cbn [ErrorResp.Error].
    destruct (nonEmpty e) eqn:He.
    + intros [= -> <- <-]. split; [|split; [done|]].
      * intros ->. discriminate He.
      * by exists body.
    + destruct result as [cur|]; [|intros [=]].
      destruct (json_Unmarshal body cur) as [v [err'|]]; intros [=].
Qed.

(** The answer [errorBody] gives the API error ["boom"]. *)
Lemma doRequest_APIError_sound_witness :
  json_Unmarshal (Some errorBody) (zero : ErrorResp.t) = (ErrorResp.mk "boom", None).
Proof.
  assert (Hrun :
    doRequest exampleClient ∅ (Some (∅ : gmap string any))
      (mkScripted (ResponseBody (Some errorBody)) [])
    = ((Some (APIError "boom"), Some ∅),
       snd (doRequest exampleClient ∅ (Some (∅ : gmap string any))
              (mkScripted (ResponseBody (Some errorBody)) []))))
    by reflexivity.
  destruct (doRequest_APIError_sound exampleClient ∅ (Some (∅ : gmap string any))
              (Some ∅) "boom" _ _ Hrun)
    as (_ & _ & body & Hget & Hdecode).
  apply (f_equal fst) in Hget. cbn in Hget. injection Hget as <-.
  exact Hdecode.
Defined.

(** When every request is answered with a body that decodes into the error
    shape with the message [msg], [doRequest] returns the API error. *)
Lemma doRequest_error_answer {W} `{Transport W} {R} `{Unmarshal R}
    (c : Client.t) (params : Values) (result : option R)
    (body : option json) (msg : string) (w : W) :
  (∀ reqURL query, fst (httpGet reqURL query w) = ResponseBody body) →
  json_Unmarshal body (zero : ErrorResp.t) = (ErrorResp.mk msg, None) →
  msg ≠ "" →
  fst (doRequest c params result w) = (Some (APIError msg), result).
Proof.
  intros Hanswer Hdecode Hmsg. unfold doRequest, bind, ret.
  pose proof (Hanswer
    (c.(Client.baseURL) +:+ "/api?" +:+
       Values_Encode (Values_Set "output" "json"
                        (Values_Set "apikey" c.(Client.apiKey) params)))
    (Values_Set "output" "json" (Values_Set "apikey" c.(Client.apiKey) params)))
    as Hget.
  destruct (httpGet _ _ w) as [outcome w1]. cbn [fst] in Hget. subst outcome.
  cbn [fst]. rewrite Hdecode. cbn [ErrorResp.Error].
  by rewrite nonEmpty_true.
Qed.

(** Running a client call that is one [doRequest] and a wrapping. *)
Ltac client_call Hrequest :=
  unfold bind, ret;
  match goal with
  | |- context [doRequest ?c ?params ?result ?w] =>
      pose proof (Hrequest _ _ c params result) as Hcall;
      destruct (doRequest c params result w) as [[err resp] w1];
      cbn [fst snd] in *
  end.

(** X2.  When the remote answers every request with a body carrying the API
    error [msg], each call of the client returns an error on whose chain of
    wrapped errors [errors.As] finds the [APIError] with that message, and no
    value: in particular the reads by name do not report "not found". *)
Theorem client_surfaces_APIError `{Float64} {W} `{Transport W}
    (c : Client.t) (body : option json) (msg : string) (w : W) :
  (∀ reqURL query, fst (httpGet reqURL query w) = ResponseBody body) →
  json_Unmarshal body (zero : ErrorResp.t) = (ErrorResp.mk msg, None) →
  msg ≠ "" →
  (∀ name,
     (resultError (fst (GetServer c name w)) ≫= asAPIError) = Some msg
     ∧ (resultError (fst (GetCategory c name w)) ≫= asAPIError) = Some msg
     ∧ (fst (DeleteServer c name w) ≫= asAPIError) = Some msg
     ∧ (fst (DeleteCategory c name w) ≫= asAPIError) = Some msg)
  ∧ (∀ input, (fst (SetServer c input w) ≫= asAPIError) = Some msg)
  ∧ (∀ input, (fst (SetCategory c input w) ≫= asAPIError) = Some msg)
  ∧ (∀ input, (fst (SetFolders c input w) ≫= asAPIError) = Some msg)
  ∧ (resultError (fst (GetConfig c w)) ≫= asAPIError) = Some msg
  ∧ (resultError (fst (GetFolders c w)) ≫= asAPIError) = Some msg
  ∧ (resultError (fst (GetVersion c w)) ≫= asAPIError) = Some msg
  ∧ (resultError (fst (GetCategories c w)) ≫= asAPIError) = Some msg
  ∧ (resultError (fst (GetScripts c w)) ≫= asAPIError) = Some msg
  ∧ (resultError (fst (GetStatus c w)) ≫= asAPIError) = Some msg.
Proof.
  intros Hanswer Hdecode Hmsg.
  pose proof (λ R (U : Unmarshal R) c params (result : option R),
                doRequest_error_answer c params result body msg w
                  Hanswer Hdecode Hmsg) as Hrequest.
  assert (Hconfig : fst (GetConfig c w)
                    = Err (Errorf "getting config: %w" [] (Some (APIError msg)))).
  { unfold GetConfig. client_call Hrequest. by injection Hcall as -> _. }
  repeat split.
  - unfold GetServer, bind, ret. destruct (GetConfig c w) as [r w1].
    cbn [fst] in *. by subst r.
  - unfold GetCategory, bind, ret. destruct (GetConfig c w) as [r w1].
    cbn [fst] in *. by subst r.
  - unfold DeleteServer. client_call Hrequest. by injection Hcall as -> _.
  - unfold DeleteCategory. client_call Hrequest. by injection Hcall as -> _.
  - intros input. unfold SetServer. client_call Hrequest. by injection Hcall as -> _.
  - intros input. unfold SetCategory. client_call Hrequest. by injection Hcall as -> _.
  - intros input. unfold SetFolders. client_call Hrequest. by injection Hcall as -> _.
  - by rewrite Hconfig.
  - unfold GetFolders, bind, ret. destruct (GetConfig c w) as [r w1].
    cbn [fst] in *. by subst r.
  - unfold GetVersion. client_call Hrequest. by injection Hcall as -> _.
  - unfold GetCategories. client_call Hrequest. by injection Hcall as -> _.
  - unfold GetScripts. client_call Hrequest. by injection Hcall as -> _.
  - unfold GetStatus. client_call Hrequest. by injection Hcall as -> _.
Qed.

(** On [errorBody] the read of a server reports the API error. *)
Lemma client_surfaces_APIError_witness :
  (resultError (fst (GetServer exampleClient "news1"
                       (mkScripted (ResponseBody (Some errorBody)) [])))
     ≫= asAPIError) = Some "boom".
Proof.
  destruct (client_surfaces_APIError exampleClient (Some errorBody) "boom"
              (mkScripted (ResponseBody (Some errorBody)) []))
    as [Hnamed _].
  - intros reqURL query. reflexivity.
  - reflexivity.
  - discriminate.
  - exact (proj1 (Hnamed "news1")).
Defined.

(** ** One request for each call *)

Lemma doRequest_Replay {R} `{Unmarshal R} c params (result : option R) :
  oneRequest (doRequest c params result) (requestOf c params).
Proof. intros [[|outcome rest] log]; reflexivity. Qed.

(** A call that is one [doRequest] and a wrapping makes its request. *)
Ltac one_request :=
  intros w; unfold bind, ret;
  match goal with
  | |- context [doRequest ?c ?params ?result w] =>
      pose proof (doRequest_Replay c params result w) as Hsent;
      destruct (doRequest c params result w) as [[err resp] w1];
      exact Hsent
  end.

Lemma GetConfig_oneRequest `{Float64} c :
  oneRequest (GetConfig c) (requestOf c (Values_Set "mode" "get_config" ∅)).
Proof. unfold GetConfig. one_request. Qed.

(** X3.  Every call of the client makes exactly one request and takes exactly
    one answer, whether the answer is a failure of the network, an API error
    or a success: nothing is retried and no second request follows.  The
    request is the one of the call's parameters; [GetServer], [GetCategory]
    and [GetFolders] make the request of [GetConfig], which carries [mode],
    [apikey] and [output] only, not the name looked for. *)
Theorem client_calls_one_request `{Float64} (c : Client.t) :
  let snapshot := requestOf c (Values_Set "mode" "get_config" ∅) in
  oneRequest (GetConfig c) snapshot
  ∧ (∀ name, oneRequest (GetServer c name) snapshot)
  ∧ (∀ name, oneRequest (GetCategory c name) snapshot)
  ∧ oneRequest (GetFolders c) snapshot
  ∧ dom snapshot.2 = {["mode"; "apikey"; "output"]}
  ∧ (∀ input, oneRequest (SetServer c input) (requestOf c (SetServer_params input)))
  ∧ (∀ input, oneRequest (SetCategory c input) (requestOf c (SetCategory_params input)))
  ∧ (∀ input, oneRequest (SetFolders c input) (requestOf c (SetFolders_params input)))
  ∧ (∀ name,
       oneRequest (DeleteServer c name)
         (requestOf c
            (Values_Set "keyword" name
               (Values_Set "section" "servers"
                  (Values_Set "mode" "del_config" ∅)))))
  ∧ (∀ name,
       oneRequest (DeleteCategory c name)
         (requestOf c
            (Values_Set "keyword" name
               (Values_Set "section" "categories"
                  (Values_Set "mode" "del_config" ∅)))))
  ∧ oneRequest (GetVersion c) (requestOf c (Values_Set "mode" "version" ∅))
  ∧ oneRequest (GetCategories c) (requestOf c (Values_Set "mode" "get_cats" ∅))
  ∧ oneRequest (GetScripts c) (requestOf c (Values_Set "mode" "get_scripts" ∅))
  ∧ oneRequest (GetStatus c) (requestOf c (Values_Set "mode" "status" ∅))
  ∧ (∀ section,
       oneRequest (GetConfigSection c section)
         (requestOf c
            (Values_Set "section" section (Values_Set "mode" "get_config" ∅))))
  ∧ (∀ section keyword,
       oneRequest (GetConfigSectionByKeyword c section keyword)
         (requestOf c
            (Values_Set "keyword" keyword
               (Values_Set "section" section
                  (Values_Set "mode" "get_config" ∅))))).
Proof.
  intros snapshot.
  assert (Hsnapshot : ∀ {A} (k : Result Config.t → A),
            oneRequest (r <- GetConfig c ;; ret (k r)) snapshot).
  { intros A k w. unfold bind, ret.
    pose proof (GetConfig_oneRequest c w) as Hsent.
    by destruct (GetConfig c w) as [r w1]. }
  split; [apply GetConfig_oneRequest|].
  split; [intros name; apply Hsnapshot|].
  split; [intros name; apply Hsnapshot|].
  split; [apply Hsnapshot|].
  split.
  { unfold snapshot, requestOf, Values_Set. cbn [snd].
    rewrite !dom_insert_L, dom_empty_L. set_solver. }
  split; [intros input; unfold SetServer; one_request|].
  split; [intros input; unfold SetCategory; one_request|].
  split; [intros input; unfold SetFolders; one_request|].
  split; [intros name; unfold DeleteServer; one_request|].
  split; [intros name; unfold DeleteCategory; one_request|].
  split; [unfold GetVersion; one_request|].
  split; [unfold GetCategories; one_request|].
  split; [unfold GetScripts; one_request|].
  split; [unfold GetStatus; one_request|].
  split; [intros section; unfold GetConfigSection; one_request|].
  intros section keyword. unfold GetConfigSectionByKeyword. one_request.
Qed.

(** An object of flat values without a member named [error] is a success
    for a call that decodes into a map. *)
Lemma decodeEntries_flat `{Float64} members (cur : gmap string any) :
  Forall (λ m, flatValue m.2) members →
  (decodeEntries members cur).2 = None.
Proof.
  intros Hall. revert cur.
  induction Hall as [|[key j] members Hflat _ IH]; intros cur; [done|].
  cbn [decodeEntries]. unfold unmarshal at 1, any_Unmarshal.
  destruct j; try done; cbn [valueInterface];
    match goal with
    | |- context [decodeEntries members ?cur'] =>
        specialize (IH cur');
        destruct (decodeEntries members cur') as [m e]; cbn in IH; by subst e
    end.
Qed.

Lemma doRequest_flat_answer `{Float64} c params members rest log :
  Forall (λ m, ¬ equalFold m.1 "error" ∧ flatValue m.2) members →
  fst (fst (doRequest c params (Some (zero : gmap string any))
              (mkReplay (ResponseBody (Some (JObject members)) :: rest) log)))
  = None.
Proof.
  intros Hmembers.
  assert (Herror : decodeMembers ErrorResp.fields members zero = (zero, None)).
  { apply decodeMembers_error_skip.
    eapply Forall_impl; [exact Hmembers|]. intros m [Hm _] Hfold. by destruct Hm. }
  assert (Hmap : (decodeEntries members (zero : gmap string any)).2 = None).
  { apply decodeEntries_flat.
    eapply Forall_impl; [exact Hmembers|]. by intros m [_ Hm]. }
  unfold doRequest, bind, ret, httpGet, Replay_Transport.
  cbn [pending received fst snd].
  unfold json_Unmarshal, unmarshal at 1, ErrorResp.t_Unmarshal, decodeStruct.
  rewrite Herror. cbn [ErrorResp.Error zero ErrorResp.t_Zero].
  change (nonEmpty string_Zero) with false. cbn iota.
  unfold unmarshal, map_Unmarshal.
  destruct (decodeEntries members zero) as [m e]. cbn in Hmap. by subst e.
Qed.

(** X4.  [DeleteServer] and [DeleteCategory] do not look at the snapshot:
    their outcome is the outcome of the one [del_config] request, the same
    for every name, and it is success whenever the answer is an object of
    flat values without a member named [error]: a name the remote does not
    have is not reported by the client. *)
Theorem Delete_decided_by_answer `{Float64}
    (c : Client.t) (name name' : string) (w : Replay) :
  fst (DeleteServer c name w) = fst (DeleteServer c name' w)
  ∧ fst (DeleteCategory c name w) = fst (DeleteCategory c name' w)
  ∧ (∀ members rest,
       w.(pending) = ResponseBody (Some (JObject members)) :: rest →
       Forall (λ m, ¬ equalFold m.1 "error" ∧ flatValue m.2) members →
       fst (DeleteServer c name w) = None
       ∧ fst (DeleteCategory c name w) = None).
Proof.
  assert (Hparams : ∀ params params',
            fst (doRequest c params (Some (zero : gmap string any)) w)
            = fst (doRequest c params' (Some (zero : gmap string any)) w)).
  { intros params params'. unfold doRequest, bind, ret, httpGet, Replay_Transport.
    destruct w as [[|outcome rest] log]; reflexivity. }
  split; [|split].
  - unfold DeleteServer, bind, ret.
    match goal with
    | |- context [doRequest c ?p _ w] =>
        match goal with
        | |- context [doRequest c ?p' _ w] =>
            lazymatch p with p' => fail | _ => pose proof (Hparams p p') as Hsame end
        end
    end.
    do 2 destruct (doRequest _ _ _ _) as [[? ?] ?]. cbn in *. by injection Hsame as ->.
  - unfold DeleteCategory, bind, ret.
    match goal with
    | |- context [doRequest c ?p _ w] =>
        match goal with
        | |- context [doRequest c ?p' _ w] =>
            lazymatch p with p' => fail | _ => pose proof (Hparams p p') as Hsame end
        end
    end.
    do 2 destruct (doRequest _ _ _ _) as [[? ?] ?]. cbn in *. by injection Hsame as ->.
  - intros members rest Hpending Hmembers.
    destruct w as [pending log]. cbn in Hpending. subst pending.
    split.
    + unfold DeleteServer, bind, ret.
      pose proof (doRequest_flat_answer c
                    (Values_Set "keyword" name
                       (Values_Set "section" "servers"
                          (Values_Set "mode" "del_config" ∅)))
                    members rest log Hmembers) as Hok.
      destruct (doRequest _ _ _ _) as [[err resp] w1]. cbn in Hok. by subst err.
    + unfold DeleteCategory, bind, ret.
      pose proof (doRequest_flat_answer c
                    (Values_Set "keyword" name
                       (Values_Set "section" "categories"
                          (Values_Set "mode" "del_config" ∅)))
                    members rest log Hmembers) as Hok.
      destruct (doRequest _ _ _ _) as [[err resp] w1]. cbn in Hok. by subst err.
Qed.

(** Deleting [news2], which the remote need not have, on the answer [ok]. *)
Lemma Delete_decided_by_answer_witness :
  fst (DeleteServer exampleClient "news2" okReplay) = None
  ∧ fst (DeleteCategory exampleClient "movies" okReplay) = None.
Proof.
  destruct (Delete_decided_by_answer exampleClient "news2" "news1" okReplay)
    as (_ & _ & Hserver).
  destruct (Delete_decided_by_answer exampleClient "movies" "tv" okReplay)
    as (_ & _ & Hcategory).
  split.
  - refine (proj1 (Hserver [("status", JBool true)] [] eq_refl _)).
    constructor; [|constructor]. split; [|exact I].
    intros Hfold. vm_compute in Hfold. discriminate.
  - refine (proj2 (Hcategory [("status", JBool true)] [] eq_refl _)).
    constructor; [|constructor]. split; [|exact I].
    intros Hfold. vm_compute in Hfold. discriminate.
Defined.

(** ** Reading a name the snapshot has *)

Lemma find_first {A} (p : A → bool) (l : list A) (x : A) :
  find p l = Some x →
  ∃ before after,
    l = before ++ x :: after ∧ p x = true ∧ ∀ y, In y before → p y = false.
Proof.
  induction l as [|y l IH]; [done|]. simpl.
  destruct (p y) eqn:Hy.
  - intros [= ->]. by exists [], l.
  - intros Hfind. destruct (IH Hfind) as (before & after & -> & Hx & Hbefore).
    exists (y :: before), after. repeat split; [done|].
    intros z [<-|Hz]; [done | by apply Hbefore].
Qed.

(** X5.  A server that [GetServer] returns is an entry of the snapshot just
    fetched, it has the name asked for, and no entry before it has that name:
    of two entries with one name the first is returned.  The same holds for
    [GetCategory]. *)
Theorem Get_found_is_first `{Float64} {W} `{Transport W}
    (c : Client.t) (name : string) (w w' : W) :
  (∀ server,
     GetServer c name w = (Ok server, w') →
     ∃ config before after,
       GetConfig c w = (Ok config, w')
       ∧ config.(Config.Servers) = before ++ server :: after
       ∧ server.(Server.Name) = name
       ∧ ∀ other, In other before → other.(Server.Name) ≠ name)
  ∧ (∀ cat,
       GetCategory c name w = (Ok cat, w') →
       ∃ config before after,
         GetConfig c w = (Ok config, w')
         ∧ config.(Config.Categories) = before ++ cat :: after
         ∧ cat.(Category.Name) = name
         ∧ ∀ other, In other before → other.(Category.Name) ≠ name).
Proof.
  split.
  - intros server. unfold GetServer, bind, ret.
    destruct (GetConfig c w) as [[config|err] w1]; [|intros [=]].
    destruct (find _ _) as [found|] eqn:Hfind; intros [= <- <-].
    destruct (find_first _ _ _ Hfind) as (before & after & Hsplit & Hname & Hbefore).
    exists config, before, after. repeat split; [done| |].
    + by apply String.eqb_eq.
    + intros other Hin. apply String.eqb_neq. by apply Hbefore.
  - intros cat. unfold GetCategory, bind, ret.
    destruct (GetConfig c w) as [[config|err] w1]; [|intros [=]].
    destruct (find _ _) as [found|] eqn:Hfind; intros [= <- <-].
    destruct (find_first _ _ _ Hfind) as (before & after & Hsplit & Hname & Hbefore).
    exists config, before, after. repeat split; [done| |].
    + by apply String.eqb_eq.
    + intros other Hin. apply String.eqb_neq. by apply Hbefore.
Qed.

(** [news1] and [tv] are found in the snapshot, each under its name. *)
Lemma Get_found_is_first_witness :
  (∃ server, fst (GetServer exampleClient "news1" snapshotWorld) = Ok server
             ∧ server.(Server.Name) = "news1")
  ∧ (∃ cat, fst (GetCategory exampleClient "tv" snapshotWorld) = Ok cat
            ∧ cat.(Category.Name) = "tv").
Proof.
  destruct (Get_found_is_first exampleClient "news1" snapshotWorld
              (snd (GetConfig exampleClient snapshotWorld))) as [Hserver _].
  destruct (Get_found_is_first exampleClient "tv" snapshotWorld
              (snd (GetConfig exampleClient snapshotWorld))) as [_ Hcategory].
  split.
  - exists news1Server. split; [reflexivity|].
    destruct (Hserver news1Server) as (config & before & after & _ & _ & Hname & _);
      [reflexivity | exact Hname].
  - exists (Category.mk "tv" "TV Shows" "None" 1 "3" 0). split; [reflexivity|].
    destruct (Hcategory (Category.mk "tv" "TV Shows" "None" 1 "3" 0))
      as (config & before & after & _ & _ & Hname & _);
      [reflexivity | exact Hname].
Defined.

(** ** The parameters of the other writes *)

Lemma dom_setIfNonEmpty_subseteq k v (m : Values) :
  dom (setIfNonEmpty k v m) ⊆ {[k]} ∪ dom m.
Proof.
  unfold setIfNonEmpty, Values_Set. destruct (nonEmpty v).
  - by rewrite dom_insert_L.
  - set_solver.
Qed.

Lemma dom_Values_Set k v (m : Values) : dom (Values_Set k v m) = {[k]} ∪ dom m.
Proof. unfold Values_Set. by rewrite dom_insert_L. Qed.

Lemma dom_if_Set_subseteq (b : bool) k v (m : Values) :
  dom (if b then Values_Set k v m else m) ⊆ {[k]} ∪ dom m.
Proof. destruct b; [by rewrite dom_Values_Set | set_solver]. Qed.

(** X6.  The request [SetCategory] makes carries [mode=set_config],
    [section=categories] and the six fields of the input, each whatever its
    value, the two numbers in decimal; with [apikey] and [output] these are
    all its parameters. *)
Theorem SetCategory_sends_every_field `{Float64}
    (c : Client.t) (input : CategoryInput.t) (w : Scripted) :
  ∃ reqURL query,
    (snd (SetCategory c input w)).(requests) = w.(requests) ++ [(reqURL, query)]
    ∧ query !! "mode" = Some ["set_config"]
    ∧ query !! "section" = Some ["categories"]
    ∧ query !! "name" = Some [input.(CategoryInput.Name)]
    ∧ query !! "dir" = Some [input.(CategoryInput.Dir)]
    ∧ query !! "script" = Some [input.(CategoryInput.Script)]
    ∧ query !! "priority" = Some [strconv_Itoa input.(CategoryInput.Priority)]
    ∧ query !! "pp" = Some [input.(CategoryInput.PP)]
    ∧ query !! "order" = Some [strconv_Itoa input.(CategoryInput.Order)]
    ∧ dom query
      = {["mode"; "section"; "name"; "dir"; "script"; "priority"; "pp"; "order";
          "apikey"; "output"]}.
Proof.
  eexists _, _. split.
  - unfold SetCategory, bind, ret.
    pose proof (doRequest_Scripted c (SetCategory_params input)
                  (Some (zero : gmap string any)) w) as Hsent.
    destruct (doRequest c (SetCategory_params input) (Some zero) w)
      as [[err resp] w1].
    simpl in *. exact Hsent.
  - unfold SetCategory_params.
    repeat split; by params_lookup.
Qed.

(** X7.  Whatever the input and the answer, [SetFolders] makes one request;
    it has no parameter besides [mode], [section], the fifteen folder keys,
    [apikey] and [output], and it always has [mode=set_config],
    [section=misc], [auto_resume] as ["1"] or ["0"], the client's [apikey] and
    [output=json].  For an input whose strings are all empty and whose scan
    speed is negative these five are the whole request: it still sets
    [auto_resume]. *)
Theorem SetFolders_parameters `{Float64}
    (c : Client.t) (input : FoldersInput.t) (w : Scripted) :
  ∃ reqURL query,
    (snd (SetFolders c input w)).(requests) = w.(requests) ++ [(reqURL, query)]
    ∧ (∀ key, is_Some (query !! key) →
         In key (["mode"; "section"; "auto_resume"; "dirscan_speed"; "apikey"; "output"]
                 ++ map fst foldersStringParams))
    ∧ query !! "mode" = Some ["set_config"]
    ∧ query !! "section" = Some ["misc"]
    ∧ query !! "auto_resume" = Some [boolToInt input.(FoldersInput.AutoResume)]
    ∧ query !! "apikey" = Some [c.(Client.apiKey)]
    ∧ query !! "output" = Some ["json"]
    ∧ ((∀ key field, In (key, field) foldersStringParams → field input = "") →
       input.(FoldersInput.WatchedDirScanSpeed) < 0 →
       query
       = Values_Set "output" "json"
           (Values_Set "apikey" c.(Client.apiKey)
              (Values_Set "auto_resume" (boolToInt input.(FoldersInput.AutoResume))
                 (Values_Set "section" "misc"
                    (Values_Set "mode" "set_config" ∅))))).
Proof.
  exists (requestOf c (SetFolders_params input)).1,
         (requestOf c (SetFolders_params input)).2.
  split.
  { unfold SetFolders, bind, ret.
    pose proof (doRequest_Scripted c (SetFolders_params input)
                  (Some (zero : gmap string any)) w) as Hsent.
    destruct (doRequest c (SetFolders_params input) (Some zero) w)
      as [[err resp] w1].
    simpl in *. exact Hsent. }
  unfold requestOf. cbn [snd].
  split; [|split; [|split; [|split; [|split; [|split]]]]].
  - intros key Hkey. apply elem_of_dom in Hkey. revert Hkey.
    set (keys := _ ++ _). intros Hkey.
    apply list_elem_of_In, (elem_of_list_to_set (C := gset string)).
    revert Hkey. apply elem_of_subseteq. clear key.
    assert (Hin : ∀ k, In k keys → {[k]} ⊆ (list_to_set keys : gset string)).
    { intros k Hk. apply singleton_subseteq_l, elem_of_list_to_set.
      by apply list_elem_of_In. }
    unfold SetFolders_params.
    repeat (first [ rewrite dom_Values_Set
                  | etrans; [apply dom_setIfNonEmpty_subseteq|]
                  | etrans; [apply dom_if_Set_subseteq|] ];
            apply union_least; [apply Hin; simpl; tauto|]).
    rewrite dom_empty_L. apply empty_subseteq.
  - unfold SetFolders_params. by params_lookup.
  - unfold SetFolders_params. by params_lookup.
  - unfold SetFolders_params. by params_lookup.
  - by params_lookup.
  - by params_lookup.
  - intros Hempty Hspeed.
    assert (Hall : Forall (λ entry, entry.2 input = "") foldersStringParams).
    { apply List.Forall_forall. intros [key field] Hin. by apply (Hempty key field). }
    unfold foldersStringParams in Hall.
    repeat (apply Forall_cons_1 in Hall as [? Hall]).
    unfold SetFolders_params. rewrite (proj2 (Z.leb_gt _ _) Hspeed).
    destruct input. cbn in *. by subst.
Qed.

(** An input with nothing to set, sent to a remote that answers [ok]. *)
Lemma SetFolders_parameters_witness :
  map snd (snd (SetFolders exampleClient
                  (FoldersInput.mk "" "" "" "" false "" "" (-1) "" "" "" "" "" "" "")
                  okWorld)).(requests)
  = [ Values_Set "output" "json"
        (Values_Set "apikey" "k3y"
           (Values_Set "auto_resume" "0"
              (Values_Set "section" "misc" (Values_Set "mode" "set_config" ∅)))) ].
Proof.
  destruct (SetFolders_parameters exampleClient
              (FoldersInput.mk "" "" "" "" false "" "" (-1) "" "" "" "" "" "" "")
              okWorld)
    as (reqURL & query & Hsent & _ & _ & _ & _ & _ & _ & Hempty).
  rewrite Hsent, Hempty.
  - reflexivity.
  - intros key field Hin. simpl in Hin.
    repeat (destruct Hin as [[= <- <-]|Hin]; [reflexivity|]). destruct Hin.
  - reflexivity.
Defined.

(** ** The provider block *)

(** X8.  [Configure] takes each of [url] and [api_key] from the provider
    block unless it is null there, and then from the environment.  When both
    values are non-empty it adds no diagnostic and hands the same client, made
    by [NewClient] from them, to the resources and to the data sources.
    Otherwise it hands out no client and adds one diagnostic for each empty
    value, the one on [url] first. *)
Theorem Configure_client_iff_both_values
    (env : Environ) (data : SabnzbdProviderModel.t) :
  let url := resolved data.(SabnzbdProviderModel.URL) env.(SABNZBD_URL) in
  let apiKey := resolved data.(SabnzbdProviderModel.APIKey) env.(SABNZBD_API_KEY) in
  (url ≠ "" → apiKey ≠ "" →
   Configure env data
   = mkConfigureResponse [] (Some (NewClient url apiKey))
                         (Some (NewClient url apiKey)))
  ∧ (url = "" ∨ apiKey = "" →
     (Configure env data).(DataSourceData) = None
     ∧ (Configure env data).(ResourceData) = None
     ∧ map diagnosticAttribute (Configure env data).(ConfigureDiagnostics)
       = (if decide (url = "") then ["url"] else [])
         ++ (if decide (apiKey = "") then ["api_key"] else [])).
Proof.
  intros url apiKey.
  assert (Hurl :
    (if negb (IsNull data.(SabnzbdProviderModel.URL))
     then ValueString data.(SabnzbdProviderModel.URL) else env.(SABNZBD_URL)) = url).
  { unfold url. by destruct data.(SabnzbdProviderModel.URL). }
  assert (Hkey :
    (if negb (IsNull data.(SabnzbdProviderModel.APIKey))
     then ValueString data.(SabnzbdProviderModel.APIKey)
     else env.(SABNZBD_API_KEY)) = apiKey).
  { unfold apiKey. by destruct data.(SabnzbdProviderModel.APIKey). }
  unfold Configure. rewrite Hurl, Hkey. clearbody url apiKey. clear Hurl Hkey.
  split.
  - intros Hu Hk.
    destruct (String.eqb_spec url ""); [done|].
    by destruct (String.eqb_spec apiKey "").
  - intros Hmissing.
    destruct (String.eqb_spec url "") as [->|Hu];
      destruct (String.eqb_spec apiKey "") as [->|Hk]; cbn.
    + done.
    + by rewrite (decide_False (P := apiKey = "")).
    + by rewrite (decide_False (P := url = "")).
    + by destruct Hmissing.
Qed.

(** A block with only the key, the URL coming from the environment. *)
Lemma Configure_client_iff_both_values_witness :
  (Configure (mkEnviron "http://localhost:8080/" "")
             (SabnzbdProviderModel.mk tfNull (tfKnown "k3y"))).(ResourceData)
  = Some (Client.mk "http://localhost:8080" "k3y").
Proof.
  destruct (Configure_client_iff_both_values
              (mkEnviron "http://localhost:8080/" "")
              (SabnzbdProviderModel.mk tfNull (tfKnown "k3y"))) as [Hclient _].
  rewrite Hclient; [reflexivity | discriminate | discriminate].
Defined.

(** X9.  A value given in the provider block is not replaced by the
    environment's when it is empty or unknown: with [url = ""] in the block
    [Configure] hands out no client and reports the missing URL, whatever
    [SABNZBD_URL] holds; the same for [api_key] and [SABNZBD_API_KEY]. *)
Theorem Configure_empty_value_not_defaulted
    (env : Environ) (data : SabnzbdProviderModel.t) :
  (data.(SabnzbdProviderModel.URL) ≠ tfNull →
   ValueString data.(SabnzbdProviderModel.URL) = "" →
   (Configure env data).(ResourceData) = None
   ∧ (Configure env data).(DataSourceData) = None
   ∧ In "url" (map diagnosticAttribute (Configure env data).(ConfigureDiagnostics)))
  ∧ (data.(SabnzbdProviderModel.APIKey) ≠ tfNull →
     ValueString data.(SabnzbdProviderModel.APIKey) = "" →
     (Configure env data).(ResourceData) = None
     ∧ (Configure env data).(DataSourceData) = None
     ∧ In "api_key"
          (map diagnosticAttribute (Configure env data).(ConfigureDiagnostics))).
Proof.
  unfold Configure. split.
  - intros Hnull Hempty.
    assert (Hurl :
      (if negb (IsNull data.(SabnzbdProviderModel.URL))
       then ValueString data.(SabnzbdProviderModel.URL)
       else env.(SABNZBD_URL)) = "").
    { by destruct data.(SabnzbdProviderModel.URL). }
    rewrite Hurl. cbn [String.eqb app].
    destruct (String.eqb _ ""); cbn; repeat split; by left.
  - intros Hnull Hempty.
    assert (Hkey :
      (if negb (IsNull data.(SabnzbdProviderModel.APIKey))
       then ValueString data.(SabnzbdProviderModel.APIKey)
       else env.(SABNZBD_API_KEY)) = "").
    { by destruct data.(SabnzbdProviderModel.APIKey). }
    rewrite Hkey. cbn [String.eqb].
    destruct (String.eqb _ ""); cbn; repeat split; auto.
Qed.

(** The block says [url = ""] while [SABNZBD_URL] is set. *)
Lemma Configure_empty_value_not_defaulted_witness :
  (Configure (mkEnviron "http://localhost:8080" "k3y")
             (SabnzbdProviderModel.mk (tfKnown "") tfNull)).(ResourceData)
  = None.
Proof.
  destruct (Configure_empty_value_not_defaulted
              (mkEnviron "http://localhost:8080" "k3y")
              (SabnzbdProviderModel.mk (tfKnown "") tfNull)) as [Hurl _].
  destruct Hurl as [Hclient _]; [discriminate | reflexivity | exact Hclient].
Defined.

(** ** The data source *)

Lemma GetVersion_oneRequest `{Float64} c :
  oneRequest (GetVersion c) (requestOf c (Values_Set "mode" "version" ∅)).
Proof. unfold GetVersion. one_request. Qed.

Lemma GetCategories_oneRequest `{Float64} c :
  oneRequest (GetCategories c) (requestOf c (Values_Set "mode" "get_cats" ∅)).
Proof. unfold GetCategories. one_request. Qed.

Lemma GetScripts_oneRequest `{Float64} c :
  oneRequest (GetScripts c) (requestOf c (Values_Set "mode" "get_scripts" ∅)).
Proof. unfold GetScripts. one_request. Qed.

Lemma tl_drop {A} n (l : list A) : tl (drop n l) = drop (S n) l.
Proof.
  revert l. induction n as [|n IH]; intros [|x l]; simpl; auto.
Qed.

Lemma afterRequests_S d n mode (w : Replay) :
  dataSourceModes !! n = Some mode →
  mkReplay (tl (afterRequests d n w).(pending))
           ((afterRequests d n w).(received)
            ++ [requestOf d (Values_Set "mode" mode ∅)])
  = afterRequests d (S n) w.
Proof.
  intros Hmode. unfold afterRequests. cbn [pending received]. f_equal.
  - apply tl_drop.
  - rewrite <- app_assoc. f_equal.
    by rewrite (take_S_r _ _ _ Hmode), map_app.
Qed.

Lemma afterRequests_0 d (w : Replay) : afterRequests d 0 w = w.
Proof.
  destruct w as [answers log]. unfold afterRequests. cbn.
  by rewrite drop_0, app_nil_r.
Qed.

(** X10.  [ConfigDataSource.Read] asks for the version, then the category
    names, then the script names, each with its own request, and stops at the
    first of the three that fails.  When [GetVersion] fails, that one request
    is all it makes and the one diagnostic carries its error; when
    [GetVersion] succeeds and [GetCategories] fails, two requests; when
    [GetScripts] fails, three; no state is set then, and the answers of the
    script past the failing request are not taken.  When the three succeed it
    has made the three requests and sets a state without a diagnostic.  It
    never asks for the whole configuration. *)
Theorem ConfigDataSource_Read_stops_at_first_failure `{Float64}
    (d : Client.t) (data : ConfigDataSourceModel.t) (w : Replay) :
  (∀ err,
     fst (GetVersion d w) = Err err →
     ConfigDataSource_Read d data w
     = (mkResponse
          [AddError "Client Error" "Unable to read version, got error: %s" err]
          None,
        afterRequests d 1 w))
  ∧ (∀ version err,
       fst (GetVersion d w) = Ok version →
       fst (GetCategories d (afterRequests d 1 w)) = Err err →
       ConfigDataSource_Read d data w
       = (mkResponse
            [AddError "Client Error" "Unable to read categories, got error: %s" err]
            None,
          afterRequests d 2 w))
  ∧ (∀ version categories err,
       fst (GetVersion d w) = Ok version →
       fst (GetCategories d (afterRequests d 1 w)) = Ok categories →
       fst (GetScripts d (afterRequests d 2 w)) = Err err →
       ConfigDataSource_Read d data w
       = (mkResponse
            [AddError "Client Error" "Unable to read scripts, got error: %s" err]
            None,
          afterRequests d 3 w))
  ∧ (∀ version categories scripts,
       fst (GetVersion d w) = Ok version →
       fst (GetCategories d (afterRequests d 1 w)) = Ok categories →
       fst (GetScripts d (afterRequests d 2 w)) = Ok scripts →
       ∃ new,
         ConfigDataSource_Read d data w
         = (mkResponse [] (Some new), afterRequests d 3 w))
  ∧ modes (afterRequests d 3 w).(received) = modes w.(received) ++ dataSourceModes.
Proof.
  assert (H1 : snd (GetVersion d w) = afterRequests d 1 w).
  { rewrite (GetVersion_oneRequest d w).
    rewrite <- (afterRequests_S d 0 "version" w) by done.
    by rewrite afterRequests_0. }
  assert (H2 : snd (GetCategories d (afterRequests d 1 w)) = afterRequests d 2 w).
  { rewrite (GetCategories_oneRequest d (afterRequests d 1 w)).
    by apply afterRequests_S. }
  assert (H3 : snd (GetScripts d (afterRequests d 2 w)) = afterRequests d 3 w).
  { rewrite (GetScripts_oneRequest d (afterRequests d 2 w)).
    by apply afterRequests_S. }
  assert (Hmodes : modes (afterRequests d 3 w).(received)
                   = modes w.(received) ++ dataSourceModes).
  { unfold afterRequests, modes. cbn [received]. rewrite map_app. by f_equal. }
  unfold ConfigDataSource_Read, bind, ret.
  destruct (GetVersion d w) as [[version|err1] w1];
    cbn [fst snd] in *; subst w1; cbv beta iota.
  - destruct (GetCategories d (afterRequests d 1 w)) as [[categories|err2] w2];
      cbn [fst snd] in *; subst w2; cbv beta iota.
    + destruct (GetScripts d (afterRequests d 2 w)) as [[scripts|err3] w3];
        cbn [fst snd] in *; subst w3; cbv beta iota.
      * split; [by intros ? [=]|]. split; [by intros ? ? _ [=]|].
        split; [by intros ? ? ? _ _ [=]|]. split; [|done].
        intros ? ? ? _ _ _. by eexists.
      * split; [by intros ? [=]|]. split; [by intros ? ? _ [=]|].
        split; [by intros ? ? ? _ _ [= ->]|].
        split; [by intros ? ? ? _ _ [=] | done].
    + split; [by intros ? [=]|]. split; [by intros ? ? _ [= ->]|].
      split; [by intros ? ? ? _ [=]|]. split; [by intros ? ? ? _ [=] | done].
  - split; [by intros ? [= ->]|]. split; [by intros ? ? [=]|].
    split; [by intros ? ? ? [=]|]. split; [by intros ? ? ? [=] | done].
Qed.

(** The version is answered, the request for the categories fails: two
    requests are made and the third answer of the script is not taken. *)
Lemma ConfigDataSource_Read_stops_at_first_failure_witness :
  ConfigDataSource_Read exampleClient
    (ConfigDataSourceModel.mk tfNull tfNull tfNull tfNull)
    (mkReplay [ResponseBody (Some infoBody); DoFailed (transportError "reset");
               ResponseBody (Some infoBody)] [])
  = (mkResponse
       [AddError "Client Error" "Unable to read categories, got error: %s"
          (Errorf "getting categories: %w" []
             (Some (Errorf "executing request: %w" []
                      (Some (transportError "reset")))))]
       None,
     mkReplay [ResponseBody (Some infoBody)]
       [ requestOf exampleClient (Values_Set "mode" "version" ∅)
       ; requestOf exampleClient (Values_Set "mode" "get_cats" ∅) ]).
Proof.
  destruct (ConfigDataSource_Read_stops_at_first_failure exampleClient
              (ConfigDataSourceModel.mk tfNull tfNull tfNull tfNull)
              (mkReplay [ResponseBody (Some infoBody);
                         DoFailed (transportError "reset");
                         ResponseBody (Some infoBody)] []))
    as (_ & Hcategories & _).
  rewrite (Hcategories "4.3.2"
             (Errorf "getting categories: %w" []
                (Some (Errorf "executing request: %w" []
                         (Some (transportError "reset"))))));
    reflexivity.
Defined.

(** X11.  The state [ConfigDataSource.Read] sets does not depend on the
    configuration it was given: the id is ["sabnzbd-config"], the version is
    the one [GetVersion] returned, and the categories and scripts are the
    known lists of the names [GetCategories] and [GetScripts] returned, in
    their order. *)
Theorem ConfigDataSource_Read_state `{Float64} {W} `{Transport W}
    (d : Client.t) (data new : ConfigDataSourceModel.t) (w : W) :
  (fst (ConfigDataSource_Read d data w)).(State) = Some new →
  ∃ version categories scripts w1 w2 w3,
    GetVersion d w = (Ok version, w1)
    ∧ GetCategories d w1 = (Ok categories, w2)
    ∧ GetScripts d w2 = (Ok scripts, w3)
    ∧ snd (ConfigDataSource_Read d data w) = w3
    ∧ new = ConfigDataSourceModel.mk
              (tfKnown "sabnzbd-config") (tfKnown version)
              (tfKnown (map tfKnown categories)) (tfKnown (map tfKnown scripts)).
Proof.
  unfold ConfigDataSource_Read, bind, ret.
  destruct (GetVersion d w) as [[version|err] w1] eqn:Hversion; [|intros [=]].
  destruct (GetCategories d w1) as [[cats|err] w2] eqn:Hcats; [|intros [=]].
  destruct (GetScripts d w2) as [[scripts|err] w3] eqn:Hscripts; [|intros [=]].
  intros [= <-]. by exists version, cats, scripts, w1, w2, w3.
Qed.

(** The data source on a remote that answers each request with [infoBody]. *)
Lemma ConfigDataSource_Read_state_witness :
  fst (GetVersion exampleClient (mkScripted (ResponseBody (Some infoBody)) []))
  = Ok "4.3.2".
Proof.
  assert (Hstate :
    (fst (ConfigDataSource_Read exampleClient
            (ConfigDataSourceModel.mk tfNull tfNull tfNull tfNull)
            (mkScripted (ResponseBody (Some infoBody)) []))).(State)
    = Some (ConfigDataSourceModel.mk
              (tfKnown "sabnzbd-config") (tfKnown "4.3.2")
              (tfKnown [tfKnown "*"; tfKnown "tv"]) (tfKnown [tfKnown "None"])))
    by reflexivity.
  destruct (ConfigDataSource_Read_state exampleClient _ _ _ Hstate)
    as (version & categories & scripts & w1 & w2 & w3 & Hget & _ & _ & _ & Hnew).
  injection Hnew as <- _ _. by rewrite Hget.
Defined.

(** ** The lifecycle methods *)

(** X12.  When [Create] of a server succeeds and the state it sets is then
    read with success, the state read has the password and the name of the
    plan, whatever the remote returned; the state [Create] sets is the plan
    itself. *)
Theorem ServerResource_Create_then_Read `{Float64} {W} `{Transport W}
    (r : Client.t) (plan created read : ServerResourceModel.t) (w : W) :
  (fst (ServerResource_Create r plan w)).(State) = Some created →
  (fst (ServerResource_Read r created (snd (ServerResource_Create r plan w)))).(State)
    = Some read →
  created = plan
  ∧ read.(ServerResourceModel.Password) = plan.(ServerResourceModel.Password)
  ∧ read.(ServerResourceModel.Name) = plan.(ServerResourceModel.Name).
Proof.
  unfold ServerResource_Create, bind, ret.
  destruct (SetServer r _ w) as [[err|] w1]; cbn [fst snd State]; [intros [=]|].
  intros [= <-]. unfold ServerResource_Read, bind, ret.
  destruct (GetServer r _ w1) as [[server|err] w2]; cbn [fst State]; [|intros [=]].
  by intros [= <-].
Qed.

(** [news1] created with a password and read back from the snapshot. *)
Lemma ServerResource_Create_then_Read_witness :
  (fst (ServerResource_Read exampleClient news1State
          (snd (ServerResource_Create exampleClient news1State snapshotWorld)))).(State)
  = Some (ServerResourceModel.mk
            (tfKnown "news1") (tfKnown "n.example.com") (tfKnown 563) (tfKnown "")
            (tfKnown "s3cret") (tfKnown 0) (tfKnown true) (tfKnown 0) (tfKnown "")
            (tfKnown false) (tfKnown false) (tfKnown 0) (tfKnown 0) (tfKnown 0)
            (tfKnown false) (tfKnown ""))
  ∧ tfKnown "s3cret" = news1State.(ServerResourceModel.Password).
Proof.
  assert (Hcreate :
    (fst (ServerResource_Create exampleClient news1State snapshotWorld)).(State)
    = Some news1State) by reflexivity.
  assert (Hread :
    (fst (ServerResource_Read exampleClient news1State
            (snd (ServerResource_Create exampleClient news1State snapshotWorld)))).(State)
    = Some (ServerResourceModel.mk
              (tfKnown "news1") (tfKnown "n.example.com") (tfKnown 563) (tfKnown "")
              (tfKnown "s3cret") (tfKnown 0) (tfKnown true) (tfKnown 0) (tfKnown "")
              (tfKnown false) (tfKnown false) (tfKnown 0) (tfKnown 0) (tfKnown 0)
              (tfKnown false) (tfKnown ""))) by reflexivity.
  split; [exact Hread|].
  destruct (ServerResource_Create_then_Read exampleClient news1State news1State
              _ snapshotWorld Hcreate Hread) as (_ & Hpassword & _).
  exact Hpassword.
Defined.

(** X13.  What the prior state can change in a [Read] that succeeds.  The
    folders [Read] sets the same state whatever the prior state; the category
    [Read] uses the prior state for the name only; the server [Read] for the
    name and the password only. *)
Theorem Read_use_of_prior_state `{Float64} {W} `{Transport W}
    (r : Client.t) (w : W) :
  (∀ data data' : FoldersResourceModel.t,
     FoldersResource_Read r data w = FoldersResource_Read r data' w)
  ∧ (∀ data data' : CategoryResourceModel.t,
       data.(CategoryResourceModel.Name) = data'.(CategoryResourceModel.Name) →
       CategoryResource_Read r data w = CategoryResource_Read r data' w)
  ∧ (∀ data data' : ServerResourceModel.t,
       data.(ServerResourceModel.Name) = data'.(ServerResourceModel.Name) →
       data.(ServerResourceModel.Password) = data'.(ServerResourceModel.Password) →
       ServerResource_Read r data w = ServerResource_Read r data' w).
Proof.
  split; [|split].
  - intros data data'. unfold FoldersResource_Read, bind, ret.
    by destruct (GetFolders r w) as [[folders|err] w1].
  - intros [n ? ? ? ? ?] [n' ? ? ? ? ?]. cbn. intros <-.
    unfold CategoryResource_Read, bind, ret. cbn.
    by destruct (GetCategory r _ w) as [[cat|err] w1].
  - intros [n ? ? ? p ? ? ? ? ? ? ? ? ? ? ?] [n' ? ? ? p' ? ? ? ? ? ? ? ? ? ? ?].
    cbn. intros <- <-.
    unfold ServerResource_Read, bind, ret. cbn.
    by destruct (GetServer r _ w) as [[server|err] w1].
Qed.

(** Two prior states of [news1] that differ in the host only. *)
Lemma Read_use_of_prior_state_witness :
  ServerResource_Read exampleClient news1State snapshotWorld
  = ServerResource_Read exampleClient
      (ServerResourceModel.set_Host tfNull news1State) snapshotWorld.
Proof.
  destruct (Read_use_of_prior_state exampleClient snapshotWorld) as (_ & _ & Hserver).
  apply Hserver; reflexivity.
Defined.

(** X14.  [Create] and [Update] of a server or a category make the one
    request of the write and read nothing back: when the write succeeds the
    state set is the plan as it was given, and when it fails no state is set
    and one diagnostic carries the error of the write. *)
Theorem writes_store_the_plan `{Float64} {W} `{Transport W}
    (r : Client.t) (w : W) :
  (∀ op data,
     In op [ServerResource_Create; ServerResource_Update] →
     op r data w
     = match SetServer r (ServerInput_of data) w with
       | (None, w') => (mkResponse [] (Some data), w')
       | (Some err, w') =>
           (mkResponse (fst (op r data w)).(Diagnostics) None, w')
       end
     ∧ (∀ err, fst (SetServer r (ServerInput_of data) w) = Some err →
        ∃ format, (fst (op r data w)).(Diagnostics)
                  = [AddError "Client Error" format err]))
  ∧ (∀ op data,
       In op [CategoryResource_Create; CategoryResource_Update] →
       op r data w
       = match SetCategory r (CategoryInput_of data) w with
         | (None, w') => (mkResponse [] (Some data), w')
         | (Some err, w') =>
             (mkResponse (fst (op r data w)).(Diagnostics) None, w')
         end
       ∧ (∀ err, fst (SetCategory r (CategoryInput_of data) w) = Some err →
          ∃ format, (fst (op r data w)).(Diagnostics)
                    = [AddError "Client Error" format err])).
Proof.
  split.
  - intros op data [<-|[<-|[]]].
    + unfold ServerResource_Create, bind, ret.
      destruct (SetServer r _ w) as [[err|] w1]; cbn; (split; [done|]);
        intros ? [=]; subst; by eexists.
    + unfold ServerResource_Update, bind, ret.
      destruct (SetServer r _ w) as [[err|] w1]; cbn; (split; [done|]);
        intros ? [=]; subst; by eexists.
  - intros op data [<-|[<-|[]]].
    + unfold CategoryResource_Create, bind, ret.
      destruct (SetCategory r _ w) as [[err|] w1]; cbn; (split; [done|]);
        intros ? [=]; subst; by eexists.
    + unfold CategoryResource_Update, bind, ret.
      destruct (SetCategory r _ w) as [[err|] w1]; cbn; (split; [done|]);
        intros ? [=]; subst; by eexists.
Qed.

(** A server written to a remote that answers [ok]. *)
Lemma writes_store_the_plan_witness :
  (fst (ServerResource_Update exampleClient news1State okWorld)).(State)
  = Some news1State.
Proof.
  destruct (writes_store_the_plan exampleClient okWorld) as [Hserver _].
  destruct (Hserver ServerResource_Update news1State) as [Hrun _].
  - right. left. reflexivity.
  - rewrite Hrun. reflexivity.
Defined.

(** X15.  Deleting sets no state.  [Delete] of a server or a category makes
    the one [del_config] request, keyed by the name of the prior state, and
    fails with one diagnostic exactly when that request fails; [Delete] of the
    folders makes no request and adds no diagnostic, whatever the state of the
    network. *)
Theorem Delete_methods `{Float64} {W} `{Transport W} (r : Client.t) :
  (∀ (data : FoldersResourceModel.t) (w : W),
     FoldersResource_Delete r data w = (mkResponse [] None, w))
  ∧ (∀ (data : ServerResourceModel.t) (w : W),
       (fst (ServerResource_Delete r data w)).(State) = None
       ∧ snd (ServerResource_Delete r data w)
         = snd (DeleteServer r (ValueString data.(ServerResourceModel.Name)) w)
       ∧ ((fst (ServerResource_Delete r data w)).(Diagnostics) = []
          ↔ fst (DeleteServer r (ValueString data.(ServerResourceModel.Name)) w)
            = None))
  ∧ (∀ (data : CategoryResourceModel.t) (w : W),
       (fst (CategoryResource_Delete r data w)).(State) = None
       ∧ snd (CategoryResource_Delete r data w)
         = snd (DeleteCategory r (ValueString data.(CategoryResourceModel.Name)) w)
       ∧ ((fst (CategoryResource_Delete r data w)).(Diagnostics) = []
          ↔ fst (DeleteCategory r (ValueString data.(CategoryResourceModel.Name)) w)
            = None)).
Proof.
  split; [done|]. split.
  - intros data w. unfold ServerResource_Delete, bind, ret.
    destruct (DeleteServer r _ w) as [[err|] w1]; cbn; repeat split; done.
  - intros data w. unfold CategoryResource_Delete, bind, ret.
    destruct (DeleteCategory r _ w) as [[err|] w1]; cbn; repeat split; done.
Qed.

(** ** The category resource against a remote that stores what it is sent *)

Lemma DeleteCategory_Remote `{Float64} c name st :
  DeleteCategory c name st
  = (None,
     mkRemote (List.filter (λ e, negb (String.eqb e.(Stored.name) name))
                           st.(categories))).
Proof.
  unfold DeleteCategory, doRequest, bind, ret, httpGet, Remote_Transport.
  values_lookup. reflexivity.
Qed.

Lemma upsert_upsert entry l : upsert entry (upsert entry l) = upsert entry l.
Proof.
  induction l as [|e l IH]; simpl.
  - by rewrite String.eqb_refl.
  - destruct (String.eqb e.(Stored.name) entry.(Stored.name)) eqn:Heq; simpl.
    + by rewrite String.eqb_refl.
    + by rewrite Heq, IH.
Qed.

Lemma find_upsert_ne entry name l :
  entry.(Stored.name) ≠ name →
  find (λ cat, String.eqb cat.(Category.Name) name)
       (map categoryOf (upsert entry l))
  = find (λ cat, String.eqb cat.(Category.Name) name) (map categoryOf l).
Proof.
  intros Hne. induction l as [|e l IH]; simpl.
  - by destruct (String.eqb_spec entry.(Stored.name) name).
  - destruct (String.eqb_spec e.(Stored.name) entry.(Stored.name)) as [Heq|Hne']; simpl.
    + destruct (String.eqb_spec entry.(Stored.name) name); [done|].
      by destruct (String.eqb_spec e.(Stored.name) name); [congruence|].
    + by rewrite IH.
Qed.

Lemma find_filter_name name l :
  find (λ cat, String.eqb cat.(Category.Name) name)
       (map categoryOf
          (List.filter (λ e, negb (String.eqb e.(Stored.name) name)) l))
  = None.
Proof.
  induction l as [|e l IH]; simpl; [done|].
  destruct (String.eqb e.(Stored.name) name) eqn:Heq; simpl; [done|].
  by rewrite Heq.
Qed.

(** X16.  Against the remote that stores what it is sent, a category plan
    whose attributes are all known is created with the plan as state, a
    [Read] of that state then sets the very same state (no drift), and an
    [Update] with the same plan leaves the remote as it is. *)
Theorem CategoryResource_no_drift `{Float64}
    (r : Client.t) (plan : CategoryResourceModel.t) (st : Remote) :
  knownCategoryPlan plan →
  Forall storedOK st.(categories) →
  ∃ st1,
    CategoryResource_Create r plan st = (mkResponse [] (Some plan), st1)
    ∧ CategoryResource_Read r plan st1 = (mkResponse [] (Some plan), st1)
    ∧ CategoryResource_Update r plan st1 = (mkResponse [] (Some plan), st1).
Proof.
  intros (name & dir & script & priority & pp & order & -> & Hp & Ho) Hst.
  set (plan := CategoryResourceModel.mk _ _ _ _ _ _).
  exists (mkRemote (upsert (storedOf (CategoryInput_of plan)) st.(categories))).
  split; [|split].
  - unfold CategoryResource_Create, bind, ret. by rewrite SetCategory_Remote.
  - unfold CategoryResource_Read, GetCategory, bind, ret.
    rewrite GetConfig_Remote
      by (apply upsert_storedOK; [by apply storedOK_storedOf | done]).
    cbn [Config.Categories categories].
    change (ValueString plan.(CategoryResourceModel.Name))
      with (storedOf (CategoryInput_of plan)).(Stored.name).
    rewrite find_upsert, categoryOf_storedOf by done. reflexivity.
  - unfold CategoryResource_Update, bind, ret. rewrite SetCategory_Remote.
    cbn [categories]. by rewrite upsert_upsert.
Qed.

(** The plan [tv] on a remote that holds another [tv]. *)
Lemma CategoryResource_no_drift_witness :
  ∃ st1,
    CategoryResource_Create exampleClient tvPlan (mkRemote [tvStored])
    = (mkResponse [] (Some tvPlan), st1)
    ∧ CategoryResource_Read exampleClient tvPlan st1
      = (mkResponse [] (Some tvPlan), st1)
    ∧ CategoryResource_Update exampleClient tvPlan st1
      = (mkResponse [] (Some tvPlan), st1).
Proof.
  apply (CategoryResource_no_drift exampleClient tvPlan (mkRemote [tvStored])).
  - exists "tv", "TV Shows", "None", 1, "3", 0.
    split; [reflexivity|]. unfold int_range. lia.
  - constructor; [|constructor]. split; vm_compute; eauto.
Defined.

(** X17.  Against the same remote, [Delete] succeeds and sets no state, and a
    [Read] of the deleted name then fails with the one diagnostic of the
    category that is not found, whatever the remote held. *)
Theorem CategoryResource_Delete_then_Read `{Float64}
    (r : Client.t) (data : CategoryResourceModel.t) (st : Remote) :
  Forall storedOK st.(categories) →
  ∃ st1,
    CategoryResource_Delete r data st = (mkResponse [] None, st1)
    ∧ CategoryResource_Read r data st1
      = (mkResponse
           [AddError "Client Error" "Unable to read category, got error: %s"
              (Errorf "category %q not found"
                      [ValueString data.(CategoryResourceModel.Name)] None)]
           None, st1).
Proof.
  intros Hst. eexists. split.
  - unfold CategoryResource_Delete, bind, ret. by rewrite DeleteCategory_Remote.
  - unfold CategoryResource_Read, GetCategory, bind, ret.
    rewrite GetConfig_Remote by (by apply Forall_List_filter).
    cbn [Config.Categories categories]. by rewrite find_filter_name.
Qed.

(** The category [tv] deleted from a remote that holds it. *)
Lemma CategoryResource_Delete_then_Read_witness :
  ∃ st1,
    CategoryResource_Delete exampleClient tvPlan (mkRemote [tvStored])
    = (mkResponse [] None, st1)
    ∧ CategoryResource_Read exampleClient tvPlan st1
      = (mkResponse
           [AddError "Client Error" "Unable to read category, got error: %s"
              (Errorf "category %q not found" ["tv"] None)]
           None, st1).
Proof.
  apply (CategoryResource_Delete_then_Read exampleClient tvPlan (mkRemote [tvStored])).
  constructor; [|constructor]. split; vm_compute; eauto.
Defined.

(** X18.  Writing or deleting a category does not change what [GetCategory]
    returns for any other name. *)
Theorem category_writes_frame `{Float64}
    (c : Client.t) (input : CategoryInput.t) (name : string) (st : Remote) :
  Forall storedOK st.(categories) →
  int_range input.(CategoryInput.Priority) →
  int_range input.(CategoryInput.Order) →
  input.(CategoryInput.Name) ≠ name →
  fst (GetCategory c name (snd (SetCategory c input st)))
  = fst (GetCategory c name st)
  ∧ fst (GetCategory c name (snd (DeleteCategory c input.(CategoryInput.Name) st)))
    = fst (GetCategory c name st).
Proof.
  intros Hst Hp Ho Hne. split.
  - rewrite SetCategory_Remote. cbn [snd].
    unfold GetCategory, bind, ret.
    rewrite (GetConfig_Remote c st) by done.
    rewrite GetConfig_Remote
      by (apply upsert_storedOK; [by apply storedOK_storedOf | done]).
    cbn [Config.Categories categories fst].
    by rewrite find_upsert_ne.
  - rewrite DeleteCategory_Remote. cbn [snd].
    unfold GetCategory, bind, ret.
    rewrite (GetConfig_Remote c st) by done.
    rewrite GetConfig_Remote by (by apply Forall_List_filter).
    cbn [Config.Categories categories fst].
    f_equal. clear Hst. induction st.(categories) as [|e l IH]; simpl; [done|].
    destruct (String.eqb_spec e.(Stored.name) input.(CategoryInput.Name)) as [Heq|Hne'];
      simpl.
    + destruct (String.eqb_spec e.(Stored.name) name); [congruence | done].
    + destruct (String.eqb e.(Stored.name) name); [done | apply IH].
Qed.

(** Writing [movies] on a remote that holds [tv], and reading [tv]. *)
Lemma category_writes_frame_witness :
  fst (GetCategory exampleClient "tv"
         (snd (SetCategory exampleClient moviesInput (mkRemote [tvStored]))))
  = fst (GetCategory exampleClient "tv" (mkRemote [tvStored])).
Proof.
  destruct (category_writes_frame exampleClient moviesInput "tv"
              (mkRemote [tvStored])) as [Hset _].
  - constructor; [|constructor]. split; vm_compute; eauto.
  - unfold int_range. simpl. lia.
  - unfold int_range. simpl. lia.
  - discriminate.
  - exact Hset.
Defined.

(** ** The query of a request *)

Lemma upperhex_unreserved i : shouldEscape (upperhex i) = false.
Proof.
  unfold upperhex. generalize (N.to_nat i). intros n.
  do 17 (destruct n as [|n]; [reflexivity|]). reflexivity.
Qed.

Lemma QueryEscape_querySafe s :
  Forall querySafe (list_ascii_of_string (url_QueryEscape s)).
Proof.
  induction s as [|c s IH]; simpl; [constructor|].
  destruct (Ascii.eqb c " ").
  - simpl. constructor; [right; by left | done].
  - destruct (shouldEscape c) eqn:Hescape; simpl.
    + constructor; [right; by right|].
      constructor; [left; apply upperhex_unreserved|].
      constructor; [left; apply upperhex_unreserved | done].
    + constructor; [by left | done].
Qed.

Lemma querySafe_not_separator ch :
  querySafe ch → ¬ In ch ["&"; "="; " "; "#"; "?"; "/"]%char.
Proof.
  intros Hsafe Hin. simpl in Hin.
  destruct Hin as [<-|[<-|[<-|[<-|[<-|[<-|[]]]]]]];
    destruct Hsafe as [Hsafe|[Hsafe|Hsafe]]; discriminate.
Qed.

(** X19.  The URL of the request [doRequest] makes is the base URL, [/api?]
    and the segments of the query joined by [&]; every segment is
    [key=value] for a value that the query holds under the key, both sides
    escaped, and the escaped sides hold none of [& = # ? /] nor a space: no
    parameter value, the API key included, adds a segment or ends the
    query. *)
Theorem doRequest_query_segments {R} `{Unmarshal R}
    (c : Client.t) (params : Values) (result : option R) (w : Replay) :
  ∃ url query,
    (snd (doRequest c params result w)).(received) = w.(received) ++ [(url, query)]
    ∧ query = Values_Set "output" "json" (Values_Set "apikey" c.(Client.apiKey) params)
    ∧ url = c.(Client.baseURL) +:+ "/api?" +:+ String.concat "&" (encodedPairs query)
    ∧ ∀ segment, In segment (encodedPairs query) →
        ∃ key values value,
          query !! key = Some values
          ∧ In value values
          ∧ segment = url_QueryEscape key +:+ "=" +:+ url_QueryEscape value
          ∧ ∀ ch, In ch (list_ascii_of_string (url_QueryEscape key)
                         ++ list_ascii_of_string (url_QueryEscape value)) →
                  ¬ In ch ["&"; "="; " "; "#"; "?"; "/"]%char.
Proof.
  eexists _, _. split; [|split; [reflexivity|split; [reflexivity|]]].
  - by rewrite (doRequest_Replay c params result w).
  - intros segment Hin. unfold encodedPairs in Hin.
    apply in_flat_map in Hin as (key & _ & Hin).
    destruct (_ !! key) as [values|] eqn:Hkey; simpl in Hin; [|done].
    apply in_map_iff in Hin as (value & <- & Hvalue).
    exists key, values, value. repeat split; try done.
    intros ch Hch. apply querySafe_not_separator.
    apply in_app_or in Hch as [Hch|Hch];
      eapply List.Forall_forall in Hch; try exact Hch; apply QueryEscape_querySafe.
Qed.

(** The segments of a [version] request whose API key holds [&] and [=]. *)
Lemma doRequest_query_segments_witness :
  fst (requestOf (NewClient "http://localhost:8080" "k&y=1")
         (Values_Set "mode" "version" ∅))
  = "http://localhost:8080/api?apikey=k%26y%3D1&mode=version&output=json".
Proof.
  destruct (doRequest_query_segments
              (NewClient "http://localhost:8080" "k&y=1")
              (Values_Set "mode" "version" ∅) (@None ErrorResp.t) (mkReplay [] []))
    as (url & query & Hsent & -> & -> & _).
  reflexivity.
Defined.

(** ** Replies that lack the member a read looks for *)

Lemma findField_None {S} (fields : list (field S)) key :
  (∀ f, In f fields → ¬ equalFold (fst f) key) → findField fields key = None.
Proof.
  intros Hnone. unfold findField.
  rewrite !find_absent; [done| |].
  - intros f Hin. apply String.eqb_neq. by apply Hnone.
  - intros f Hin. apply String.eqb_neq. intros <-. by apply (Hnone f).
Qed.

Lemma decodeMembers_unrelated {S} (fields : list (field S)) members cur :
  unrelated (map fst fields) members →
  decodeMembers fields members cur = (cur, None).
Proof.
  induction members as [|[key j] members IH]; intros Hun; simpl; [done|].
  rewrite findField_None.
  - rewrite IH; [done|]. intros key' j' name Hin. apply (Hun key' j' name). by right.
  - intros f Hin. apply (Hun key j (fst f)); [by left | by apply in_map].
Qed.

Lemma unrelated_weaken names names' members :
  (∀ name, In name names' → In name names) →
  unrelated names members → unrelated names' members.
Proof. intros Hsub Hun key j name Hin Hname. apply (Hun key j name); auto. Qed.

(** The answer of [doRequest] on an object that names neither [error] nor a
    field of the result: no error, and the result as it was. *)
Lemma doRequest_unrelated {W} `{Transport W} {S}
    (fields : list (field S)) (c : Client.t) (params : Values) (cur : S)
    (members : list (string * json)) (w : W) :
  (∀ reqURL query, fst (httpGet reqURL query w) = ResponseBody (Some (JObject members))) →
  unrelated ("error" :: map fst fields) members →
  fst (doRequest (H1 := decodeStruct fields) c params (Some cur) w) = (None, Some cur).
Proof.
  intros Hanswer Hun. unfold doRequest, bind, ret.
  pose proof (Hanswer
    (c.(Client.baseURL) +:+ "/api?" +:+
       Values_Encode (Values_Set "output" "json"
                        (Values_Set "apikey" c.(Client.apiKey) params)))
    (Values_Set "output" "json" (Values_Set "apikey" c.(Client.apiKey) params)))
    as Hget.
  destruct (httpGet _ _ w) as [outcome w1]. cbn [fst] in Hget. subst outcome.
  cbn [fst]. unfold json_Unmarshal.
  change (unmarshal (JObject members) (zero : ErrorResp.t))
    with (decodeMembers ErrorResp.fields members (zero : ErrorResp.t)).
  rewrite decodeMembers_unrelated
    by (eapply unrelated_weaken; [|exact Hun]; simpl; tauto).
  change (nonEmpty (ErrorResp.Error zero)) with false. cbn iota.
  change (unmarshal (JObject members) cur) with (decodeMembers fields members cur).
  by rewrite decodeMembers_unrelated
    by (eapply unrelated_weaken; [|exact Hun]; simpl; tauto).
Qed.

(** X20.  A read succeeds with the zero value when every request is answered
    with a JSON object that has no member [error] and no member of the name
    the read looks for, names taken up to letter case: the version is then
    the empty string, the lists of categories and of scripts are empty, the
    configuration and the status are the zero ones; and the reads by name
    report that the name is not found. *)
Theorem reads_of_a_reply_without_the_member `{Float64} {W} `{Transport W}
    (c : Client.t) (members : list (string * json)) (w : W) :
  (∀ reqURL query,
     fst (httpGet reqURL query w) = ResponseBody (Some (JObject members))) →
  (unrelated ["error"; "version"] members → fst (GetVersion c w) = Ok "")
  ∧ (unrelated ["error"; "categories"] members → fst (GetCategories c w) = Ok [])
  ∧ (unrelated ["error"; "scripts"] members → fst (GetScripts c w) = Ok [])
  ∧ (unrelated ["error"; "status"] members → fst (GetStatus c w) = Ok zero)
  ∧ (unrelated ["error"; "config"] members →
     fst (GetConfig c w) = Ok zero
     ∧ ∀ name,
         fst (GetServer c name w) = Err (Errorf "server %q not found" [name] None)
         ∧ fst (GetCategory c name w)
           = Err (Errorf "category %q not found" [name] None)).
Proof.
  intros Hanswer.
  assert (Hconfig : unrelated ["error"; "config"] members →
                    fst (GetConfig c w) = Ok zero).
  { intros Hun. unfold GetConfig, bind, ret.
    pose proof (doRequest_unrelated GetConfigResponse.fields c
                  (Values_Set "mode" "get_config" ∅) zero members w Hanswer Hun)
      as Hcall.
    destruct (doRequest _ _ _ w) as [[err resp] w1]. cbn [fst] in *.
    by injection Hcall as -> ->. }
  split; [|split; [|split; [|split]]].
  - intros Hun. unfold GetVersion, bind, ret.
    pose proof (doRequest_unrelated VersionResp.fields c
                  (Values_Set "mode" "version" ∅) zero members w Hanswer Hun)
      as Hcall.
    destruct (doRequest _ _ _ w) as [[err resp] w1]. cbn [fst] in *.
    by injection Hcall as -> ->.
  - intros Hun. unfold GetCategories, bind, ret.
    pose proof (doRequest_unrelated CategoriesResp.fields c
                  (Values_Set "mode" "get_cats" ∅) zero members w Hanswer Hun)
      as Hcall.
    destruct (doRequest _ _ _ w) as [[err resp] w1]. cbn [fst] in *.
    by injection Hcall as -> ->.
  - intros Hun. unfold GetScripts, bind, ret.
    pose proof (doRequest_unrelated ScriptsResp.fields c
                  (Values_Set "mode" "get_scripts" ∅) zero members w Hanswer Hun)
      as Hcall.
    destruct (doRequest _ _ _ w) as [[err resp] w1]. cbn [fst] in *.
    by injection Hcall as -> ->.
  - intros Hun. unfold GetStatus, bind, ret.
    pose proof (doRequest_unrelated FullStatus.fields c
                  (Values_Set "mode" "status" ∅) zero members w Hanswer Hun)
      as Hcall.
    destruct (doRequest _ _ _ w) as [[err resp] w1]. cbn [fst] in *.
    by injection Hcall as -> ->.
  - intros Hun. specialize (Hconfig Hun). split; [done|]. intros name. split.
    + unfold GetServer, bind, ret.
      destruct (GetConfig c w) as [r w1]. cbn [fst] in *. by subst r.
    + unfold GetCategory, bind, ret.
      destruct (GetConfig c w) as [r w1]. cbn [fst] in *. by subst r.
Qed.

(** The version read from a remote that answers [ok]. *)
Lemma reads_of_a_reply_without_the_member_witness :
  fst (GetVersion exampleClient okWorld) = Ok "".
Proof.
  destruct (reads_of_a_reply_without_the_member exampleClient
              [ ("status", JBool true) ] okWorld) as (Hversion & _).
  - intros reqURL query. reflexivity.
  - apply Hversion. intros key j name [[= <- <-]|[]] [<-|[<-|[]]]; discriminate.
Defined.

(** ** The server resource against a remote that stores what it is sent *)

Lemma ParseInt_boolToInt b :
  strconv_ParseInt (boolToInt b) = Some (if b then 1 else 0).
Proof. by destruct b. Qed.

Lemma upsertServer_storedOK entry l :
  storedServerOK entry → Forall storedServerOK l →
  Forall storedServerOK (upsertServer entry l).
Proof.
  intros He. induction 1 as [|e l Hok Hl IH]; simpl.
  - constructor; [done | constructor].
  - destruct (String.eqb _ _); by constructor.
Qed.

Lemma find_upsertServer entry l :
  find (λ server, String.eqb server.(Server.Name) entry.(StoredServer.name))
       (map serverOf (upsertServer entry l))
  = Some (serverOf entry).
Proof.
  induction l as [|e l IH]; simpl.
  - by rewrite String.eqb_refl.
  - destruct (String.eqb_spec e.(StoredServer.name) entry.(StoredServer.name))
      as [Heq|Hne]; simpl.
    + by rewrite String.eqb_refl.
    + destruct (String.eqb_spec e.(StoredServer.name) entry.(StoredServer.name));
        [done|].
      apply IH.
Qed.

Lemma upsertServer_upsertServer entry l :
  upsertServer entry (upsertServer entry l) = upsertServer entry l.
Proof.
  induction l as [|e l IH]; simpl.
  - by rewrite String.eqb_refl.
  - destruct (String.eqb e.(StoredServer.name) entry.(StoredServer.name)) eqn:Heq;
      simpl.
    + by rewrite String.eqb_refl.
    + by rewrite Heq, IH.
Qed.

Lemma find_filter_server name l :
  find (λ server, String.eqb server.(Server.Name) name)
       (map serverOf
          (List.filter (λ e, negb (String.eqb e.(StoredServer.name) name)) l))
  = None.
Proof.
  induction l as [|e l IH]; simpl; [done|].
  destruct (String.eqb e.(StoredServer.name) name) eqn:Heq; simpl; [done|].
  by rewrite Heq.
Qed.

(** What the decoder makes of the remote's rendering of a server. *)
Lemma unmarshal_renderServer e cur :
  storedServerOK e → unmarshal (renderServer e) cur = (serverOf e, None).
Proof.
  destruct e as [name host port username password connections ssl ssl_verify ssl_ciphers enable optional retention timeout priority required notes].
  unfold storedServerOK, storedNumbers. cbn [StoredServer.name StoredServer.host StoredServer.port StoredServer.username StoredServer.password StoredServer.connections StoredServer.ssl StoredServer.ssl_verify StoredServer.ssl_ciphers StoredServer.enable StoredServer.optional StoredServer.retention StoredServer.timeout StoredServer.priority StoredServer.required StoredServer.notes].
  intros Hok.
  repeat match goal with
         | Hall : Forall _ (_ :: _) |- _ =>
             apply Forall_cons_1 in Hall as [[? ?] Hall]
         end.
  unfold serverOf, renderServer.
  cbn [StoredServer.name StoredServer.host StoredServer.port StoredServer.username StoredServer.password StoredServer.connections StoredServer.ssl StoredServer.ssl_verify StoredServer.ssl_ciphers StoredServer.enable StoredServer.optional StoredServer.retention StoredServer.timeout StoredServer.priority StoredServer.required StoredServer.notes].
  unfold unmarshal, Server.t_Unmarshal, decodeStruct.
  repeat (cbn -[strconv_ParseInt];
          match goal with
          | Hparse : strconv_ParseInt ?text = Some _
            |- context [strconv_ParseInt ?text] => rewrite Hparse
          end).
  reflexivity.
Qed.

Lemma decodeElems_renderServer l cur :
  Forall storedServerOK l →
  decodeElems (map renderServer l) cur = (map serverOf l, None).
Proof.
  intros Hall. revert cur.
  induction Hall as [|e l He _ IH]; intros cur; simpl; [done|].
  by rewrite unmarshal_renderServer, IH.
Qed.

Lemma GetConfig_ServerRemote `{Float64} c (st : ServerRemote) :
  Forall storedServerOK st.(servers) →
  GetConfig c st
  = (Ok (Config.mk ∅ (map serverOf st.(servers)) [] [] []), st).
Proof.
  intros Hall.
  unfold GetConfig, doRequest, bind, ret, httpGet, ServerRemote_Transport.
  values_lookup. cbn [String.eqb Ascii.eqb Bool.eqb].
  unfold json_Unmarshal at 1.
  change (unmarshal (renderServers st) (zero : ErrorResp.t))
    with (zero : ErrorResp.t, @None error).
  cbn [nonEmpty]. unfold json_Unmarshal, renderServers.
  unfold unmarshal, GetConfigResponse.t_Unmarshal, decodeStruct.
  cbn -[decodeElems]. by rewrite decodeElems_renderServer.
Qed.

Lemma SetServer_ServerRemote `{Float64} c input (st : ServerRemote) :
  SetServer c input st
  = (None, mkServerRemote (upsertServer (storedServerOf input) st.(servers))).
Proof.
  unfold SetServer, SetServer_params, doRequest, bind, ret, httpGet,
    ServerRemote_Transport.
  values_lookup. reflexivity.
Qed.

Lemma DeleteServer_ServerRemote `{Float64} c name (st : ServerRemote) :
  DeleteServer c name st
  = (None,
     mkServerRemote
       (List.filter (λ e, negb (String.eqb e.(StoredServer.name) name))
                    st.(servers))).
Proof.
  unfold DeleteServer, doRequest, bind, ret, httpGet, ServerRemote_Transport.
  values_lookup. reflexivity.
Qed.

Lemma storedServerOK_of_plan `{Float64} (plan : ServerResourceModel.t) :
  knownServerPlan plan → storedServerOK (storedServerOf (ServerInput_of plan)).
Proof.
  intros (name & host & port & username & password & connections & ssl & ssl_verify & ssl_ciphers & enable & optional & retention & timeout & priority & required & notes & -> & Hrange).
  repeat match goal with
         | Hall : Forall _ (_ :: _) |- _ =>
             apply Forall_cons_1 in Hall as [? Hall]
         end.
  unfold storedServerOK, storedNumbers. cbn.
  repeat (constructor; [first [ rewrite ParseInt_Itoa by done; by eexists
                              | rewrite ParseInt_boolToInt; by eexists ]|]).
  constructor.
Qed.

(** X21.  Against the remote that stores what it is sent, a server plan whose
    attributes are all known is created with the plan as state, a [Read] of
    that state then sets the very same state, the four flags and the six
    numbers included, an [Update] with the same plan leaves the remote as it
    is, and after [Delete] a [Read] fails with the one diagnostic of the
    server that is not found. *)
Theorem ServerResource_no_drift `{Float64}
    (r : Client.t) (plan : ServerResourceModel.t) (st : ServerRemote) :
  knownServerPlan plan →
  Forall storedServerOK st.(servers) →
  ∃ st1 st2,
    ServerResource_Create r plan st = (mkResponse [] (Some plan), st1)
    ∧ ServerResource_Read r plan st1 = (mkResponse [] (Some plan), st1)
    ∧ ServerResource_Update r plan st1 = (mkResponse [] (Some plan), st1)
    ∧ ServerResource_Delete r plan st1 = (mkResponse [] None, st2)
    ∧ ServerResource_Read r plan st2
      = (mkResponse
           [AddError "Client Error" "Unable to read server, got error: %s"
              (Errorf "server %q not found"
                      [ValueString plan.(ServerResourceModel.Name)] None)]
           None, st2).
Proof.
  intros Hplan Hst.
  pose proof (storedServerOK_of_plan plan Hplan) as Hentry.
  destruct Hplan as (name & host & port & username & password & connections & ssl & ssl_verify & ssl_ciphers & enable & optional & retention & timeout & priority & required & notes & -> & Hrange).
  repeat match goal with
         | Hall : Forall _ (_ :: _) |- _ =>
             apply Forall_cons_1 in Hall as [? Hall]
         end.
  set (plan := ServerResourceModel.mk _ _ _ _ _ _ _ _ _ _ _ _ _ _ _ _) in *.
  eexists
    (mkServerRemote (upsertServer (storedServerOf (ServerInput_of plan)) st.(servers))),
    _.
  split; [|split; [|split; [|split]]].
  - unfold ServerResource_Create, bind, ret. by rewrite SetServer_ServerRemote.
  - unfold ServerResource_Read, GetServer, bind, ret.
    rewrite GetConfig_ServerRemote by (by apply upsertServer_storedOK).
    cbn [Config.Servers servers].
    change (ValueString plan.(ServerResourceModel.Name))
      with (storedServerOf (ServerInput_of plan)).(StoredServer.name).
    rewrite find_upsertServer. unfold serverOf, storedServerOf, plan.
    cbn -[strconv_Itoa strconv_ParseInt boolToInt].
    rewrite !ParseInt_Itoa by done. rewrite !ParseInt_boolToInt.
    by destruct ssl, enable, optional, required.
  - unfold ServerResource_Update, bind, ret. rewrite SetServer_ServerRemote.
    cbn [servers]. by rewrite upsertServer_upsertServer.
  - unfold ServerResource_Delete, bind, ret. by rewrite DeleteServer_ServerRemote.
  - unfold ServerResource_Read, GetServer, bind, ret.
    rewrite GetConfig_ServerRemote
      by (apply Forall_List_filter; by apply upsertServer_storedOK).
    cbn [Config.Servers servers]. by rewrite find_filter_server.
Qed.

(** The plan [news1] on a remote that holds nothing. *)
Lemma ServerResource_no_drift_witness :
  ∃ st1 st2,
    ServerResource_Create exampleClient news1State (mkServerRemote [])
    = (mkResponse [] (Some news1State), st1)
    ∧ ServerResource_Read exampleClient news1State st1
      = (mkResponse [] (Some news1State), st1)
    ∧ ServerResource_Update exampleClient news1State st1
      = (mkResponse [] (Some news1State), st1)
    ∧ ServerResource_Delete exampleClient news1State st1
      = (mkResponse [] None, st2)
    ∧ ServerResource_Read exampleClient news1State st2
      = (mkResponse
           [AddError "Client Error" "Unable to read server, got error: %s"
              (Errorf "server %q not found" ["news1"] None)]
           None, st2).
Proof.
  apply (ServerResource_no_drift exampleClient news1State (mkServerRemote [])).
  - exists "news1", "old.example.com", 119, "u", "s3cret", 8, false, 2, "",
      true, false, 0, 60, 0, false, "".
    split; [reflexivity|].
    repeat (constructor; [unfold int_range; lia|]). constructor.
  - constructor.
Defined.

(** ** The registered types *)

Lemma append_inj_r (prefix s t : string) : prefix +:+ s = prefix +:+ t → s = t.
Proof. induction prefix as [|c prefix IH]; simpl; [done|]. intros [=]. auto. Qed.

(** X22.  Whatever type name the provider reports, the resources it registers
    have type names that differ from one another, and so have the data
    sources: each is the provider's type name followed by a suffix of its
    own. *)
Theorem registered_type_names_distinct (typeName : string) :
  NoDup (map (λ new, Metadata typeName (new ())) Resources)
  ∧ NoDup (map (λ new, DataSource_Metadata typeName (new ())) DataSources)
  ∧ Forall (λ name, ∃ suffix, name = typeName +:+ String "_" suffix)
      (map (λ new, Metadata typeName (new ())) Resources
       ++ map (λ new, DataSource_Metadata typeName (new ())) DataSources).
Proof.
  split; [|split].
  - cbn. repeat constructor.
    + intros [Heq%append_inj_r|[]]%list_elem_of_In. discriminate.
    + by intros []%list_elem_of_In.
  - cbn. repeat constructor. by intros []%list_elem_of_In.
  - cbn. repeat constructor; by eexists.
Qed.
